(** * rk628 HDMI receiver: audio clock recovery (rk628_hdmirx.c)

    A shallow embedding of the audio part of
    [drivers/media/i2c/rk628/rk628_hdmirx.c]: the sample-rate estimator
    (supported-rate table, closest-fs snapping, validity filter), the FIFO
    controller, the two periodic tracking works, the interrupt-triggered
    resync work and the two interrupt entry points.

    The later parts embed more of the same file: the TMDS clock counter,
    the AVI readiness poll, the video format and timing detection and the
    CEC code.

    C integers are modelled as [Z] with the wrap-around written out.  The
    kernel is built with [-fno-strict-overflow], so [int] arithmetic wraps;
    every statement below that talks about mathematical differences says
    where the [int] operations are exact. *)

From Stdlib Require Import ZArith List Bool Lia.
Import ListNotations.
Local Open Scope Z_scope.

(** ** Machine integers *)

Module CInt.

Definition U32_MOD : Z := Eval cbv in 2 ^ 32.
Definition U64_MOD : Z := Eval cbv in 2 ^ 64.
Definition INT_MIN : Z := Eval cbv in - 2 ^ 31.
Definition INT_MAX : Z := Eval cbv in 2 ^ 31 - 1.

(** Conversion to [u32], [u64] and [int] (two's complement). *)
Definition u32 (z : Z) : Z := z mod U32_MOD.
Definition u64 (z : Z) : Z := z mod U64_MOD.
Definition s32 (z : Z) : Z := (z - INT_MIN) mod U32_MOD + INT_MIN.

(** [int] subtraction and negation. *)
Definition int_sub (a b : Z) : Z := s32 (a - b).
Definition int_neg (a : Z) : Z := s32 (- a).

(** The kernel's [abs()] on an [int]:
    [({ signed int __x = (x); __x < 0 ? -__x : __x; })]. *)
Definition abs (x : Z) : Z :=
  let __x := s32 x in
  if __x <? 0 then int_neg __x else __x.

(** [div_u64(dividend, divisor)]: unsigned 64 by 32 division. *)
Definition div_u64 (dividend divisor : Z) : Z := u64 dividend / u32 divisor.

(** An [int] value, and a difference that [int] represents. *)
Definition int_range (z : Z) : Prop := INT_MIN <= z <= INT_MAX.

End CInt.
Import CInt.

(** ** The supported-rate table and its two scans *)

(** [static int supported_fs[]], with its terminating [-1]. *)
Definition supported_fs : list Z :=
  [32000; 44100; 48000; 88200; 96000; 176400; 192000; 768000; -1].

(** The entries before the terminator: the supported sample rates. *)
Definition supported_rates : list Z :=
  [32000; 44100; 48000; 88200; 96000; 176400; 192000; 768000].

(** The loop of [is_validfs], started on the part of the table not yet
    read: [fs_t = supported_fs[i++]; while (fs_t > 0) { ... }].  The table
    ends with [-1], so the scan never reads behind it; the [nil] case is the
    read behind the array and is never reached from [supported_fs]. *)
Fixpoint is_validfs_scan (tbl : list Z) (fs : Z) : bool :=
  match tbl with
  | [] => false
  | fs_t :: rest =>
      if fs_t >? 0 then
        if fs =? fs_t then true else is_validfs_scan rest fs
      else false
  end.

(** [static bool is_validfs(int fs)]. *)
Definition is_validfs (fs : Z) : bool := is_validfs_scan supported_fs fs.

(** The loop of [rk628_hdmirx_audio_find_closest_fs]; after the loop the
    function returns [fs_t], the entry that stopped the scan. *)
Fixpoint find_closest_fs_scan (tbl : list Z) (fs : Z) : Z :=
  match tbl with
  | [] => -1
  | fs_t :: rest =>
      if fs_t >? 0 then
        let difference := abs (int_sub fs fs_t) in
        if difference <=? 2000 then fs_t
        else find_closest_fs_scan rest fs
      else fs_t
  end.

(** [static int rk628_hdmirx_audio_find_closest_fs(aif, int fs)]. *)
Definition rk628_hdmirx_audio_find_closest_fs (fs : Z) : Z :=
  find_closest_fs_scan supported_fs fs.

(** ** Registers, bit fields and the effects on the hardware *)

(** The registers the audio code reads or writes.  Their addresses are in
    [rk628_hdmirx.h]; only their identity matters here. *)
Inductive reg : Type :=
| HDMI_RX_HDMI_CKM_RESULT | HDMI_RX_PDEC_ACR_CTS | HDMI_RX_PDEC_ACR_N
| HDMI_RX_AUD_FIFO_ICLR | HDMI_RX_AUD_FIFO_CTRL | HDMI_RX_AUD_FIFO_TH
| HDMI_RX_AUD_FIFO_ISTS | HDMI_RX_AUD_FIFO_FILLSTS1 | HDMI_RX_AUD_FIFO_IEN_SET
| HDMI_RX_DMI_DISABLE_IF | HDMI_RX_AUD_SPARE | GRF_SYSTEM_CON0
| HDMI_RX_PDEC_IEN_CLR | HDMI_RX_PDEC_IEN_SET | HDMI_RX_PDEC_ICLR
| HDMI_RX_AUDPLL_GEN_CTS | HDMI_RX_AUDPLL_GEN_N | HDMI_RX_AUD_CLK_CTRL
| HDMI_RX_AUD_PLL_CTRL | HDMI_RX_AUD_SAO_CTRL | HDMI_RX_AUD_MUTE_CTRL
| HDMI_RX_AUD_PAO_CTRL | HDMI_RX_AUD_CHEXTR_CTRL | HDMI_RX_PDEC_AUDIODET_CTRL
| CRU_MODE_CON00.

(** The bit-field macros [F(x)] (with mask [F_MASK]) the code composes
    register values from; a value built from them is kept as the list of
    fields and arguments, [HIWORD_UPDATE_4_4 1] being
    [HIWORD_UPDATE(1, 4, 4)]. *)
Inductive field : Type :=
| AFIF_TH_START | AFIF_TH_MAX | AFIF_TH_MIN | AUD_ENABLE | SW_I2S_DATA_OEN
| CTS_N_REF | PLL_LOCK_TOGGLE_DIV | AFIF_SUBPACKET_DESEL | AFIF_SUBPACKETS
| I2S_LPCM_BPCUV | I2S_32_16 | I2S_ENABLE_BITS | APPLY_INT_MUTE
| APORT_SHDW_CTRL | AUTO_ACLK_MUTE | AUD_MUTE_SPEED | AUD_AVMUTE_EN
| AUD_MUTE_SEL | AUD_MUTE_MODE | PAO_RATE | AUD_LAYOUT_CTRL
| AUDIODET_THRESHOLD | HIWORD_UPDATE_4_4.

(** The two delayed works of [struct rk628_audioinfo]. *)
Inductive work : Type :=
| delayed_work_audio
| delayed_work_audio_rate_change.

(** What a function does to the world outside [struct rk628_audioinfo]. *)
Inductive effect : Type :=
| i2c_write (r : reg) (val : Z)
| i2c_write_fields (r : reg) (val : list (field * Z))
| i2c_update_bits (r : reg) (val : list (field * Z))
| clk_set_rate_CGU_CLK_HDMIRX_AUD (rate : Z)
| schedule_delayed_work (w : work) (msecs : Z).

(** The interrupt bits and the chip version of the headers
    ([rk628_hdmirx.h], [rk628.h]) enter the arithmetic of the code, so they
    are parameters of the model. *)
Record rk628_hdmirx_h : Type := {
  ACR_N_CHG_ICLR : Z;
  ACR_CTS_CHG_ICLR : Z;
  AFIF_OVERFL_ISTS : Z;
  AFIF_UNDERFL_ISTS : Z;
  AUDS_MAS_SAMPLE_FLAT : Z;
  RK628F_VERSION : Z
}.

(** Two interrupt masks of a 32 bit register that are not empty and share
    no bit. *)
Definition disjoint_masks (a b : Z) : Prop :=
  0 <= a < U32_MOD /\ 0 <= b < U32_MOD /\ a <> 0 /\ b <> 0 /\ Z.land a b = 0.

(** What the model needs of the header: CTS and N have their own bits, and
    so have overflow and underflow. *)
Definition header_ok (h : rk628_hdmirx_h) : Prop :=
  disjoint_masks (ACR_N_CHG_ICLR h) (ACR_CTS_CHG_ICLR h) /\
  disjoint_masks (AFIF_OVERFL_ISTS h) (AFIF_UNDERFL_ISTS h).

(** A header with every interrupt on a bit of its own, used to run the
    model on concrete inputs. *)
Definition sample_header : rk628_hdmirx_h := {|
  ACR_N_CHG_ICLR := Z.shiftl 1 23;
  ACR_CTS_CHG_ICLR := Z.shiftl 1 22;
  AFIF_OVERFL_ISTS := Z.shiftl 1 3;
  AFIF_UNDERFL_ISTS := Z.shiftl 1 4;
  AUDS_MAS_SAMPLE_FLAT := Z.shiftl 1 0;
  RK628F_VERSION := 2
|}.

(** ** The audio state *)

Definition INIT_FIFO_STATE : Z := 64.

(** [struct rk628_audiostate]. *)
Record rk628_audiostate : Type := {
  hdmirx_aud_clkrate : Z;   (* u32 *)
  fs_audio : Z;             (* u32 *)
  ctsn_flag : Z;            (* u32 *)
  fifo_flag : Z;            (* u32 *)
  init_state : Z;           (* int *)
  pre_state : Z;            (* int *)
  fifo_int : bool;
  audio_enable : bool
}.

(** [struct rk628_audioinfo], without the kernel objects (works, mutex,
    device); [version] is [aif->rk628->version]. *)
Record rk628_audioinfo : Type := {
  audio_state : rk628_audiostate;
  i2s_enabled_default : bool;
  i2s_enabled : bool;
  fifo_ints_en : bool;
  ctsn_ints_en : bool;
  audio_present : bool;
  version : Z
}.

(** [HAUDINFO], the handle of the exported functions: [None] is [NULL]. *)
Definition HAUDINFO : Type := option rk628_audioinfo.

(** [aif->audio_state.fs_audio], for the places where the code has a local
    [fs_audio] next to it. *)
Definition audio_state_fs_audio (aif : rk628_audioinfo) : Z :=
  fs_audio (audio_state aif).

(** Assignments to the fields. *)
Definition with_audio_state (f : rk628_audiostate -> rk628_audiostate)
    (aif : rk628_audioinfo) : rk628_audioinfo :=
  {| audio_state := f (audio_state aif);
     i2s_enabled_default := i2s_enabled_default aif;
     i2s_enabled := i2s_enabled aif;
     fifo_ints_en := fifo_ints_en aif;
     ctsn_ints_en := ctsn_ints_en aif;
     audio_present := audio_present aif;
     version := version aif |}.

Definition set_hdmirx_aud_clkrate (v : Z) : rk628_audioinfo -> rk628_audioinfo :=
  with_audio_state (fun st =>
    {| hdmirx_aud_clkrate := v; fs_audio := fs_audio st;
       ctsn_flag := ctsn_flag st; fifo_flag := fifo_flag st;
       init_state := init_state st; pre_state := pre_state st;
       fifo_int := fifo_int st; audio_enable := audio_enable st |}).

Definition set_fs_audio (v : Z) : rk628_audioinfo -> rk628_audioinfo :=
  with_audio_state (fun st =>
    {| hdmirx_aud_clkrate := hdmirx_aud_clkrate st; fs_audio := v;
       ctsn_flag := ctsn_flag st; fifo_flag := fifo_flag st;
       init_state := init_state st; pre_state := pre_state st;
       fifo_int := fifo_int st; audio_enable := audio_enable st |}).

Definition set_ctsn_flag (v : Z) : rk628_audioinfo -> rk628_audioinfo :=
  with_audio_state (fun st =>
    {| hdmirx_aud_clkrate := hdmirx_aud_clkrate st; fs_audio := fs_audio st;
       ctsn_flag := v; fifo_flag := fifo_flag st;
       init_state := init_state st; pre_state := pre_state st;
       fifo_int := fifo_int st; audio_enable := audio_enable st |}).

Definition set_fifo_flag (v : Z) : rk628_audioinfo -> rk628_audioinfo :=
  with_audio_state (fun st =>
    {| hdmirx_aud_clkrate := hdmirx_aud_clkrate st; fs_audio := fs_audio st;
       ctsn_flag := ctsn_flag st; fifo_flag := v;
       init_state := init_state st; pre_state := pre_state st;
       fifo_int := fifo_int st; audio_enable := audio_enable st |}).

Definition set_init_state (v : Z) : rk628_audioinfo -> rk628_audioinfo :=
  with_audio_state (fun st =>
    {| hdmirx_aud_clkrate := hdmirx_aud_clkrate st; fs_audio := fs_audio st;
       ctsn_flag := ctsn_flag st; fifo_flag := fifo_flag st;
       init_state := v; pre_state := pre_state st;
       fifo_int := fifo_int st; audio_enable := audio_enable st |}).

Definition set_pre_state (v : Z) : rk628_audioinfo -> rk628_audioinfo :=
  with_audio_state (fun st =>
    {| hdmirx_aud_clkrate := hdmirx_aud_clkrate st; fs_audio := fs_audio st;
       ctsn_flag := ctsn_flag st; fifo_flag := fifo_flag st;
       init_state := init_state st; pre_state := v;
       fifo_int := fifo_int st; audio_enable := audio_enable st |}).

Definition set_fifo_int (v : bool) : rk628_audioinfo -> rk628_audioinfo :=
  with_audio_state (fun st =>
    {| hdmirx_aud_clkrate := hdmirx_aud_clkrate st; fs_audio := fs_audio st;
       ctsn_flag := ctsn_flag st; fifo_flag := fifo_flag st;
       init_state := init_state st; pre_state := pre_state st;
       fifo_int := v; audio_enable := audio_enable st |}).

Definition set_audio_enable (v : bool) : rk628_audioinfo -> rk628_audioinfo :=
  with_audio_state (fun st =>
    {| hdmirx_aud_clkrate := hdmirx_aud_clkrate st; fs_audio := fs_audio st;
       ctsn_flag := ctsn_flag st; fifo_flag := fifo_flag st;
       init_state := init_state st; pre_state := pre_state st;
       fifo_int := fifo_int st; audio_enable := v |}).

Definition set_i2s_enabled (v : bool) (aif : rk628_audioinfo) : rk628_audioinfo :=
  {| audio_state := audio_state aif;
     i2s_enabled_default := i2s_enabled_default aif;
     i2s_enabled := v;
     fifo_ints_en := fifo_ints_en aif;
     ctsn_ints_en := ctsn_ints_en aif;
     audio_present := audio_present aif;
     version := version aif |}.

Definition set_fifo_ints_en (v : bool) (aif : rk628_audioinfo) : rk628_audioinfo :=
  {| audio_state := audio_state aif;
     i2s_enabled_default := i2s_enabled_default aif;
     i2s_enabled := i2s_enabled aif;
     fifo_ints_en := v;
     ctsn_ints_en := ctsn_ints_en aif;
     audio_present := audio_present aif;
     version := version aif |}.

Definition set_ctsn_ints_en (v : bool) (aif : rk628_audioinfo) : rk628_audioinfo :=
  {| audio_state := audio_state aif;
     i2s_enabled_default := i2s_enabled_default aif;
     i2s_enabled := i2s_enabled aif;
     fifo_ints_en := fifo_ints_en aif;
     ctsn_ints_en := v;
     audio_present := audio_present aif;
     version := version aif |}.

Definition set_audio_present (v : bool) (aif : rk628_audioinfo) : rk628_audioinfo :=
  {| audio_state := audio_state aif;
     i2s_enabled_default := i2s_enabled_default aif;
     i2s_enabled := i2s_enabled aif;
     fifo_ints_en := fifo_ints_en aif;
     ctsn_ints_en := ctsn_ints_en aif;
     audio_present := v;
     version := version aif |}.

(** ** Actions: state passing with a log of effects *)

(** A [void] function on [aif]: the new state and the effects, in the order
    they happen. *)
Definition action : Type := rk628_audioinfo -> rk628_audioinfo * list effect.

Definition skip : action := fun aif => (aif, []).

Definition seq (c1 c2 : action) : action :=
  fun aif =>
    let r1 := c1 aif in
    let r2 := c2 (fst r1) in
    (fst r2, snd r1 ++ snd r2).

Definition emit (e : effect) : action := fun aif => (aif, [e]).

Definition assign (f : rk628_audioinfo -> rk628_audioinfo) : action :=
  fun aif => (f aif, []).

Notation "c1 ;; c2" := (seq c1 c2) (at level 61, right associativity).

(** [rk628_i2c_read]: the registers are an input of each run of a function,
    [hw r] being what the read of [r] in that run delivers (no function
    reads a register twice); the value is a [u32]. *)
Definition rk628_i2c_read (hw : reg -> Z) (r : reg) : Z := u32 (hw r).

(** ** Fs estimator *)

(** [tmdsclk] of [_rk628_hdmirx_audio_fs]: the counter is masked to 16 bits
    and multiplied in [u32], the product is widened to [u64]. *)
Definition audio_tmdsclk (hw : reg -> Z) : Z :=
  let clkrate := Z.land (rk628_i2c_read hw HDMI_RX_HDMI_CKM_RESULT) 65535 in
  u64 (u32 (clkrate * (49500000 / 1000))).

(** [fs_audio] of [_rk628_hdmirx_audio_fs] before the snapping, for a CTS
    that is not 0: [div_u64(tmdsclk * n_decoded, cts_decoded)] stored to the
    [u32], then [/= 128]. *)
Definition audio_fs_raw (hw : reg -> Z) : Z :=
  let cts_decoded := rk628_i2c_read hw HDMI_RX_PDEC_ACR_CTS in
  let n_decoded := rk628_i2c_read hw HDMI_RX_PDEC_ACR_N in
  u32 (div_u64 (u64 (audio_tmdsclk hw * n_decoded)) cts_decoded) / 128.

(** [static u32 _rk628_hdmirx_audio_fs(aif)]. *)
Definition _rk628_hdmirx_audio_fs (hw : reg -> Z) : Z :=
  let cts_decoded := rk628_i2c_read hw HDMI_RX_PDEC_ACR_CTS in
  let fs_audio :=
    if negb (cts_decoded =? 0)
    then u32 (rk628_hdmirx_audio_find_closest_fs (s32 (audio_fs_raw hw)))
    else 0 in
  if negb (is_validfs (s32 fs_audio)) then 0 else fs_audio.

(** ** FIFO controller and clock *)

(** [rk628_hdmirx_audio_fifo_init]. *)
Definition rk628_hdmirx_audio_fifo_init : action :=
  emit (i2c_write HDMI_RX_AUD_FIFO_ICLR 31) ;;
  emit (i2c_write HDMI_RX_AUD_FIFO_CTRL 65537) ;;
  emit (i2c_write HDMI_RX_AUD_FIFO_CTRL 65536) ;;
  assign (set_init_state (INIT_FIFO_STATE * 4)) ;;
  assign (set_pre_state (INIT_FIFO_STATE * 4)).

(** [rk628_hdmirx_audio_fifo_initd]. *)
Definition rk628_hdmirx_audio_fifo_initd : action :=
  emit (i2c_write HDMI_RX_AUD_FIFO_ICLR 31) ;;
  emit (i2c_update_bits HDMI_RX_AUD_FIFO_TH [(AFIF_TH_START, 192)]) ;;
  emit (i2c_write HDMI_RX_AUD_FIFO_CTRL 65537) ;;
  emit (i2c_write HDMI_RX_AUD_FIFO_CTRL 65536) ;;
  emit (i2c_write HDMI_RX_AUD_FIFO_CTRL 65537) ;;
  emit (i2c_write HDMI_RX_AUD_FIFO_CTRL 65536) ;;
  emit (i2c_update_bits HDMI_RX_AUD_FIFO_TH [(AFIF_TH_START, INIT_FIFO_STATE)]) ;;
  assign (set_init_state (INIT_FIFO_STATE * 4)) ;;
  assign (set_pre_state (INIT_FIFO_STATE * 4)).

(** [rk628_hdmirx_audio_clk_set_rate]. *)
Definition rk628_hdmirx_audio_clk_set_rate (rate : Z) : action :=
  emit (clk_set_rate_CGU_CLK_HDMIRX_AUD rate) ;;
  assign (set_hdmirx_aud_clkrate rate).

(** [rk628_hdmirx_audio_clk_inc_rate]: [u32 + int], in [u32]. *)
Definition rk628_hdmirx_audio_clk_inc_rate (dis : Z) : action :=
  fun aif =>
    let hdmirx_aud_clkrate := u32 (hdmirx_aud_clkrate (audio_state aif) + dis) in
    (emit (clk_set_rate_CGU_CLK_HDMIRX_AUD hdmirx_aud_clkrate) ;;
     assign (set_hdmirx_aud_clkrate hdmirx_aud_clkrate)) aif.

(** [rk628_hdmirx_audio_set_fs]. *)
Definition rk628_hdmirx_audio_set_fs (fs_audio : Z) : action :=
  let hdmirx_aud_clkrate_t := u32 (fs_audio * 128) in
  emit (clk_set_rate_CGU_CLK_HDMIRX_AUD hdmirx_aud_clkrate_t) ;;
  assign (set_hdmirx_aud_clkrate hdmirx_aud_clkrate_t) ;;
  assign (set_fs_audio fs_audio).

(** ** Rate tracking: the works and the interrupt entry points *)

Section Tracking.

Context (h : rk628_hdmirx_h).

(** [rk628_hdmirx_audio_enable]. *)
Definition rk628_hdmirx_audio_enable (hw : reg -> Z) : action :=
  let fifo_ints := rk628_i2c_read hw HDMI_RX_AUD_FIFO_ISTS in
  (if Z.land fifo_ints 24 =? 24 then rk628_hdmirx_audio_fifo_initd
   else if negb (Z.land fifo_ints 24 =? 0) then rk628_hdmirx_audio_fifo_init
   else skip) ;;
  emit (i2c_update_bits HDMI_RX_DMI_DISABLE_IF [(AUD_ENABLE, 1)]) ;;
  assign (set_audio_enable true) ;;
  assign (set_fifo_ints_en true) ;;
  emit (i2c_write HDMI_RX_AUD_FIFO_IEN_SET
          (Z.lor (AFIF_OVERFL_ISTS h) (AFIF_UNDERFL_ISTS h))).

(** The statements of [rk628_csi_delayed_work_audio_v2] from
    [if (fifo_status != 0)] down to the [exit] label; they run after the
    test of [fs_audio] unless that test jumps to [exit]. *)
Definition audio_v2_adjust (hw : reg -> Z)
    (init_state pre_state fifo_status : Z) : action :=
  (if negb (fifo_status =? 0) then
     (fun aif =>
        if negb (audio_present aif)
        then assign (set_audio_present true) aif
        else skip aif) ;;
     (if (int_sub fifo_status init_state >? 16)
           && (int_sub fifo_status pre_state >? 0)
      then rk628_hdmirx_audio_clk_inc_rate 10
      else if (int_sub fifo_status init_state <? -16)
                && (int_sub fifo_status pre_state <? 0)
      then rk628_hdmirx_audio_clk_inc_rate (-10)
      else skip)
   else
     (fun aif =>
        if audio_present aif
        then assign (set_audio_present false) aif
        else skip aif)) ;;
  assign (set_pre_state fifo_status) ;;
  (let sample_flat :=
     Z.land (rk628_i2c_read hw HDMI_RX_AUD_SPARE) (AUDS_MAS_SAMPLE_FLAT h) in
   if sample_flat =? 0
   then emit (i2c_update_bits GRF_SYSTEM_CON0 [(SW_I2S_DATA_OEN, 0)])
   else emit (i2c_update_bits GRF_SYSTEM_CON0 [(SW_I2S_DATA_OEN, 1)])).

(** [rk628_csi_delayed_work_audio_v2]: the periodic work of the newer
    chips. *)
Definition rk628_csi_delayed_work_audio_v2 (hw : reg -> Z) : action :=
  fun aif =>
    let fs_audio := _rk628_hdmirx_audio_fs hw in
    let fifo_ints := s32 (rk628_i2c_read hw HDMI_RX_AUD_FIFO_ISTS) in
    if negb (Z.land fifo_ints
               (Z.lor (AFIF_UNDERFL_ISTS h) (AFIF_OVERFL_ISTS h)) =? 0)
    then
      ((if is_validfs (s32 fs_audio)
        then rk628_hdmirx_audio_set_fs fs_audio else skip) ;;
       rk628_hdmirx_audio_fifo_init ;;
       assign (set_pre_state 0) ;;
       emit (schedule_delayed_work delayed_work_audio 500)) aif
    else
      let init_state := init_state (audio_state aif) in
      let pre_state := pre_state (audio_state aif) in
      let fifo_status := s32 (rk628_i2c_read hw HDMI_RX_AUD_FIFO_FILLSTS1) in
      if negb (is_validfs (s32 fs_audio)) then
        (audio_v2_adjust hw init_state pre_state fifo_status ;;
         emit (schedule_delayed_work delayed_work_audio 1000)) aif
      else if abs (u32 (fs_audio - audio_state_fs_audio aif)) >? 1000 then
        (rk628_hdmirx_audio_set_fs fs_audio ;;
         rk628_hdmirx_audio_fifo_init ;;
         assign (set_pre_state 0) ;;
         emit (schedule_delayed_work delayed_work_audio 500)) aif
      else
        (audio_v2_adjust hw init_state pre_state fifo_status ;;
         emit (schedule_delayed_work delayed_work_audio 500)) aif.

(** [rk628_csi_delayed_work_audio]: the periodic work of the older chips. *)
Definition rk628_csi_delayed_work_audio (hw : reg -> Z) : action :=
  fun aif =>
    let init_state := init_state (audio_state aif) in
    let pre_state := pre_state (audio_state aif) in
    let fs_audio := _rk628_hdmirx_audio_fs hw in
    if negb (is_validfs (s32 fs_audio)) then
      emit (schedule_delayed_work delayed_work_audio 1000) aif
    else if negb (audio_enable (audio_state aif)) then
      (rk628_hdmirx_audio_set_fs fs_audio ;;
       rk628_hdmirx_audio_enable hw ;;
       emit (schedule_delayed_work delayed_work_audio 1000)) aif
    else
      let cur_state := s32 (rk628_i2c_read hw HDMI_RX_AUD_FIFO_FILLSTS1) in
      ((if abs (u32 (fs_audio - audio_state_fs_audio aif)) >? 1000
        then rk628_hdmirx_audio_set_fs fs_audio else skip) ;;
       (if negb (cur_state =? 0)
        then assign (set_audio_present true)
        else assign (set_audio_present false)) ;;
       (if (int_sub cur_state init_state >? 16)
             && (int_sub cur_state pre_state >? 0)
        then rk628_hdmirx_audio_clk_inc_rate 10
        else if negb (cur_state =? 0)
                  && (int_sub cur_state init_state <? -16)
                  && (int_sub cur_state pre_state <? 0)
        then rk628_hdmirx_audio_clk_inc_rate (-10)
        else skip) ;;
       assign (set_pre_state cur_state) ;;
       emit (schedule_delayed_work delayed_work_audio 1000)) aif.

(** [rk628_csi_delayed_work_audio_rate_change]: the resync work, run under
    [confctl_mutex]. *)
Definition rk628_csi_delayed_work_audio_rate_change (hw : reg -> Z) : action :=
  let fs_audio := _rk628_hdmirx_audio_fs hw in
  (fun aif =>
     if ctsn_flag (audio_state aif)
          =? Z.lor (ACR_N_CHG_ICLR h) (ACR_CTS_CHG_ICLR h)
     then
       (assign (set_ctsn_flag 0) ;;
        (if is_validfs (s32 fs_audio)
         then rk628_hdmirx_audio_set_fs fs_audio ;;
              rk628_hdmirx_audio_enable hw
         else skip) ;;
        emit (schedule_delayed_work delayed_work_audio 1000)) aif
     else skip aif) ;;
  (fun aif =>
     if fifo_int (audio_state aif) then
       (assign (set_fifo_int false) ;;
        (if is_validfs (s32 fs_audio)
         then rk628_hdmirx_audio_set_fs fs_audio else skip) ;;
        (let fifo_fillsts := rk628_i2c_read hw HDMI_RX_AUD_FIFO_FILLSTS1 in
         if fifo_fillsts =? 0
         then rk628_hdmirx_audio_fifo_initd
         else rk628_hdmirx_audio_fifo_initd)) aif
     else skip aif).

(** The function [rk628_hdmirx_audioinfo_alloc] installs for
    [delayed_work_audio]. *)
Definition delayed_work_audio_fn (hw : reg -> Z) : action :=
  fun aif =>
    if version aif >=? RK628F_VERSION h
    then rk628_csi_delayed_work_audio_v2 hw aif
    else rk628_csi_delayed_work_audio hw aif.

(** [rk628_hdmirx_audio_i2s_ctrl]. *)
Definition rk628_hdmirx_audio_i2s_ctrl (enable : bool) : action :=
  fun aif =>
    if Bool.eqb enable (i2s_enabled aif) then skip aif
    else
      ((if enable
        then emit (i2c_write_fields HDMI_RX_AUD_SAO_CTRL
                     [(I2S_LPCM_BPCUV, 0); (I2S_32_16, 1)])
        else emit (i2c_write_fields HDMI_RX_AUD_SAO_CTRL
                     [(I2S_LPCM_BPCUV, 0); (I2S_32_16, 1);
                      (I2S_ENABLE_BITS, 63)])) ;;
       assign (set_i2s_enabled enable)) aif.

(** [rk628_hdmirx_audio_setup]. *)
Definition rk628_hdmirx_audio_setup : action :=
  let audio_pll_n := 5644 in
  let audio_pll_cts := 148500 in
  assign (set_ctsn_flag 0) ;;
  assign (set_fs_audio 0) ;;
  assign (set_pre_state 0) ;;
  assign (set_init_state (INIT_FIFO_STATE * 4)) ;;
  assign (set_fifo_int false) ;;
  assign (set_audio_enable false) ;;
  assign (set_fifo_ints_en false) ;;
  assign (set_ctsn_ints_en false) ;;
  assign (set_i2s_enabled false) ;;
  (fun aif =>
     if version aif >=? RK628F_VERSION h
     then emit (i2c_write_fields CRU_MODE_CON00 [(HIWORD_UPDATE_4_4, 1)]) aif
     else skip aif) ;;
  rk628_hdmirx_audio_clk_set_rate 5644800 ;;
  emit (i2c_write HDMI_RX_AUDPLL_GEN_CTS audio_pll_cts) ;;
  emit (i2c_write HDMI_RX_AUDPLL_GEN_N audio_pll_n) ;;
  emit (i2c_update_bits HDMI_RX_AUD_CLK_CTRL [(CTS_N_REF, 1)]) ;;
  emit (i2c_update_bits HDMI_RX_AUD_PLL_CTRL [(PLL_LOCK_TOGGLE_DIV, 0)]) ;;
  emit (i2c_update_bits HDMI_RX_AUD_FIFO_TH
          [(AFIF_TH_START, 64); (AFIF_TH_MAX, 8); (AFIF_TH_MIN, 8)]) ;;
  emit (i2c_update_bits HDMI_RX_AUD_FIFO_CTRL
          [(AFIF_SUBPACKET_DESEL, 0); (AFIF_SUBPACKETS, 1)]) ;;
  (fun aif =>
     emit (i2c_write_fields HDMI_RX_AUD_SAO_CTRL
             ([(I2S_LPCM_BPCUV, 0); (I2S_32_16, 1)] ++
              (if i2s_enabled_default aif then []
               else [(I2S_ENABLE_BITS, 63)]))) aif) ;;
  (fun aif => assign (set_i2s_enabled (i2s_enabled_default aif)) aif) ;;
  emit (i2c_write_fields HDMI_RX_AUD_MUTE_CTRL
          [(APPLY_INT_MUTE, 0); (APORT_SHDW_CTRL, 3); (AUTO_ACLK_MUTE, 2);
           (AUD_MUTE_SPEED, 1); (AUD_AVMUTE_EN, 1); (AUD_MUTE_SEL, 0);
           (AUD_MUTE_MODE, 1)]) ;;
  emit (i2c_write_fields HDMI_RX_AUD_PAO_CTRL [(PAO_RATE, 0)]) ;;
  emit (i2c_write_fields HDMI_RX_AUD_CHEXTR_CTRL [(AUD_LAYOUT_CTRL, 1)]) ;;
  (fun aif =>
     if version aif >=? RK628F_VERSION h then
       (emit (i2c_update_bits HDMI_RX_DMI_DISABLE_IF [(AUD_ENABLE, 1)]) ;;
        emit (schedule_delayed_work delayed_work_audio 1000)) aif
     else
       (assign (set_ctsn_ints_en true) ;;
        emit (i2c_write HDMI_RX_PDEC_IEN_SET
                (Z.lor (ACR_N_CHG_ICLR h) (ACR_CTS_CHG_ICLR h))) ;;
        emit (i2c_write_fields HDMI_RX_PDEC_AUDIODET_CTRL
                [(AUDIODET_THRESHOLD, 0)])) aif).

(** [rk628_csi_isr_ctsn]. *)
Definition rk628_csi_isr_ctsn (pdec_ints : Z) : action :=
  let pdec_ints := u32 pdec_ints in
  let ctsn_mask := u32 (Z.lor (ACR_N_CHG_ICLR h) (ACR_CTS_CHG_ICLR h)) in
  (if negb (Z.land pdec_ints (ACR_N_CHG_ICLR h) =? 0)
   then (fun aif =>
           assign (set_ctsn_flag
                     (u32 (Z.lor (ctsn_flag (audio_state aif))
                                 (ACR_N_CHG_ICLR h)))) aif)
   else skip) ;;
  (if negb (Z.land pdec_ints (ACR_CTS_CHG_ICLR h) =? 0)
   then (fun aif =>
           assign (set_ctsn_flag
                     (u32 (Z.lor (ctsn_flag (audio_state aif))
                                 (ACR_CTS_CHG_ICLR h)))) aif)
   else skip) ;;
  (fun aif =>
     if ctsn_flag (audio_state aif) =? ctsn_mask then
       (emit (i2c_write HDMI_RX_PDEC_IEN_CLR ctsn_mask) ;;
        assign (set_ctsn_ints_en false) ;;
        emit (schedule_delayed_work delayed_work_audio_rate_change 0)) aif
     else skip aif) ;;
  emit (i2c_write HDMI_RX_PDEC_ICLR (Z.land pdec_ints ctsn_mask)).

(** [rk628_csi_isr_fifoints]. *)
Definition rk628_csi_isr_fifoints (fifo_ints : Z) : action :=
  let fifo_ints := u32 fifo_ints in
  let fifo_mask := u32 (Z.lor (AFIF_OVERFL_ISTS h) (AFIF_UNDERFL_ISTS h)) in
  (if negb (Z.land fifo_ints (AFIF_OVERFL_ISTS h) =? 0)
   then (fun aif =>
           assign (set_fifo_flag
                     (u32 (Z.lor (fifo_flag (audio_state aif))
                                 (AFIF_OVERFL_ISTS h)))) aif)
   else skip) ;;
  (if negb (Z.land fifo_ints (AFIF_UNDERFL_ISTS h) =? 0)
   then (fun aif =>
           assign (set_fifo_flag
                     (u32 (Z.lor (fifo_flag (audio_state aif))
                                 (AFIF_UNDERFL_ISTS h)))) aif)
   else skip) ;;
  (fun aif =>
     if fifo_flag (audio_state aif) =? fifo_mask then
       (assign (set_fifo_int true) ;;
        assign (set_fifo_flag 0) ;;
        emit (schedule_delayed_work delayed_work_audio_rate_change 0)) aif
     else skip aif) ;;
  emit (i2c_write HDMI_RX_AUD_FIFO_ICLR (Z.land fifo_ints fifo_mask)).

(** The operations that change the audio state between setup and
    teardown: the periodic work in either variant, the resync work, the two
    interrupt entry points, the I2S switch and a renewed setup. *)
Inductive operation : Type :=
| op_tick_v2 (hw : reg -> Z)
| op_tick (hw : reg -> Z)
| op_rate_change (hw : reg -> Z)
| op_isr_ctsn (pdec_ints : Z)
| op_isr_fifoints (fifo_ints : Z)
| op_i2s_ctrl (enable : bool)
| op_setup.

Definition run_operation (o : operation) : action :=
  match o with
  | op_tick_v2 hw => rk628_csi_delayed_work_audio_v2 hw
  | op_tick hw => rk628_csi_delayed_work_audio hw
  | op_rate_change hw => rk628_csi_delayed_work_audio_rate_change hw
  | op_isr_ctsn pdec_ints => rk628_csi_isr_ctsn pdec_ints
  | op_isr_fifoints fifo_ints => rk628_csi_isr_fifoints fifo_ints
  | op_i2s_ctrl enable => rk628_hdmirx_audio_i2s_ctrl enable
  | op_setup => rk628_hdmirx_audio_setup
  end.

(** The states reachable from setup, on whatever the allocation left in
    the structure. *)
Inductive reachable : rk628_audioinfo -> Prop :=
| reachable_setup (aif0 : rk628_audioinfo) :
    reachable (fst (rk628_hdmirx_audio_setup aif0))
| reachable_step (aif : rk628_audioinfo) (o : operation) :
    reachable aif -> reachable (fst (run_operation o aif)).

(** A run of operations: the final state and all effects. *)
Fixpoint run_operations (os : list operation) : action :=
  match os with
  | [] => skip
  | o :: rest => run_operation o ;; run_operations rest
  end.

End Tracking.

(** ** The public accessors *)

(** [rk628_hdmirx_audio_present]. *)
Definition rk628_hdmirx_audio_present (info : HAUDINFO) : bool :=
  match info with
  | None => false
  | Some aif => audio_present aif
  end.

(** [rk628_hdmirx_audio_fs]: the [u32] field is returned as [int]. *)
Definition rk628_hdmirx_audio_fs (info : HAUDINFO) : Z :=
  match info with
  | None => 0
  | Some aif => s32 (fs_audio (audio_state aif))
  end.

(** [rk628_audio_fifoints_enabled], [rk628_audio_ctsnints_enabled]. *)
Definition rk628_audio_fifoints_enabled (aif : rk628_audioinfo) : bool :=
  fifo_ints_en aif.

Definition rk628_audio_ctsnints_enabled (aif : rk628_audioinfo) : bool :=
  ctsn_ints_en aif.

(** ** Reading the log of effects *)

(** The rates handed to [rk628_clk_set_rate], in order. *)
Fixpoint clk_rates (es : list effect) : list Z :=
  match es with
  | [] => []
  | clk_set_rate_CGU_CLK_HDMIRX_AUD rate :: rest => rate :: clk_rates rest
  | _ :: rest => clk_rates rest
  end.

(** How often the resync work was dispatched
    ([schedule_delayed_work(&aif->delayed_work_audio_rate_change, 0)]). *)
Fixpoint resync_dispatches (es : list effect) : nat :=
  match es with
  | [] => O
  | schedule_delayed_work delayed_work_audio_rate_change _ :: rest =>
      S (resync_dispatches rest)
  | _ :: rest => resync_dispatches rest
  end.

(** The write that tells a run of [rk628_hdmirx_audio_fifo_initd]: it is
    the one function that raises the start threshold to 192, and does so
    once per call. *)
Definition is_fifo_initd_mark (e : effect) : bool :=
  match e with
  | i2c_update_bits HDMI_RX_AUD_FIFO_TH [(AFIF_TH_START, 192)] => true
  | _ => false
  end.

(** How often [rk628_hdmirx_audio_fifo_initd] ran. *)
Definition fifo_initd_calls (es : list effect) : nat :=
  length (filter is_fifo_initd_mark es).

(** ** Properties of states and actions *)

(** The tracked rate is 0 or a supported rate. *)
Definition fs_audio_ok (aif : rk628_audioinfo) : Prop :=
  fs_audio (audio_state aif) = 0 \/
  In (fs_audio (audio_state aif)) supported_rates.

(** An action keeps a property of the state. *)
Definition preserves (P : rk628_audioinfo -> Prop) (c : action) : Prop :=
  forall aif, P aif -> P (fst (c aif)).

(** ** Accumulated interrupt flags *)

(** The value of an accumulating flag word ([ctsn_flag], [fifo_flag]) made
    of the two masks [a] and [b], given which of them has been seen. *)
Definition flag_of (a b : Z) (seen_a seen_b : bool) : Z :=
  Z.lor (if seen_a then a else 0) (if seen_b then b else 0).

(** An interrupt status word carries a bit of the mask. *)
Definition carries (ints mask : Z) : bool := negb (Z.land (u32 ints) mask =? 0).

(** Some call of a list carries a bit of the mask. *)
Definition seen (mask : Z) (calls : list Z) : bool :=
  existsb (fun ints => carries ints mask) calls.

(** ** Sample inputs *)

(** Register contents for one run of a function: the TMDS clock counter,
    CTS, N, the FIFO interrupt status, the FIFO fill status and the spare
    register; every other register reads 0. *)
Definition registers (ckm cts n ists fillsts spare : Z) (r : reg) : Z :=
  match r with
  | HDMI_RX_HDMI_CKM_RESULT => ckm
  | HDMI_RX_PDEC_ACR_CTS => cts
  | HDMI_RX_PDEC_ACR_N => n
  | HDMI_RX_AUD_FIFO_ISTS => ists
  | HDMI_RX_AUD_FIFO_FILLSTS1 => fillsts
  | HDMI_RX_AUD_SPARE => spare
  | _ => 0
  end.

(** The structure as [devm_kzalloc] leaves it, for a chip of the given
    version. *)
Definition zeroed_audioinfo (chip_version : Z) : rk628_audioinfo := {|
  audio_state := {|
    hdmirx_aud_clkrate := 0; fs_audio := 0; ctsn_flag := 0; fifo_flag := 0;
    init_state := 0; pre_state := 0; fifo_int := false;
    audio_enable := false |};
  i2s_enabled_default := false;
  i2s_enabled := false;
  fifo_ints_en := false;
  ctsn_ints_en := false;
  audio_present := false;
  version := chip_version
|}.

(** A state in steady tracking of 44100 Hz with the given previous fill
    level. *)
Definition tracking_audioinfo (chip_version prev : Z) : rk628_audioinfo := {|
  audio_state := {|
    hdmirx_aud_clkrate := 5644800; fs_audio := 44100; ctsn_flag := 0;
    fifo_flag := 0; init_state := 256; pre_state := prev; fifo_int := false;
    audio_enable := true |};
  i2s_enabled_default := false;
  i2s_enabled := false;
  fifo_ints_en := true;
  ctsn_ints_en := false;
  audio_present := true;
  version := chip_version
|}.

(** ** Further readings of states and logs *)

(** The delays, in ms, with which the periodic work was scheduled
    ([schedule_delayed_work(&aif->delayed_work_audio, ...)]), in order. *)
Fixpoint tick_schedules (es : list effect) : list Z :=
  match es with
  | [] => []
  | schedule_delayed_work delayed_work_audio msecs :: rest =>
      msecs :: tick_schedules rest
  | _ :: rest => tick_schedules rest
  end.

(** The reference fill level is the one of a FIFO initialisation. *)
Definition init_state_ok (aif : rk628_audioinfo) : Prop :=
  init_state (audio_state aif) = INIT_FIFO_STATE * 4.

(** The accumulated FIFO error flags hold at most one of the two bits. *)
Definition fifo_flag_partial (h : rk628_hdmirx_h) (aif : rk628_audioinfo) : Prop :=
  exists so su : bool,
    so && su = false /\
    fifo_flag (audio_state aif)
      = flag_of (AFIF_OVERFL_ISTS h) (AFIF_UNDERFL_ISTS h) so su.

(** How often the FIFO enable bit was pulsed (the write of [0x10001] to
    [HDMI_RX_AUD_FIFO_CTRL]): once by [rk628_hdmirx_audio_fifo_init], twice
    by [rk628_hdmirx_audio_fifo_initd]. *)
Definition is_fifo_pulse (e : effect) : bool :=
  match e with
  | i2c_write HDMI_RX_AUD_FIFO_CTRL 65537 => true
  | _ => false
  end.

Definition fifo_pulses (es : list effect) : nat :=
  length (filter is_fifo_pulse es).

(** An action, run on [a], ends in state [s] with the effects [es]. *)
Definition runs (c : action) (a s : rk628_audioinfo) (es : list effect) : Prop :=
  c a = (s, es).

(** ** The rest of the receiver: TMDS clock counter *)

(** Conversion to [u8]. *)
Definition u8 (z : Z) : Z := z mod 256.

(** [struct hdmirx_tmdsclk_cnt]. *)
Record hdmirx_tmdsclk_cnt : Type := {
  tmds_cnt : Z;   (* u32 *)
  cnt : Z         (* u8 *)
}.

Definition HDMIRX_GET_TMDSCLK_TIME : nat := 21.

(** The inner loop of [rk628_hdmirx_get_tmdsclk_cnt] over the slots from
    [j] on: the first slot that holds the value, or holds 0, takes the
    value and counts; the loop then breaks. *)
Fixpoint tmdsclk_tally (tmdsclk : list hdmirx_tmdsclk_cnt) (tmdsclk_cnt : Z)
    : list hdmirx_tmdsclk_cnt :=
  match tmdsclk with
  | [] => []
  | slot :: rest =>
      if (tmdsclk_cnt =? tmds_cnt slot) || (tmds_cnt slot =? 0)
      then {| tmds_cnt := tmdsclk_cnt; cnt := u8 (cnt slot + 1) |} :: rest
      else slot :: tmdsclk_tally rest tmdsclk_cnt
  end.

(** The first loop, [n] more iterations from iteration [i]; [ckm i] is what
    the read of [HDMI_RX_HDMI_CKM_RESULT] in iteration [i] delivers. *)
Fixpoint tmdsclk_sample (ckm : nat -> Z) (i n : nat)
    (tmdsclk : list hdmirx_tmdsclk_cnt) (tmdsclk_cnt : Z)
    : list hdmirx_tmdsclk_cnt * Z :=
  match n with
  | O => (tmdsclk, tmdsclk_cnt)
  | S n' =>
      let val := u32 (ckm i) in
      let tmdsclk_cnt := Z.land val 65535 in
      tmdsclk_sample ckm (S i) n' (tmdsclk_tally tmdsclk tmdsclk_cnt) tmdsclk_cnt
  end.

(** The second loop over the slots from [i] on; [prev] is [tmdsclk[i - 1]],
    absent for [i = 0]. *)
Fixpoint tmdsclk_pick (tmdsclk : list hdmirx_tmdsclk_cnt)
    (prev : option hdmirx_tmdsclk_cnt) (tmdsclk_cnt : Z) : Z :=
  match tmdsclk with
  | [] => tmdsclk_cnt
  | slot :: rest =>
      if tmds_cnt slot =? 0 then tmdsclk_cnt
      else
        match prev with
        | None => tmdsclk_pick rest (Some slot) (tmds_cnt slot)
        | Some before =>
            tmdsclk_pick rest (Some slot)
              (if cnt slot >? cnt before then tmds_cnt slot else tmdsclk_cnt)
        end
  end.

(** [u32 rk628_hdmirx_get_tmdsclk_cnt(struct rk628 *rk628)]. *)
Definition rk628_hdmirx_get_tmdsclk_cnt (ckm : nat -> Z) : Z :=
  let sampled :=
    tmdsclk_sample ckm 0 HDMIRX_GET_TMDSCLK_TIME
      (repeat {| tmds_cnt := 0; cnt := 0 |} HDMIRX_GET_TMDSCLK_TIME) 0 in
  tmdsclk_pick (fst sampled) None (snd sampled).

(** The 16 bit counter values the 21 reads deliver. *)
Definition tmdsclk_reads (ckm : nat -> Z) : list Z :=
  map (fun i => Z.land (u32 (ckm i)) 65535) (List.seq 0 HDMIRX_GET_TMDSCLK_TIME).

(** A slot is empty or holds one of the given values. *)
Definition slot_from (vals : list Z) (slot : hdmirx_tmdsclk_cnt) : Prop :=
  tmds_cnt slot = 0 \/ In (tmds_cnt slot) vals.

(** The table after [ca] reads of [a] and [cb] reads of [b], with [k + 2]
    slots. *)
Definition two_value_table (a b ca cb : Z) (k : nat) : list hdmirx_tmdsclk_cnt :=
  {| tmds_cnt := a; cnt := ca |} ::
  (if cb =? 0
   then repeat {| tmds_cnt := 0; cnt := 0 |} (S k)
   else {| tmds_cnt := b; cnt := cb |} :: repeat {| tmds_cnt := 0; cnt := 0 |} k).

(** How often a value occurs in a list of reads. *)
Definition occurrences (v : Z) (vals : list Z) : Z :=
  Z.of_nat (count_occ Z.eq_dec vals v).


(** ** The rest of the receiver: AVI readiness *)

(** What [rk628_is_avi_ready] does on the bus and the sleeps between the
    polls, in order. *)
Inductive avi_effect : Type :=
  | read_HDMI_RX_HDCP_CTRL
  | read_HDMI_RX_PDEC_AVI_PB
  | write_HDMI_RX_HDCP_CTRL (val : Z)
  | msleep_30.

Section AviReady.

(** Of the headers: the version of the RK628F (in [h]) and the HDCP enable
    bits of [HDMI_RX_HDCP_CTRL]. *)
Variable h : rk628_hdmirx_h.
Variable HDCP_ENABLE_MASK : Z.

(** The [for] loop of [rk628_is_avi_ready], [n] more iterations from
    iteration [i].  [avi i] and [hdcp i] are what the reads of
    [HDMI_RX_PDEC_AVI_PB] and of [HDMI_RX_HDCP_CTRL] in iteration [i]
    deliver.  The result is [cnt] after the loop and what was done. *)
Fixpoint avi_ready_poll (avi hdcp : nat -> Z) (avi_rcv_rdy : bool) (max_cnt : Z)
    (i n : nat) (avi_pb cnt hdcp_ctrl_val : Z) : Z * list avi_effect :=
  match n with
  | O => (cnt, [])
  | S n' =>
      let val := u32 (avi i) in
      let force := (30 <? Z.of_nat i) && (Z.land hdcp_ctrl_val 1024 =? 0) in
      let hdcp_ctrl_val :=
        if force then Z.lor (u32 (hdcp i)) 1024 else hdcp_ctrl_val in
      let now :=
        read_HDMI_RX_PDEC_AVI_PB ::
        (if force
         then [read_HDMI_RX_HDCP_CTRL; write_HDMI_RX_HDCP_CTRL hdcp_ctrl_val]
         else []) in
      if negb (val =? 0) && (val =? avi_pb) && avi_rcv_rdy then
        let cnt := u8 (cnt + 1) in
        if cnt >=? max_cnt then (cnt, now)
        else
          let r := avi_ready_poll avi hdcp avi_rcv_rdy max_cnt (S i) n'
                     avi_pb cnt hdcp_ctrl_val in
          (fst r, now ++ msleep_30 :: snd r)
      else
        let r := avi_ready_poll avi hdcp avi_rcv_rdy max_cnt (S i) n'
                   val 0 hdcp_ctrl_val in
        (fst r, now ++ msleep_30 :: snd r)
  end.

(** [max_cnt] after the first read of [HDMI_RX_HDCP_CTRL]. *)
Definition avi_ready_max_cnt (hdcp0 : Z) : Z :=
  if negb (Z.land (u32 hdcp0) HDCP_ENABLE_MASK =? 0) then 5 else 2.

(** [int rk628_is_avi_ready(struct rk628 *rk628, bool avi_rcv_rdy)];
    [hdcp0] is what the read of [HDMI_RX_HDCP_CTRL] before the loop
    delivers. *)
Definition rk628_is_avi_ready (chip_version : Z) (hdcp0 : Z) (avi hdcp : nat -> Z)
    (avi_rcv_rdy : bool) : Z * list avi_effect :=
  if chip_version >=? RK628F_VERSION h then (1, [])
  else
    let max_cnt := avi_ready_max_cnt hdcp0 in
    let r := avi_ready_poll avi hdcp avi_rcv_rdy max_cnt 0 100 0 0 0 in
    (if fst r <? max_cnt then 0 else 1, read_HDMI_RX_HDCP_CTRL :: snd r).

End AviReady.

(** How often a log polls [HDMI_RX_PDEC_AVI_PB]. *)
Definition is_avi_pb_read (e : avi_effect) : bool :=
  match e with read_HDMI_RX_PDEC_AVI_PB => true | _ => false end.

Definition avi_pb_reads (log : list avi_effect) : nat :=
  length (filter is_avi_pb_read log).

(** The values a log writes to [HDMI_RX_HDCP_CTRL]. *)
Fixpoint hdcp_ctrl_writes (log : list avi_effect) : list Z :=
  match log with
  | [] => []
  | write_HDMI_RX_HDCP_CTRL v :: rest => v :: hdcp_ctrl_writes rest
  | _ :: rest => hdcp_ctrl_writes rest
  end.

(** ** The rest of the receiver: video format and timing *)

(** The constants of the headers that the timing detection uses: format
    mask of [HDMI_RX_PDEC_AVI_PB], the bus formats, the interlace bit of
    [HDMI_RX_MD_STS], the frequency of the measuring clock and the length
    of its measuring window. *)
Record rk628_video_h : Type := {
  VIDEO_FORMAT_MASK : Z;
  BUS_FMT_RGB : Z;
  BUS_FMT_YUV420 : Z;
  BUS_FMT_UNKNOWN : Z;
  ILACE_STS : Z;
  HDMIRX_MODETCLK_HZ : Z;
  HDMIRX_MODETCLK_CNT_NUM : Z
}.

(** The two avmute colour registers. *)
Inductive vm_cfg_reg : Type :=
  | HDMI_VM_CFG_CH0_1
  | HDMI_VM_CFG_CH2.

(** [u8 rk628_hdmirx_get_format(struct rk628 *rk628)]: the format and the
    two writes of the avmute colour; [avi_pb] is what the read of
    [HDMI_RX_PDEC_AVI_PB] delivers. *)
Definition rk628_hdmirx_get_format (v : rk628_video_h) (avi_pb : Z)
    : Z * list (vm_cfg_reg * Z) :=
  let val := u32 avi_pb in
  let video_fmt := u8 (Z.shiftr (Z.land val (VIDEO_FORMAT_MASK v)) 5) in
  let video_fmt :=
    if video_fmt >? BUS_FMT_UNKNOWN v then BUS_FMT_UNKNOWN v else video_fmt in
  if video_fmt =? BUS_FMT_RGB v
  then (video_fmt, [(HDMI_VM_CFG_CH0_1, 0); (HDMI_VM_CFG_CH2, 0)])
  else (video_fmt, [(HDMI_VM_CFG_CH0_1, 32768); (HDMI_VM_CFG_CH2, 32768)]).

(** [bt->interlaced]; [V4L2_DV_PROGRESSIVE] is the value 0, the one that
    tests as false. *)
Inductive v4l2_dv_interlaced : Type :=
  | V4L2_DV_PROGRESSIVE
  | V4L2_DV_INTERLACED.

(** [struct v4l2_bt_timings], the fields the driver writes; the others
    stay as [memset] leaves them. *)
Record v4l2_bt_timings : Type := {
  width : Z;         (* __u32 *)
  height : Z;        (* __u32 *)
  interlaced : v4l2_dv_interlaced;
  pixelclock : Z;    (* __u64 *)
  hfrontporch : Z;   (* __u32 *)
  hsync : Z;         (* __u32 *)
  hbackporch : Z;    (* __u32 *)
  vfrontporch : Z;   (* __u32 *)
  vsync : Z;         (* __u32 *)
  vbackporch : Z;    (* __u32 *)
  il_vsync : Z       (* __u32 *)
}.

(** The timings after [memset] and the detection of the scan mode. *)
Definition cleared_timings (il : v4l2_dv_interlaced) : v4l2_bt_timings := {|
  width := 0; height := 0; interlaced := il; pixelclock := 0;
  hfrontporch := 0; hsync := 0; hbackporch := 0;
  vfrontporch := 0; vsync := 0; vbackporch := 0; il_vsync := 0
|}.

(** The error codes of the timing detection; a return value of 0 is
    [None], [-ENOLCK] is [Some ENOLCK]. *)
Inductive errno : Type :=
  | ENOLCK
  | EINVAL.

(** What the reads of one run of [rk628_hdmirx_read_timing] deliver, in
    the order of the reads; [HDMI_RX_MD_HT1] is read twice. *)
Record timing_reads : Type := {
  rd_SCDC_REGS1 : Z;
  rd_MD_STS : Z;
  rd_MD_HACT_PX : Z;
  rd_MD_VAL : Z;
  rd_MD_HT1 : Z;
  rd_MD_VTL : Z;
  rd_MD_HT1_again : Z;
  rd_MD_VOL : Z;
  rd_HDMI_CKM_RESULT : nat -> Z;
  rd_MD_HT0 : Z;
  rd_MD_VSC : Z;
  rd_PDEC_AVI_PB : Z
}.

Definition is_interlaced (il : v4l2_dv_interlaced) : bool :=
  match il with V4L2_DV_INTERLACED => true | V4L2_DV_PROGRESSIVE => false end.

(** [static int rk628_hdmirx_read_timing(struct rk628 *rk628,
    struct v4l2_dv_timings *timings)]: the return value, [timings->bt] and
    the register writes.  [h] and [v] hold the constants of the headers,
    [chip_version] is [rk628->version].  The constants of the headers are
    positive [int]s, so that every division is one of numbers that are
    not negative. *)
Definition rk628_hdmirx_read_timing (h : rk628_hdmirx_h) (v : rk628_video_h)
    (chip_version : Z) (rd : timing_reads)
    : option errno * v4l2_bt_timings * list (vm_cfg_reg * Z) :=
  let il :=
    if negb (Z.land (u32 (rd_MD_STS rd)) (ILACE_STS v) =? 0)
    then V4L2_DV_INTERLACED else V4L2_DV_PROGRESSIVE in
  let hact := Z.land (u32 (rd_MD_HACT_PX rd)) 65535 in
  let vact := Z.land (u32 (rd_MD_VAL rd)) 65535 in
  let htotal := Z.land (Z.shiftr (u32 (rd_MD_HT1 rd)) 16) 65535 in
  let vtotal := Z.land (u32 (rd_MD_VTL rd)) 65535 in
  let hofs_pix := Z.land (u32 (rd_MD_HT1_again rd)) 65535 in
  let vbp := u32 (Z.land (u32 (rd_MD_VOL rd)) 65535 + 1) in
  let tmdsclk_cnt := rk628_hdmirx_get_tmdsclk_cnt (rd_HDMI_CKM_RESULT rd) in
  let tmp_data :=
    u64 (u64 (tmdsclk_cnt * HDMIRX_MODETCLK_HZ v)
         + HDMIRX_MODETCLK_CNT_NUM v / 2) in
  let tmp_data := div_u64 tmp_data (HDMIRX_MODETCLK_CNT_NUM v) in
  let tmds_clk := u32 tmp_data in
  if (htotal =? 0) || (vtotal =? 0) || is_interlaced il || (vtotal >? 3000)
  then (Some ENOLCK, cleared_timings il, [])
  else
    let fps :=
      if chip_version >=? RK628F_VERSION h
      then tmds_clk / u32 (htotal * vtotal)
      else u32 (tmds_clk + u32 (htotal * vtotal) / 2) / u32 (htotal * vtotal) in
    let modetclk_cnt_hs := Z.land (u32 (rd_MD_HT0 rd)) 65535 in
    let hs :=
      u32 (u32 (tmdsclk_cnt * modetclk_cnt_hs) + HDMIRX_MODETCLK_CNT_NUM v / 2)
      / HDMIRX_MODETCLK_CNT_NUM v in
    let modetclk_cnt_vs := Z.land (u32 (rd_MD_VSC rd)) 65535 in
    let vs :=
      u32 (u32 (tmdsclk_cnt * modetclk_cnt_vs) + HDMIRX_MODETCLK_CNT_NUM v / 2)
      / HDMIRX_MODETCLK_CNT_NUM v in
    let vs := u32 (vs + htotal / 2) / htotal in
    if (hofs_pix <? hs) || (htotal <? u32 (hact + hofs_pix))
       || (vtotal <? u32 (u32 (vact + vs) + vbp)) || (vs =? 0)
    then (Some ENOLCK, cleared_timings il, [])
    else
      let hbp := u32 (hofs_pix - hs) in
      let hfp := u32 (u32 (htotal - hact) - hofs_pix) in
      let vfp := u32 (u32 (u32 (vtotal - vact) - vs) - vbp) in
      let fmt := rk628_hdmirx_get_format v (rd_PDEC_AVI_PB rd) in
      let video_fmt := fst fmt in
      let yuv420 := video_fmt =? BUS_FMT_YUV420 v in
      let htotal := if yuv420 then u32 (htotal * 2) else htotal in
      let hact := if yuv420 then u32 (hact * 2) else hact in
      let hfp := if yuv420 then u32 (hfp * 2) else hfp in
      let hbp := if yuv420 then u32 (hbp * 2) else hbp in
      let hs := if yuv420 then u32 (hs * 2) else hs in
      let pixelclock :=
        if chip_version >=? RK628F_VERSION h
        then tmds_clk
        else u32 (u32 (htotal * vtotal) * fps) in
      let height := if is_interlaced il then u32 (vact * 2) else vact in
      let il_vsync := if is_interlaced il then u32 (vs + 1) else 0 in
      let pixelclock := if is_interlaced il then pixelclock / 2 else pixelclock in
      let pixelclock := if yuv420 then u64 (pixelclock * 2) else pixelclock in
      let bt := {|
        width := hact; height := height; interlaced := il;
        pixelclock := pixelclock;
        hfrontporch := hfp; hsync := hs; hbackporch := hbp;
        vfrontporch := vfp; vsync := vs; vbackporch := vbp;
        il_vsync := il_vsync
      |} in
      if (vact =? 1080) && (vtotal >? 1500)
      then (Some ENOLCK, bt, snd fmt)
      else (None, bt, snd fmt).

(** The total line length and line count that the registers report. *)
Definition reported_htotal (rd : timing_reads) : Z :=
  Z.land (Z.shiftr (u32 (rd_MD_HT1 rd)) 16) 65535.

Definition reported_vtotal (rd : timing_reads) : Z :=
  Z.land (u32 (rd_MD_VTL rd)) 65535.

(** ** The rest of the receiver: CEC *)

(** The constants of the headers that the CEC code uses: the invalid
    logical address, the enable bit of [HDMI_RX_DMI_DISABLE_IF], the
    interrupt enable and status bits, the transmit results, the signal free
    times with their control values, the send bit, and the size of
    [cec_msg.msg]. *)
Record rk628_cec_h : Type := {
  CEC_LOG_ADDR_INVALID : Z;
  CEC_ENABLE_MASK : Z;
  CEC_ENABLE_1 : Z;              (* CEC_ENABLE(1) *)
  ERROR_INIT_ENSET : Z;
  NACK_ENSET : Z;
  EOM_ENSET : Z;
  DONE_ENSET : Z;
  ERROR_INIT : Z;
  DONE : Z;
  NACK : Z;
  EOM : Z;
  CEC_TX_STATUS_ERROR : Z;
  CEC_TX_STATUS_OK : Z;
  CEC_TX_STATUS_NACK : Z;
  CEC_SIGNAL_FREE_TIME_RETRY : Z;
  CEC_SIGNAL_FREE_TIME_NEXT_XFER : Z;
  CEC_CTRL_RETRY : Z;
  CEC_CTRL_NORMAL : Z;
  CEC_CTRL_IMMED : Z;
  CEC_SEND : Z;
  CEC_MAX_MSG_SIZE : nat         (* sizeof(cec->rx_msg.msg) *)
}.

(** The registers that only the CEC code writes;
    [HDMI_RX_CEC_TX_DATA_0_plus ofs] is the register at
    [HDMI_RX_CEC_TX_DATA_0 + ofs].  [HDMI_RX_DMI_DISABLE_IF], which it
    updates, is among the registers of the audio code. *)
Inductive cec_reg : Type :=
  | HDMI_RX_CEC_ADDR_L
  | HDMI_RX_CEC_ADDR_H
  | HDMI_RX_CEC_MASK
  | HDMI_RX_CEC_TX_CNT
  | HDMI_RX_CEC_TX_DATA_0_plus (ofs : Z)
  | HDMI_RX_CEC_CTRL
  | HDMI_RX_CEC_LOCK
  | HDMI_RX_AUD_CEC_IEN_CLR
  | HDMI_RX_AUD_CEC_IEN_SET
  | HDMI_RX_AUD_CEC_ICLR.

(** What the CEC code does: register accesses and the two calls into the
    CEC framework. *)
Inductive cec_effect : Type :=
  | cec_i2c_write (r : cec_reg) (val : Z)
  | cec_i2c_update_bits (r : reg) (mask val : Z)
  | cec_transmit_attempt_done (status : Z)
  | cec_received_msg (msg : list Z) (len : Z).

(** [struct rk628_hdmirx_cec], the fields the code of this file computes
    with, and of [rx_msg] the bytes and the length. *)
Record rk628_hdmirx_cec : Type := {
  addresses : Z;           (* u32 *)
  rx_msg_msg : list Z;     (* __u8 msg[CEC_MAX_MSG_SIZE] *)
  rx_msg_len : Z;          (* __u32 *)
  tx_status : Z;           (* unsigned int *)
  tx_done : bool;
  rx_done : bool
}.

Definition set_addresses (cec : rk628_hdmirx_cec) (x : Z) : rk628_hdmirx_cec :=
  {| addresses := x; rx_msg_msg := rx_msg_msg cec; rx_msg_len := rx_msg_len cec;
     tx_status := tx_status cec; tx_done := tx_done cec; rx_done := rx_done cec |}.

Definition set_rx_msg (cec : rk628_hdmirx_cec) (msg : list Z) (len : Z)
    : rk628_hdmirx_cec :=
  {| addresses := addresses cec; rx_msg_msg := msg; rx_msg_len := len;
     tx_status := tx_status cec; tx_done := tx_done cec; rx_done := rx_done cec |}.

Definition set_tx (cec : rk628_hdmirx_cec) (status : Z) (done : bool)
    : rk628_hdmirx_cec :=
  {| addresses := addresses cec; rx_msg_msg := rx_msg_msg cec;
     rx_msg_len := rx_msg_len cec;
     tx_status := status; tx_done := done; rx_done := rx_done cec |}.

Definition set_rx_done (cec : rk628_hdmirx_cec) (done : bool) : rk628_hdmirx_cec :=
  {| addresses := addresses cec; rx_msg_msg := rx_msg_msg cec;
     rx_msg_len := rx_msg_len cec;
     tx_status := tx_status cec; tx_done := tx_done cec; rx_done := done |}.

(** [BIT(nr)], [1UL << nr], for [nr] below 64. *)
Definition BIT (nr : Z) : Z := Z.shiftl 1 nr.

(** The two writes that put [cec->addresses] into the address registers. *)
Definition cec_write_addresses (cec : rk628_hdmirx_cec) : list cec_effect :=
  [cec_i2c_write HDMI_RX_CEC_ADDR_L (Z.land (addresses cec) 255);
   cec_i2c_write HDMI_RX_CEC_ADDR_H (Z.land (Z.shiftr (addresses cec) 8) 255)].

(** [static int rk628_hdmirx_cec_log_addr(struct cec_adapter *adap,
    u8 logical_addr)]; it returns 0. *)
Definition rk628_hdmirx_cec_log_addr (c : rk628_cec_h) (cec : rk628_hdmirx_cec)
    (logical_addr : Z) : rk628_hdmirx_cec * list cec_effect :=
  let cec :=
    if logical_addr =? CEC_LOG_ADDR_INVALID c
    then set_addresses cec 0
    else set_addresses cec
           (u32 (Z.lor (addresses cec) (Z.lor (BIT logical_addr) (BIT 15)))) in
  (cec, cec_write_addresses cec).

(** [irqs = ERROR_INIT_ENSET | NACK_ENSET | EOM_ENSET | DONE_ENSET]. *)
Definition cec_irqs (c : rk628_cec_h) : Z :=
  Z.lor (Z.lor (Z.lor (ERROR_INIT_ENSET c) (NACK_ENSET c)) (EOM_ENSET c))
        (DONE_ENSET c).

(** [static int rk628_hdmirx_cec_enable(struct cec_adapter *adap,
    bool enable)]; it returns 0. *)
Definition rk628_hdmirx_cec_enable (c : rk628_cec_h) (cec : rk628_hdmirx_cec)
    (enable : bool) : rk628_hdmirx_cec * list cec_effect :=
  if negb enable then
    (cec,
     [cec_i2c_write HDMI_RX_AUD_CEC_IEN_CLR (u32 (-1));
      cec_i2c_update_bits HDMI_RX_DMI_DISABLE_IF (CEC_ENABLE_MASK c) 0])
  else
    let r := rk628_hdmirx_cec_log_addr c cec (CEC_LOG_ADDR_INVALID c) in
    (fst r,
     snd r ++
     [cec_i2c_update_bits HDMI_RX_DMI_DISABLE_IF (CEC_ENABLE_MASK c)
        (CEC_ENABLE_MASK c);
      cec_i2c_write HDMI_RX_CEC_CTRL 0;
      cec_i2c_write HDMI_RX_AUD_CEC_ICLR (u32 (-1));
      cec_i2c_write HDMI_RX_CEC_LOCK 0;
      cec_i2c_write HDMI_RX_AUD_CEC_IEN_SET (cec_irqs c)]).

(** [static int rk628_hdmirx_cec_transmit(struct cec_adapter *adap,
    u8 attempts, u32 signal_free_time, struct cec_msg *msg)], with
    [msg->len] and [msg->msg]; it returns 0. *)
Definition rk628_hdmirx_cec_transmit (c : rk628_cec_h) (signal_free_time : Z)
    (len : Z) (msg : list Z) : list cec_effect :=
  let ctrl :=
    if signal_free_time =? CEC_SIGNAL_FREE_TIME_RETRY c then CEC_CTRL_RETRY c
    else if signal_free_time =? CEC_SIGNAL_FREE_TIME_NEXT_XFER c
         then CEC_CTRL_IMMED c
         else CEC_CTRL_NORMAL c in
  let msg_len := s32 (u32 len) in
  let msg_len := if u32 len >? 16 then 16 else msg_len in
  if msg_len <=? 0 then []
  else
    map (fun i => cec_i2c_write (HDMI_RX_CEC_TX_DATA_0_plus (Z.of_nat i * 4))
                    (nth i msg 0))
        (List.seq 0 (Z.to_nat msg_len))
    ++ [cec_i2c_write HDMI_RX_CEC_TX_CNT msg_len;
        cec_i2c_write HDMI_RX_CEC_CTRL (Z.lor ctrl (CEC_SEND c))].

(** [a[i] = v] inside the array. *)
Fixpoint store (a : list Z) (i : nat) (v : Z) : list Z :=
  match a, i with
  | [], _ => []
  | _ :: rest, O => v :: rest
  | x :: rest, S i' => x :: store rest i' v
  end.

(** The receive loop of [rk628_hdmirx_cec_irq], [n] more bytes from byte
    [i]; [rx_data i] is what the read of [HDMI_RX_CEC_RX_DATA_0 + i * 4]
    delivers. *)
Fixpoint cec_rx_copy (rx_data : nat -> Z) (i n : nat) (msg : list Z) : list Z :=
  match n with
  | O => msg
  | S n' =>
      cec_rx_copy rx_data (S i) n' (store msg i (Z.land (u32 (rx_data i)) 255))
  end.

(** [void rk628_hdmirx_cec_irq(struct rk628 *rk628,
    struct rk628_hdmirx_cec *cec)]; [stat_rd] and [rx_cnt_rd] are what the
    reads of [HDMI_RX_AUD_CEC_ISTS] and [HDMI_RX_CEC_RX_CNT] deliver. *)
Definition rk628_hdmirx_cec_irq (c : rk628_cec_h) (stat_rd rx_cnt_rd : Z)
    (rx_data : nat -> Z) (cec : rk628_hdmirx_cec)
    : rk628_hdmirx_cec * list cec_effect :=
  let stat := u32 stat_rd in
  if stat =? 0 then (cec, [])
  else
    let ack := [cec_i2c_write HDMI_RX_AUD_CEC_ICLR stat] in
    let cec :=
      if negb (Z.land stat (ERROR_INIT c) =? 0)
      then set_tx cec (CEC_TX_STATUS_ERROR c) true
      else if negb (Z.land stat (DONE c) =? 0)
      then set_tx cec (CEC_TX_STATUS_OK c) true
      else if negb (Z.land stat (NACK c) =? 0)
      then set_tx cec (CEC_TX_STATUS_NACK c) true
      else cec in
    let eom := negb (Z.land stat (EOM c) =? 0) in
    let cec :=
      if eom then
        let val := u32 rx_cnt_rd in
        let len := Z.land val 31 in
        let len :=
          if len >? Z.of_nat (CEC_MAX_MSG_SIZE c)
          then Z.of_nat (CEC_MAX_MSG_SIZE c) else len in
        set_rx_done
          (set_rx_msg cec (cec_rx_copy rx_data 0 (Z.to_nat len) (rx_msg_msg cec))
             len)
          true
      else cec in
    let unlock := if eom then [cec_i2c_write HDMI_RX_CEC_LOCK 0] else [] in
    let tx := if tx_done cec
              then [cec_transmit_attempt_done (tx_status cec)] else [] in
    let cec := if tx_done cec then set_tx cec (tx_status cec) false else cec in
    let rx := if rx_done cec
              then [cec_received_msg (rx_msg_msg cec) (rx_msg_len cec)] else [] in
    let cec := if rx_done cec then set_rx_done cec false else cec in
    (cec, ack ++ unlock ++ tx ++ rx).

(** [void rk628_hdmirx_cec_state_reconfiguration(struct rk628 *rk628,
    struct rk628_hdmirx_cec *cec)]; [ien_rd] is what the read of
    [HDMI_RX_AUD_CEC_IEN] delivers. *)
Definition rk628_hdmirx_cec_state_reconfiguration (c : rk628_cec_h) (ien_rd : Z)
    (cec : rk628_hdmirx_cec) : list cec_effect :=
  cec_write_addresses cec ++
  [cec_i2c_write HDMI_RX_CEC_MASK 0;
   cec_i2c_write HDMI_RX_CEC_TX_CNT 0;
   cec_i2c_write HDMI_RX_AUD_CEC_IEN_CLR (u32 (-1));
   cec_i2c_write HDMI_RX_AUD_CEC_ICLR (u32 (-1));
   cec_i2c_write HDMI_RX_CEC_CTRL 0;
   cec_i2c_write HDMI_RX_CEC_LOCK 0] ++
  (if Z.land (u32 ien_rd) (cec_irqs c) =? 0
   then [cec_i2c_write HDMI_RX_AUD_CEC_IEN_SET (cec_irqs c)] else []) ++
  [cec_i2c_update_bits HDMI_RX_DMI_DISABLE_IF (CEC_ENABLE_MASK c) (CEC_ENABLE_1 c)].

(** The transmit results and the received messages that a log passes to
    the CEC framework. *)
Fixpoint tx_reports (log : list cec_effect) : list Z :=
  match log with
  | [] => []
  | cec_transmit_attempt_done status :: rest => status :: tx_reports rest
  | _ :: rest => tx_reports rest
  end.

Fixpoint rx_reports (log : list cec_effect) : list (list Z * Z) :=
  match log with
  | [] => []
  | cec_received_msg msg len :: rest => (msg, len) :: rx_reports rest
  | _ :: rest => rx_reports rest
  end.

(** Whether a set of logical addresses has an address. *)
Definition has_addr (las : list Z) (b : Z) : bool := existsb (Z.eqb b) las.

(** The offsets of the transmit data registers that a log writes. *)
Fixpoint tx_data_offsets (log : list cec_effect) : list Z :=
  match log with
  | [] => []
  | cec_i2c_write (HDMI_RX_CEC_TX_DATA_0_plus ofs) _ :: rest =>
      ofs :: tx_data_offsets rest
  | _ :: rest => tx_data_offsets rest
  end.

(** ** The rest of the receiver: stable timings *)

(** [bool rk628_hdmirx_tx_5v_power_detect(struct gpio_desc *det_gpio)];
    without a descriptor the answer is [true], else [gpiod_get_value i] is
    what sample [i] of the 5 delivers. *)
Definition rk628_hdmirx_tx_5v_power_detect (det_gpio : option (nat -> Z)) : bool :=
  match det_gpio with
  | None => true
  | Some gpiod_get_value =>
      let cnt :=
        fold_left (fun cnt i => if gpiod_get_value i >? 0 then s32 (cnt + 1) else cnt)
                  (List.seq 0 5) 0 in
      cnt >=? 3
  end.

Section Timings.

Variable h : rk628_hdmirx_h.
Variable v : rk628_video_h.
Variable chip_version : Z.

(** The loop of [rk628_hdmirx_try_to_get_timing] from attempt [i], with
    [n] attempts after this one; [rd i] is what the reads of attempt [i]
    deliver.  The writes of all attempts are kept. *)
Fixpoint try_to_get_timing_from (rd : nat -> timing_reads) (i n : nat)
    : option errno * v4l2_bt_timings * list (vm_cfg_reg * Z) :=
  let r := rk628_hdmirx_read_timing h v chip_version (rd i) in
  match fst (fst r), n with
  | None, _ => r
  | Some _, O => r
  | Some _, S n' =>
      let r' := try_to_get_timing_from rd (S i) n' in
      (fst r', snd r ++ snd r')
  end.

(** [static int rk628_hdmirx_try_to_get_timing(struct rk628 *rk628,
    struct v4l2_dv_timings *timings)]: 5 attempts. *)
Definition rk628_hdmirx_try_to_get_timing (rd : nat -> timing_reads)
    : option errno * v4l2_bt_timings * list (vm_cfg_reg * Z) :=
  try_to_get_timing_from rd 0 4.

(** What [rk628_hdmirx_get_timings] writes: the avmute colour, by way of
    [rk628_hdmirx_get_format], and the rate of the CPLL. *)
Inductive timing_effect : Type :=
  | vm_cfg_write (r : vm_cfg_reg) (val : Z)
  | clk_set_rate_CGU_CLK_CPLL (rate : Z).

Definition vm_cfg_writes (ws : list (vm_cfg_reg * Z)) : list timing_effect :=
  map (fun w => vm_cfg_write (fst w) (snd w)) ws.

(** What one call of [rk628_hdmirx_get_timings] meets: the descriptor of
    the detect pin with the samples of iteration [i], the reads of attempt
    [k] of iteration [i], and what [HDMI_RX_PDEC_AVI_PB] delivers to the
    first, second and third [rk628_hdmirx_get_format] in the body of
    iteration [i]. *)
Record timing_inputs : Type := {
  hdmirx_det_gpio : option (nat -> nat -> Z);
  timing_rd : nat -> nat -> timing_reads;
  format_rd : nat -> nat -> Z
}.

(** How the loop of [rk628_hdmirx_get_timings] ends: by a [return] from
    its body, or with [cnt], [ret] and the timings of its last iteration. *)
Inductive timings_loop_end : Type :=
  | loop_returned (e : errno) (bt : v4l2_bt_timings) (log : list timing_effect)
  | loop_left (cnt : Z) (ret : option errno) (bt : v4l2_bt_timings)
              (log : list timing_effect).

Definition loop_log (l : list timing_effect) (e : timings_loop_end)
    : timings_loop_end :=
  match e with
  | loop_returned err bt log => loop_returned err bt (l ++ log)
  | loop_left cnt ret bt log => loop_left cnt ret bt (l ++ log)
  end.

Definition power_detected (inp : timing_inputs) (i : nat) : bool :=
  rk628_hdmirx_tx_5v_power_detect
    (match hdmirx_det_gpio inp with
     | None => None
     | Some samples => Some (samples i)
     end).

Definition is_error (ret : option errno) : bool :=
  match ret with None => false | Some _ => true end.

(** The [for] loop of [rk628_hdmirx_get_timings], [n] more iterations from
    iteration [i]. *)
Fixpoint get_timings_loop (inp : timing_inputs) (i n : nat)
    (last_w last_h last_fmt : Z) (cnt : Z) (ret : option errno)
    (bt : v4l2_bt_timings) : timings_loop_end :=
  match n with
  | O => loop_left cnt ret bt []
  | S n' =>
      if negb (power_detected inp i) then loop_returned EINVAL bt []
      else
        let r := rk628_hdmirx_try_to_get_timing (timing_rd inp i) in
        let ret := fst (fst r) in
        let bt := snd (fst r) in
        let log := vm_cfg_writes (snd r) in
        let fresh := (last_w =? 0) && (last_h =? 0) in
        let fmt0 := rk628_hdmirx_get_format v (format_rd inp i 0) in
        let last_w := if fresh then width bt else last_w in
        let last_h := if fresh then height bt else last_h in
        let last_fmt := if fresh then fst fmt0 else last_fmt in
        let log := if fresh then log ++ vm_cfg_writes (snd fmt0) else log in
        if is_error ret && (2 <? Z.of_nat i) then loop_returned EINVAL bt log
        else
          let same_size :=
            negb (is_error ret) && (last_w =? width bt) && (last_h =? height bt) in
          let fmt1 := rk628_hdmirx_get_format v (format_rd inp i 1) in
          let log := if same_size then log ++ vm_cfg_writes (snd fmt1) else log in
          let cnt :=
            if same_size && (last_fmt =? fst fmt1) then s32 (cnt + 1) else 0 in
          if cnt >=? 8 then loop_left cnt ret bt log
          else
            let fmt2 := rk628_hdmirx_get_format v (format_rd inp i 2) in
            loop_log (log ++ vm_cfg_writes (snd fmt2))
              (get_timings_loop inp (S i) n' (width bt) (height bt) (fst fmt2)
                 cnt ret bt)
  end.

(** Of the headers: the number of iterations, and the macro
    [DIV_ROUND_CLOSEST_ULL] of the kernel. *)
Variable HDMIRX_GET_TIMING_CNT : nat.
Variable DIV_ROUND_CLOSEST_ULL : Z -> Z -> Z.

(** [int rk628_hdmirx_get_timings(struct rk628 *rk628,
    struct v4l2_dv_timings *timings)]: the return value, [timings->bt] and
    the writes; [timings] is what the caller passes in. *)
Definition rk628_hdmirx_get_timings (inp : timing_inputs) (timings : v4l2_bt_timings)
    : option errno * v4l2_bt_timings * list timing_effect :=
  match get_timings_loop inp 0 HDMIRX_GET_TIMING_CNT 0 0 (BUS_FMT_RGB v) 0 None
          timings with
  | loop_returned e bt log => (Some e, bt, log)
  | loop_left cnt ret bt log =>
      let ret := if cnt <? 8 then Some EINVAL else ret in
      let cpll :=
        if chip_version >=? RK628F_VERSION h then
          let val := u32 (DIV_ROUND_CLOSEST_ULL 1188000000 (pixelclock bt)) in
          let val := u32 (u64 (val * pixelclock bt)) in
          if val >? 1188000000 then [clk_set_rate_CGU_CLK_CPLL val] else []
        else [] in
      (ret, bt, log ++ cpll)
  end.

(** What iteration [i] of the loop gets from
    [rk628_hdmirx_try_to_get_timing]. *)
Definition iteration_ret (inp : timing_inputs) (i : nat) : option errno :=
  fst (fst (rk628_hdmirx_try_to_get_timing (timing_rd inp i))).

Definition iteration_bt (inp : timing_inputs) (i : nat) : v4l2_bt_timings :=
  snd (fst (rk628_hdmirx_try_to_get_timing (timing_rd inp i))).

End Timings.

(** ** Sample inputs for the rest of the receiver *)

(** Header constants to run the video model on concrete inputs: the
    format in bits 6:5, a measuring clock of 49.5 MHz and a window of 1000
    cycles. *)
Definition sample_video_header : rk628_video_h := {|
  VIDEO_FORMAT_MASK := 96;
  BUS_FMT_RGB := 0;
  BUS_FMT_YUV420 := 3;
  BUS_FMT_UNKNOWN := 4;
  ILACE_STS := 8;
  HDMIRX_MODETCLK_HZ := 49500000;
  HDMIRX_MODETCLK_CNT_NUM := 1000
|}.

(** The reads of a progressive 1920x1080 RGB signal at 148.5 MHz: 2200
    pixels in a line, 1125 lines, the active pixels 192 after the sync
    start, 36 lines of back porch. *)
Definition sample_timing_reads : timing_reads := {|
  rd_SCDC_REGS1 := 0;
  rd_MD_STS := 0;
  rd_MD_HACT_PX := 1920;
  rd_MD_VAL := 1080;
  rd_MD_HT1 := 2200 * 65536 + 192;
  rd_MD_VTL := 1125;
  rd_MD_HT1_again := 2200 * 65536 + 192;
  rd_MD_VOL := 35;
  rd_HDMI_CKM_RESULT := fun _ => 3000;
  rd_MD_HT0 := 15;
  rd_MD_VSC := 3667;
  rd_PDEC_AVI_PB := 0
|}.

(** The same signal at every read, with no detect pin. *)
Definition sample_timing_inputs : timing_inputs := {|
  hdmirx_det_gpio := None;
  timing_rd := fun _ _ => sample_timing_reads;
  format_rd := fun _ _ => 0
|}.

(** Division to the closest, as a sample of [DIV_ROUND_CLOSEST_ULL]. *)
Definition sample_div_round_closest (x divisor : Z) : Z :=
  (x + divisor / 2) / divisor.

(** Header constants to run the CEC model on concrete inputs, every
    interrupt on a bit of its own. *)
Definition sample_cec_header : rk628_cec_h := {|
  CEC_LOG_ADDR_INVALID := 255;
  CEC_ENABLE_MASK := 4;
  CEC_ENABLE_1 := 4;
  ERROR_INIT_ENSET := Z.shiftl 1 20;
  NACK_ENSET := Z.shiftl 1 18;
  EOM_ENSET := Z.shiftl 1 17;
  DONE_ENSET := Z.shiftl 1 16;
  ERROR_INIT := Z.shiftl 1 20;
  DONE := Z.shiftl 1 16;
  NACK := Z.shiftl 1 18;
  EOM := Z.shiftl 1 17;
  CEC_TX_STATUS_ERROR := 16;
  CEC_TX_STATUS_OK := 1;
  CEC_TX_STATUS_NACK := 4;
  CEC_SIGNAL_FREE_TIME_RETRY := 3;
  CEC_SIGNAL_FREE_TIME_NEXT_XFER := 7;
  CEC_CTRL_RETRY := 4;
  CEC_CTRL_NORMAL := 2;
  CEC_CTRL_IMMED := 0;
  CEC_SEND := 1;
  CEC_MAX_MSG_SIZE := 16
|}.

(** The CEC structure as [devm_kzalloc] leaves it. *)
Definition zeroed_cec : rk628_hdmirx_cec := {|
  addresses := 0;
  rx_msg_msg := repeat 0 16;
  rx_msg_len := 0;
  tx_status := 0;
  tx_done := false;
  rx_done := false
|}.
(** ** Facts on machine integers *)

Lemma u32_range (z : Z) : 0 <= u32 z < U32_MOD.
Proof. unfold u32, U32_MOD. apply Z.mod_pos_bound. lia. Qed.

Lemma u32_small (z : Z) : 0 <= z < U32_MOD -> u32 z = z.
Proof. intros H. unfold u32. apply Z.mod_small. exact H. Qed.

Lemma s32_range (z : Z) : int_range (s32 z).
Proof.
  unfold int_range, s32, INT_MIN, INT_MAX, U32_MOD.
  pose proof (Z.mod_pos_bound (z - -2147483648) 4294967296). lia.
Qed.

Lemma s32_exact (z : Z) : int_range z -> s32 z = z.
Proof.
  unfold int_range, s32, INT_MIN, INT_MAX, U32_MOD. intros H.
  rewrite Z.mod_small by lia. lia.
Qed.

Lemma s32_u32 (z : Z) : s32 (u32 z) = s32 z.
Proof.
  unfold s32, u32, U32_MOD, INT_MIN.
  rewrite Zminus_mod_idemp_l. reflexivity.
Qed.

Lemma s32_of_u32_small (z : Z) :
  0 <= z < U32_MOD -> 0 <= s32 z -> s32 z = z.
Proof.
  unfold s32, U32_MOD, INT_MIN. intros Hz Hs.
  destruct (Z_lt_le_dec z 2147483648) as [Hlt | Hge].
  - rewrite Z.mod_small by lia. lia.
  - exfalso.
    replace (z - -2147483648) with ((z - 2147483648) + 1 * 4294967296) in Hs by lia.
    rewrite Z.mod_add in Hs by lia.
    rewrite Z.mod_small in Hs by lia. lia.
Qed.

Lemma int_sub_exact (a b : Z) : int_range (a - b) -> int_sub a b = a - b.
Proof. unfold int_sub. apply s32_exact. Qed.

Lemma abs_exact (x : Z) : INT_MIN < x <= INT_MAX -> abs x = Z.abs x.
Proof.
  unfold abs, int_neg, INT_MIN, INT_MAX. intros H.
  rewrite (s32_exact x) by (unfold int_range, INT_MIN, INT_MAX; lia).
  destruct (x <? 0) eqn:E.
  - apply Z.ltb_lt in E.
    rewrite s32_exact by (unfold int_range, INT_MIN, INT_MAX; lia). lia.
  - apply Z.ltb_ge in E. lia.
Qed.

(** The distance the snapping loop computes is the mathematical one as long
    as [fs - fs_t] does not leave [int]. *)
Lemma abs_int_sub_exact (fs fs_t : Z) :
  INT_MIN < fs - fs_t <= INT_MAX -> abs (int_sub fs fs_t) = Z.abs (fs - fs_t).
Proof.
  intros H.
  rewrite int_sub_exact by (unfold int_range; lia).
  apply abs_exact. exact H.
Qed.

(** ** The two scans of the table *)

(** On [supported_fs] both loops stop at the terminator, so they are the
    following cascades. *)
Lemma find_closest_fs_cascade (fs : Z) :
  rk628_hdmirx_audio_find_closest_fs fs =
    if abs (int_sub fs 32000) <=? 2000 then 32000
    else if abs (int_sub fs 44100) <=? 2000 then 44100
    else if abs (int_sub fs 48000) <=? 2000 then 48000
    else if abs (int_sub fs 88200) <=? 2000 then 88200
    else if abs (int_sub fs 96000) <=? 2000 then 96000
    else if abs (int_sub fs 176400) <=? 2000 then 176400
    else if abs (int_sub fs 192000) <=? 2000 then 192000
    else if abs (int_sub fs 768000) <=? 2000 then 768000
    else -1.
Proof. reflexivity. Qed.

Lemma is_validfs_In (fs : Z) :
  is_validfs fs = true <-> In fs supported_rates.
Proof.
  unfold is_validfs, supported_fs, supported_rates, is_validfs_scan.
  change (32000 >? 0) with true. change (44100 >? 0) with true.
  change (48000 >? 0) with true. change (88200 >? 0) with true.
  change (96000 >? 0) with true. change (176400 >? 0) with true.
  change (192000 >? 0) with true. change (768000 >? 0) with true.
  change (-1 >? 0) with false. cbv iota. simpl In.
  repeat match goal with
         | |- context [fs =? ?c] => destruct (Z.eqb_spec fs c)
         end; split; intros H; try reflexivity; try discriminate; try lia;
    intuition lia.
Qed.

Lemma supported_rates_range (R : Z) :
  In R supported_rates -> 32000 <= R <= 768000.
Proof. simpl. intuition lia. Qed.

Lemma find_closest_fs_result (fs : Z) :
  rk628_hdmirx_audio_find_closest_fs fs = -1 \/
  In (rk628_hdmirx_audio_find_closest_fs fs) supported_rates.
Proof.
  rewrite find_closest_fs_cascade.
  repeat match goal with
         | |- context [?a <=? ?b] => destruct (a <=? b)
         end; simpl; auto 12.
Qed.

(** Rewriting the distances of the cascade into mathematical ones. *)
Ltac exact_distances :=
  rewrite find_closest_fs_cascade;
  repeat rewrite abs_int_sub_exact by (unfold INT_MIN, INT_MAX; lia).

Ltac split_leb :=
  repeat match goal with
         | |- context [?a <=? ?b] => destruct (Z.leb_spec a b)
         | |- context [?a =? ?b] => destruct (Z.eqb_spec a b)
         end.

(** C1, as amended.  For every supported rate [R] and every raw estimate
    within 2000 Hz of [R], the snapping returns the first table entry, in
    table order, whose window holds the estimate: that is [R], except that
    an estimate of 46000..46100 Hz, which lies in the windows of both 44100
    and 48000, is snapped to 44100 also where [R] is 48000. *)
Theorem find_closest_fs_first_window (R fs : Z) :
  In R supported_rates ->
  Z.abs (fs - R) <= 2000 ->
  rk628_hdmirx_audio_find_closest_fs fs =
    if (R =? 48000) && (fs <=? 46100) then 44100 else R.
Proof.
  intros HR Hd. simpl in HR.
  destruct HR as [<- | [<- | [<- | [<- | [<- | [<- | [<- | [<- | []]]]]]]]];
    exact_distances; cbn [Z.eqb Pos.eqb andb]; split_leb;
    cbn [andb]; try reflexivity; lia.
Qed.

Lemma find_closest_fs_first_window_witness :
  rk628_hdmirx_audio_find_closest_fs 46100 = 44100 /\
  rk628_hdmirx_audio_find_closest_fs 46101 = 48000.
Proof.
  split.
  - apply (find_closest_fs_first_window 48000 46100); simpl; lia.
  - apply (find_closest_fs_first_window 48000 46101); simpl; lia.
Defined.

(** C1 as the specification states it fails at 46100 Hz: the estimate is
    within 2000 Hz of 48000 and strictly closer to 48000 than to any other
    table entry, and the snapping returns 44100. *)
Lemma find_closest_fs_not_closest :
  In 48000 supported_rates /\
  Z.abs (46100 - 48000) <= 2000 /\
  (forall R', In R' supported_rates -> R' <> 48000 ->
              Z.abs (46100 - 48000) < Z.abs (46100 - R')) /\
  rk628_hdmirx_audio_find_closest_fs 46100 <> 48000.
Proof.
  split; [simpl; auto 10 |].
  split; [simpl; lia |].
  split.
  - intros R' HR' Hne. simpl in HR'. intuition (subst; simpl; lia).
  - vm_compute. discriminate.
Qed.

(** C2, as amended.  For every [int] estimate that is not within 2000 Hz
    of any table entry, and for which no difference [fs - fs_t] of the loop
    leaves [int] (every estimate above [INT_MIN + 768000]), the snapping
    returns -1, the terminator of the table on which the loop stopped.
    Every value that the estimator passes to the snapping is within that
    bound, on all register contents; and when the value it passes is not
    within 2000 Hz of any table entry, the -1 it gets back, stored to its
    [u32], fails [is_validfs], and the estimator returns 0. *)
Theorem find_closest_fs_no_window (fs : Z) (hw : reg -> Z) :
  (INT_MIN + 768000 < fs <= INT_MAX ->
   (forall R, In R supported_rates -> 2000 < Z.abs (fs - R)) ->
   rk628_hdmirx_audio_find_closest_fs fs = -1) /\
  INT_MIN + 768000 < s32 (audio_fs_raw hw) <= INT_MAX /\
  ((forall R, In R supported_rates ->
              2000 < Z.abs (s32 (audio_fs_raw hw) - R)) ->
   rk628_hdmirx_audio_find_closest_fs (s32 (audio_fs_raw hw)) = -1 /\
   is_validfs
     (s32 (u32 (rk628_hdmirx_audio_find_closest_fs (s32 (audio_fs_raw hw)))))
   = false /\
   _rk628_hdmirx_audio_fs hw = 0).
Proof.
  assert (Hfar : forall x,
             INT_MIN + 768000 < x <= INT_MAX ->
             (forall R, In R supported_rates -> 2000 < Z.abs (x - R)) ->
             rk628_hdmirx_audio_find_closest_fs x = -1).
  { unfold INT_MIN, INT_MAX. intros x Hx Hx'.
    pose proof (Hx' 32000) as H1. pose proof (Hx' 44100) as H2.
    pose proof (Hx' 48000) as H3. pose proof (Hx' 88200) as H4.
    pose proof (Hx' 96000) as H5. pose proof (Hx' 176400) as H6.
    pose proof (Hx' 192000) as H7. pose proof (Hx' 768000) as H8.
    simpl in H1, H2, H3, H4, H5, H6, H7, H8.
    exact_distances; split_leb; try reflexivity; exfalso;
      intuition lia. }
  assert (Hraw : 0 <= audio_fs_raw hw < 33554432).
  { unfold audio_fs_raw. cbv zeta.
    match goal with
    | |- 0 <= u32 ?q / 128 < _ => pose proof (u32_range q) as Hq
    end.
    unfold U32_MOD in Hq.
    split; [apply Z.div_pos; lia | apply Z.div_lt_upper_bound; lia]. }
  assert (Hs : s32 (audio_fs_raw hw) = audio_fs_raw hw)
    by (apply s32_exact; unfold int_range, INT_MIN, INT_MAX; lia).
  assert (Hbound : INT_MIN + 768000 < s32 (audio_fs_raw hw) <= INT_MAX)
    by (rewrite Hs; unfold INT_MIN, INT_MAX; lia).
  split; [apply Hfar |]. split; [exact Hbound |].
  intros Hwin. pose proof (Hfar _ Hbound Hwin) as Hm1.
  split; [exact Hm1 |]. rewrite Hm1. split; [reflexivity |].
  unfold _rk628_hdmirx_audio_fs. cbv zeta. rewrite Hm1.
  destruct (negb (rk628_i2c_read hw HDMI_RX_PDEC_ACR_CTS =? 0)).
  - change (is_validfs (s32 (u32 (-1)))) with false. reflexivity.
  - change (is_validfs (s32 0)) with false. reflexivity.
Qed.

Lemma find_closest_fs_no_window_witness :
  rk628_hdmirx_audio_find_closest_fs 10000 = -1 /\
  s32 (audio_fs_raw (registers 3000 148500 1280 0 0 0)) = 10000 /\
  _rk628_hdmirx_audio_fs (registers 3000 148500 1280 0 0 0) = 0.
Proof.
  pose proof (find_closest_fs_no_window 10000
                (registers 3000 148500 1280 0 0 0)) as H.
  assert (Hraw : s32 (audio_fs_raw (registers 3000 148500 1280 0 0 0)) = 10000)
    by (vm_compute; reflexivity).
  rewrite Hraw in H.
  assert (Hwin : forall R, In R supported_rates -> 2000 < Z.abs (10000 - R))
    by (intros R HR; simpl in HR; intuition (subst; simpl; lia)).
  destruct H as (H1 & _ & H2).
  split.
  - apply H1; [unfold INT_MIN, INT_MAX; lia | exact Hwin].
  - split; [exact Hraw |]. exact (proj2 (proj2 (H2 Hwin))).
Defined.

(** C2 as the specification states it fails at 10000 Hz: no table entry is
    within 2000 Hz, and the snapping does not return 10000. *)
Lemma find_closest_fs_not_unmodified :
  (forall R, In R supported_rates -> 2000 < Z.abs (10000 - R)) /\
  rk628_hdmirx_audio_find_closest_fs 10000 <> 10000.
Proof.
  split.
  - intros R HR. simpl in HR. intuition (subst; simpl; lia).
  - vm_compute. discriminate.
Qed.

(** ** The estimator *)

Lemma is_validfs_0 : is_validfs (s32 0) = false.
Proof. reflexivity. Qed.

(** A [u32] that passes [is_validfs] as [int] is a supported rate. *)
Lemma is_validfs_u32 (x : Z) :
  0 <= x < U32_MOD -> is_validfs (s32 x) = true -> In x supported_rates.
Proof.
  intros Hx Hv. apply is_validfs_In in Hv.
  pose proof (supported_rates_range _ Hv) as Hr.
  rewrite (s32_of_u32_small x) in Hv by (try assumption; lia).
  exact Hv.
Qed.

(** The estimator returns 0 or a supported rate. *)
Lemma audio_fs_result (hw : reg -> Z) :
  _rk628_hdmirx_audio_fs hw = 0 \/
  In (_rk628_hdmirx_audio_fs hw) supported_rates.
Proof.
  unfold _rk628_hdmirx_audio_fs.
  set (fs := if negb (rk628_i2c_read hw HDMI_RX_PDEC_ACR_CTS =? 0)
             then u32 (rk628_hdmirx_audio_find_closest_fs (s32 (audio_fs_raw hw)))
             else 0).
  assert (Hfs : 0 <= fs < U32_MOD).
  { subst fs. destruct (negb _); [apply u32_range | unfold U32_MOD; lia]. }
  destruct (is_validfs (s32 fs)) eqn:Hv; cbn [negb].
  - right. apply is_validfs_u32; assumption.
  - left. reflexivity.
Qed.

(** What the callers test, [is_validfs(fs_audio)] on the estimate, says
    that the estimate is a supported rate. *)
Lemma audio_fs_valid_iff (hw : reg -> Z) :
  is_validfs (s32 (_rk628_hdmirx_audio_fs hw)) = true <->
  In (_rk628_hdmirx_audio_fs hw) supported_rates.
Proof.
  destruct (audio_fs_result hw) as [H0 | HIn].
  - rewrite H0, is_validfs_0. split; [discriminate |].
    intros H. apply supported_rates_range in H. lia.
  - pose proof (supported_rates_range _ HIn) as Hr.
    rewrite s32_exact by (unfold int_range, INT_MIN, INT_MAX; lia).
    apply is_validfs_In.
Qed.

(** C4.  Whenever the CTS register reads 0, the estimator returns 0,
    whatever the TMDS clock counter and N are. *)
Theorem audio_fs_cts_zero (hw : reg -> Z) :
  rk628_i2c_read hw HDMI_RX_PDEC_ACR_CTS = 0 ->
  _rk628_hdmirx_audio_fs hw = 0.
Proof.
  intros Hcts. unfold _rk628_hdmirx_audio_fs.
  rewrite Hcts. cbn [Z.eqb negb]. rewrite is_validfs_0. reflexivity.
Qed.

Lemma audio_fs_cts_zero_witness :
  _rk628_hdmirx_audio_fs (registers 3000 0 5644 0 0 0) = 0.
Proof.
  apply (audio_fs_cts_zero (registers 3000 0 5644 0 0 0)).
  reflexivity.
Defined.

(** C8.  With the clock counter at 3000, CTS 148500 and N 5644 the TMDS
    clock is 3000 * 49500 = 148500000 Hz, neither the 32 bit product nor
    the 64 bit product [tmdsclk * N] wraps, the raw quotient
    148500000 * 5644 / 148500 / 128 is 44093 Hz, which is within 2000 Hz of
    44100 and closer to it than to any other table entry, and the estimator
    returns 44100. *)
Theorem audio_fs_example_44100 :
  let hw := registers 3000 148500 5644 0 0 0 in
  audio_tmdsclk hw = 3000 * 49500 /\
  audio_tmdsclk hw = 148500000 /\
  3000 * 49500 < U32_MOD /\
  148500000 * 5644 < U64_MOD /\
  audio_fs_raw hw = 148500000 * 5644 / 148500 / 128 /\
  audio_fs_raw hw = 44093 /\
  Z.abs (audio_fs_raw hw - 44100) <= 2000 /\
  (forall R', In R' supported_rates -> R' <> 44100 ->
              Z.abs (audio_fs_raw hw - 44100) < Z.abs (audio_fs_raw hw - R')) /\
  rk628_hdmirx_audio_find_closest_fs (s32 (audio_fs_raw hw)) = 44100 /\
  _rk628_hdmirx_audio_fs hw = 44100.
Proof.
  intros hw.
  assert (Hraw : audio_fs_raw hw = 44093) by (vm_compute; reflexivity).
  rewrite Hraw.
  repeat split; try (vm_compute; reflexivity); try (simpl; lia).
  intros R' HR' Hne. simpl in HR'. intuition (subst; simpl; lia).
Qed.

(** ** The FIFO controller *)

(** C9.  In every state, [rk628_hdmirx_audio_fifo_init] leaves
    [init_state = pre_state = 64 * 4 = 256], and a second call right after
    the first changes nothing: the pair, and the whole state, is the one
    after a single call. *)
Theorem fifo_init_twice (aif : rk628_audioinfo) :
  let once := fst (rk628_hdmirx_audio_fifo_init aif) in
  let twice := fst (rk628_hdmirx_audio_fifo_init once) in
  INIT_FIFO_STATE * 4 = 256 /\
  init_state (audio_state once) = 256 /\
  pre_state (audio_state once) = 256 /\
  init_state (audio_state twice) = 256 /\
  pre_state (audio_state twice) = 256 /\
  twice = once.
Proof.
  cbv zeta. repeat split.
Qed.

(** ** The accessors *)

(** C10.  On the [NULL] handle [rk628_hdmirx_audio_present] returns false
    and [rk628_hdmirx_audio_fs] returns 0; both are functions of the handle
    alone, with no state to change and no effect. *)
Theorem accessors_on_null :
  rk628_hdmirx_audio_present None = false /\
  rk628_hdmirx_audio_fs None = 0.
Proof. split; reflexivity. Qed.

(** ** Actions *)

Lemma fst_seq (c1 c2 : action) (aif : rk628_audioinfo) :
  fst ((c1 ;; c2) aif) = fst (c2 (fst (c1 aif))).
Proof. reflexivity. Qed.

Lemma snd_seq (c1 c2 : action) (aif : rk628_audioinfo) :
  snd ((c1 ;; c2) aif) = snd (c1 aif) ++ snd (c2 (fst (c1 aif))).
Proof. reflexivity. Qed.

Section Preservation.

Variable P : rk628_audioinfo -> Prop.

Lemma preserves_skip : preserves P skip.
Proof. intros aif H. exact H. Qed.

Lemma preserves_emit (e : effect) : preserves P (emit e).
Proof. intros aif H. exact H. Qed.

Lemma preserves_seq (c1 c2 : action) :
  preserves P c1 -> preserves P c2 -> preserves P (c1 ;; c2).
Proof. intros H1 H2 aif H. rewrite fst_seq. apply H2, H1, H. Qed.

Lemma preserves_if (b : bool) (c1 c2 : action) :
  preserves P c1 -> preserves P c2 -> preserves P (if b then c1 else c2).
Proof. intros H1 H2. destruct b; assumption. Qed.

Lemma preserves_assign (f : rk628_audioinfo -> rk628_audioinfo) :
  (forall aif, P aif -> P (f aif)) -> preserves P (assign f).
Proof. intros Hf aif H. apply Hf, H. Qed.

(** An action that first looks at the state. *)
Lemma preserves_reading (c : rk628_audioinfo -> action) :
  (forall aif0, preserves P (c aif0)) -> preserves P (fun aif => c aif aif).
Proof. intros Hc aif H. apply (Hc aif), H. Qed.

End Preservation.

(** ** The tracked sample rate *)

(** Breaking an action into its parts, down to the functions proved
    before and to assignments. *)
Create HintDb audio_inv.

Ltac as_preserves :=
  match goal with
  | Ha : ?Q ?a |- ?Q (fst (?c ?a)) => apply (fun Hc : preserves Q c => Hc a Ha)
  end.

Ltac preserve_parts :=
  repeat first
    [ solve [auto with audio_inv nocore]
    | apply preserves_skip
    | apply preserves_emit
    | apply preserves_seq
    | apply preserves_if
    | match goal with
      | |- preserves _ (fun aif => if _ then _ else _) =>
          let a := fresh "aif" in
          let Ha := fresh "Haif" in
          intros a Ha; cbv beta;
          match goal with
          | |- context [if ?b then _ else _] => destruct b
          end; as_preserves
      end
    | (apply preserves_assign; intros ? Hok; exact Hok)
    | (intros ? Hok; exact Hok) ].

Lemma fifo_init_fs_audio_ok : preserves fs_audio_ok rk628_hdmirx_audio_fifo_init.
Proof. unfold rk628_hdmirx_audio_fifo_init. preserve_parts. Qed.

Lemma fifo_initd_fs_audio_ok : preserves fs_audio_ok rk628_hdmirx_audio_fifo_initd.
Proof. unfold rk628_hdmirx_audio_fifo_initd. preserve_parts. Qed.

Lemma clk_set_rate_fs_audio_ok (rate : Z) :
  preserves fs_audio_ok (rk628_hdmirx_audio_clk_set_rate rate).
Proof. unfold rk628_hdmirx_audio_clk_set_rate. preserve_parts. Qed.

Lemma clk_inc_rate_fs_audio_ok (dis : Z) :
  preserves fs_audio_ok (rk628_hdmirx_audio_clk_inc_rate dis).
Proof. intros aif H. exact H. Qed.

(** [rk628_hdmirx_audio_set_fs] is the one function that assigns the
    tracked rate after setup; it keeps the property when handed 0 or a
    supported rate. *)
Lemma set_fs_fs_audio_ok (fs : Z) :
  fs = 0 \/ In fs supported_rates ->
  preserves fs_audio_ok (rk628_hdmirx_audio_set_fs fs).
Proof. intros Hfs aif _. exact Hfs. Qed.

(** Every call of it passes an estimate, and only behind [is_validfs]. *)
Lemma set_fs_estimate_fs_audio_ok (hw : reg -> Z) :
  preserves fs_audio_ok (rk628_hdmirx_audio_set_fs (_rk628_hdmirx_audio_fs hw)).
Proof. apply set_fs_fs_audio_ok, audio_fs_result. Qed.

#[local] Hint Resolve fifo_init_fs_audio_ok fifo_initd_fs_audio_ok
  clk_set_rate_fs_audio_ok clk_inc_rate_fs_audio_ok
  set_fs_estimate_fs_audio_ok : audio_inv.

Section TrackedRate.

Context (h : rk628_hdmirx_h).

Lemma audio_enable_fs_audio_ok (hw : reg -> Z) :
  preserves fs_audio_ok (rk628_hdmirx_audio_enable h hw).
Proof.
  unfold rk628_hdmirx_audio_enable. preserve_parts; auto with audio_inv.
Qed.

Lemma audio_v2_adjust_fs_audio_ok (hw : reg -> Z) (i p l : Z) :
  preserves fs_audio_ok (audio_v2_adjust h hw i p l).
Proof.
  unfold audio_v2_adjust. preserve_parts; auto with audio_inv.
Qed.

Lemma work_audio_v2_fs_audio_ok (hw : reg -> Z) :
  preserves fs_audio_ok (rk628_csi_delayed_work_audio_v2 h hw).
Proof.
  intros aif Hok. unfold rk628_csi_delayed_work_audio_v2. cbv zeta.
  repeat match goal with
         | |- context [if ?b then _ else _] => destruct b
         end;
    as_preserves; preserve_parts;
    auto using audio_v2_adjust_fs_audio_ok with audio_inv.
Qed.

Lemma work_audio_fs_audio_ok (hw : reg -> Z) :
  preserves fs_audio_ok (rk628_csi_delayed_work_audio h hw).
Proof.
  intros aif Hok. unfold rk628_csi_delayed_work_audio. cbv zeta.
  destruct (negb (is_validfs _)); [exact Hok |].
  destruct (negb (audio_enable _));
    as_preserves; preserve_parts; auto using audio_enable_fs_audio_ok.
Qed.

Lemma work_audio_rate_change_fs_audio_ok (hw : reg -> Z) :
  preserves fs_audio_ok (rk628_csi_delayed_work_audio_rate_change h hw).
Proof.
  unfold rk628_csi_delayed_work_audio_rate_change. cbv zeta.
  preserve_parts; auto using audio_enable_fs_audio_ok.
Qed.

Lemma isr_ctsn_fs_audio_ok (pdec_ints : Z) :
  preserves fs_audio_ok (rk628_csi_isr_ctsn h pdec_ints).
Proof. unfold rk628_csi_isr_ctsn. cbv zeta. preserve_parts. Qed.

Lemma isr_fifoints_fs_audio_ok (fifo_ints : Z) :
  preserves fs_audio_ok (rk628_csi_isr_fifoints h fifo_ints).
Proof. unfold rk628_csi_isr_fifoints. cbv zeta. preserve_parts. Qed.

Lemma i2s_ctrl_fs_audio_ok (enable : bool) :
  preserves fs_audio_ok (rk628_hdmirx_audio_i2s_ctrl enable).
Proof.
  intros aif Hok. unfold rk628_hdmirx_audio_i2s_ctrl.
  destruct (Bool.eqb _ _); [exact Hok |]. destruct enable; exact Hok.
Qed.

(** Setup assigns 0, whatever was in the structure, and nothing after that
    assignment touches the field. *)
Lemma setup_fs_audio_ok (aif0 : rk628_audioinfo) :
  fs_audio_ok (fst (rk628_hdmirx_audio_setup h aif0)).
Proof.
  unfold rk628_hdmirx_audio_setup. cbv zeta.
  rewrite fst_seq, fst_seq.
  assert (H0 : fs_audio_ok
                 (fst (assign (set_fs_audio 0)
                         (fst (assign (set_ctsn_flag 0) aif0)))))
    by (left; reflexivity).
  revert H0. generalize (fst (assign (set_fs_audio 0)
                                (fst (assign (set_ctsn_flag 0) aif0)))).
  intros aif1 H1. as_preserves. preserve_parts.
Qed.

Lemma operation_fs_audio_ok (o : operation) :
  preserves fs_audio_ok (run_operation h o).
Proof.
  destruct o; cbn [run_operation].
  - apply work_audio_v2_fs_audio_ok.
  - apply work_audio_fs_audio_ok.
  - apply work_audio_rate_change_fs_audio_ok.
  - apply isr_ctsn_fs_audio_ok.
  - apply isr_fifoints_fs_audio_ok.
  - apply i2s_ctrl_fs_audio_ok.
  - intros aif _. apply setup_fs_audio_ok.
Qed.

(** C3.  In every state reachable from setup by the periodic work (either
    variant), the resync work, the two interrupt entry points, the I2S
    switch and renewed setups, in any order and on any register contents,
    the tracked sample rate [audio_state.fs_audio] is 0 or one of 32000,
    44100, 48000, 88200, 96000, 176400, 192000, 768000. *)
Theorem reachable_fs_audio (aif : rk628_audioinfo) :
  reachable h aif ->
  fs_audio (audio_state aif) = 0 \/
  In (fs_audio (audio_state aif)) [32000; 44100; 48000; 88200; 96000;
                                    176400; 192000; 768000].
Proof.
  intros Hr. change (fs_audio_ok aif).
  induction Hr as [aif0 | aif o Hr IH].
  - apply setup_fs_audio_ok.
  - apply operation_fs_audio_ok. exact IH.
Qed.

End TrackedRate.

(** ** Interrupt masks *)

Lemma lor_u32_range (a b : Z) :
  0 <= a < U32_MOD -> 0 <= b < U32_MOD -> 0 <= Z.lor a b < U32_MOD.
Proof.
  intros Ha Hb. split.
  - apply Z.lor_nonneg. lia.
  - destruct (Z.eq_dec (Z.lor a b) 0) as [E | E].
    + rewrite E. unfold U32_MOD. lia.
    + assert (Hpos : 0 < Z.lor a b).
      { assert (0 <= Z.lor a b) by (apply Z.lor_nonneg; lia). lia. }
      change U32_MOD with (2 ^ 32).
      apply Z.log2_lt_pow2; [exact Hpos |].
      rewrite Z.log2_lor by lia.
      assert (Hla : Z.log2 a < 32).
      { destruct (Z.eq_dec a 0) as [-> | Na]; [reflexivity |].
        apply Z.log2_lt_pow2; [lia |]. change (2 ^ 32) with U32_MOD. lia. }
      assert (Hlb : Z.log2 b < 32).
      { destruct (Z.eq_dec b 0) as [-> | Nb]; [reflexivity |].
        apply Z.log2_lt_pow2; [lia |]. change (2 ^ 32) with U32_MOD. lia. }
      lia.
Qed.

Lemma disjoint_lor_neq_l (a b : Z) : disjoint_masks a b -> Z.lor a b <> a.
Proof.
  intros (_ & _ & _ & Hb & Hd) E.
  assert (H : Z.land (Z.lor a b) b = b).
  { rewrite Z.land_lor_distr_l, Hd, Z.land_diag. apply Z.lor_0_l. }
  rewrite E, Hd in H. congruence.
Qed.

Lemma disjoint_lor_neq_r (a b : Z) : disjoint_masks a b -> Z.lor a b <> b.
Proof.
  intros (_ & _ & Ha & _ & Hd) E.
  assert (H : Z.land (Z.lor a b) a = a).
  { rewrite Z.land_lor_distr_l, Z.land_diag, (Z.land_comm b a), Hd.
    apply Z.lor_0_r. }
  rewrite E, Z.land_comm, Hd in H. congruence.
Qed.

Lemma disjoint_lor_neq_0 (a b : Z) : disjoint_masks a b -> Z.lor a b <> 0.
Proof.
  intros (_ & _ & Ha & _ & _) E. apply Z.lor_eq_0_iff in E. tauto.
Qed.

Section Flags.

Variables a b : Z.
Hypothesis Hab : disjoint_masks a b.

Lemma flag_of_range (sa sb : bool) : 0 <= flag_of a b sa sb < U32_MOD.
Proof.
  destruct Hab as (Ha & Hb & _). unfold flag_of.
  apply lor_u32_range; [destruct sa | destruct sb];
    solve [assumption | unfold U32_MOD; lia].
Qed.

Lemma flag_of_set_a (sa sb : bool) :
  u32 (Z.lor (flag_of a b sa sb) a) = flag_of a b true sb.
Proof.
  replace (Z.lor (flag_of a b sa sb) a) with (flag_of a b true sb).
  - apply u32_small, flag_of_range.
  - unfold flag_of. destruct sa.
    + rewrite (Z.lor_comm a), <- Z.lor_assoc, Z.lor_diag. reflexivity.
    + rewrite Z.lor_0_l. apply Z.lor_comm.
Qed.

Lemma flag_of_set_b (sa sb : bool) :
  u32 (Z.lor (flag_of a b sa sb) b) = flag_of a b sa true.
Proof.
  replace (Z.lor (flag_of a b sa sb) b) with (flag_of a b sa true).
  - apply u32_small, flag_of_range.
  - unfold flag_of. destruct sb.
    + rewrite <- Z.lor_assoc, Z.lor_diag. reflexivity.
    + rewrite Z.lor_0_r. reflexivity.
Qed.

Lemma flag_of_full (sa sb : bool) :
  (flag_of a b sa sb =? u32 (Z.lor a b)) = sa && sb.
Proof.
  rewrite (u32_small (Z.lor a b)) by (apply (flag_of_range true true)).
  pose proof (disjoint_lor_neq_l a b Hab) as Hl.
  pose proof (disjoint_lor_neq_r a b Hab) as Hr.
  pose proof (disjoint_lor_neq_0 a b Hab) as H0.
  unfold flag_of. destruct sa, sb; cbn [andb].
  - apply Z.eqb_refl.
  - rewrite Z.lor_0_r. apply Z.eqb_neq. congruence.
  - rewrite Z.lor_0_l. apply Z.eqb_neq. congruence.
  - rewrite Z.lor_0_l. apply Z.eqb_neq. congruence.
Qed.

Lemma flag_of_none : flag_of a b false false = 0.
Proof. reflexivity. Qed.

End Flags.

(** ** Counting in the log *)

Lemma resync_dispatches_app (l1 l2 : list effect) :
  resync_dispatches (l1 ++ l2) = (resync_dispatches l1 + resync_dispatches l2)%nat.
Proof.
  induction l1 as [| e l1 IH]; [reflexivity |].
  destruct e as [| | | | w ms]; cbn [app resync_dispatches]; try exact IH.
  destruct w; cbn [resync_dispatches]; rewrite IH; reflexivity.
Qed.

Lemma clk_rates_app (l1 l2 : list effect) :
  clk_rates (l1 ++ l2) = clk_rates l1 ++ clk_rates l2.
Proof.
  induction l1 as [| e l1 IH]; [reflexivity |].
  destruct e; cbn [app clk_rates]; rewrite IH; reflexivity.
Qed.

Lemma fifo_initd_calls_app (l1 l2 : list effect) :
  fifo_initd_calls (l1 ++ l2) = (fifo_initd_calls l1 + fifo_initd_calls l2)%nat.
Proof.
  unfold fifo_initd_calls. rewrite filter_app. apply length_app.
Qed.

(** ** The interrupt entry points *)

Section Interrupts.

Context (h : rk628_hdmirx_h).
Hypothesis Hh : header_ok h.

Let N := ACR_N_CHG_ICLR h.
Let CTS := ACR_CTS_CHG_ICLR h.
Let OVERFL := AFIF_OVERFL_ISTS h.
Let UNDERFL := AFIF_UNDERFL_ISTS h.

(** One call of [rk628_csi_isr_ctsn] on flags that hold what was seen
    before: the flags take up the bits of the call, and the resync work is
    dispatched, with the CTS/N interrupts switched off, exactly when both
    bits have then been seen. *)
Lemma isr_ctsn_step (pdec_ints : Z) (aif : rk628_audioinfo) (sn sc : bool) :
  ctsn_flag (audio_state aif) = flag_of N CTS sn sc ->
  let r := rk628_csi_isr_ctsn h pdec_ints aif in
  let sn' := sn || carries pdec_ints N in
  let sc' := sc || carries pdec_ints CTS in
  ctsn_flag (audio_state (fst r)) = flag_of N CTS sn' sc' /\
  resync_dispatches (snd r) = (if sn' && sc' then 1%nat else 0%nat) /\
  ctsn_ints_en (fst r) = (if sn' && sc' then false else ctsn_ints_en aif).
Proof.
  destruct Hh as [Hm _]. fold N CTS in Hm.
  intros Hf. cbv zeta. unfold rk628_csi_isr_ctsn, carries. cbv zeta.
  fold N CTS.
  destruct (negb (Z.land (u32 pdec_ints) N =? 0));
    destruct (negb (Z.land (u32 pdec_ints) CTS =? 0));
    cbn [seq assign emit skip fst snd app ctsn_flag audio_state
         set_ctsn_flag with_audio_state];
    rewrite ?Hf, ?(flag_of_set_a N CTS Hm), ?(flag_of_set_b N CTS Hm),
            ?(flag_of_full N CTS Hm), ?orb_true_r, ?orb_false_r;
    destruct sn, sc;
    cbn [andb seq assign emit skip fst snd app ctsn_flag audio_state
         ctsn_ints_en set_ctsn_ints_en resync_dispatches];
    repeat split; solve [reflexivity | exact Hf].
Qed.

(** A run of calls of [rk628_csi_isr_ctsn]. *)
Lemma isr_ctsn_run (calls : list Z) :
  forall (aif : rk628_audioinfo) (sn sc : bool),
    ctsn_flag (audio_state aif) = flag_of N CTS sn sc ->
    let r := run_operations h (map op_isr_ctsn calls) aif in
    ctsn_flag (audio_state (fst r))
      = flag_of N CTS (sn || seen N calls) (sc || seen CTS calls) /\
    (resync_dispatches (snd r) <> 0%nat ->
     (sn || seen N calls) && (sc || seen CTS calls) = true) /\
    (calls <> [] ->
     (sn || seen N calls) && (sc || seen CTS calls) = true ->
     resync_dispatches (snd r) <> 0%nat).
Proof.
  induction calls as [| p calls IH]; intros aif sn sc Hf; cbv zeta.
  - cbn [map run_operations seen existsb skip fst snd resync_dispatches].
    rewrite !orb_false_r. repeat split; [exact Hf | congruence | congruence].
  - cbn [map run_operations run_operation].
    rewrite fst_seq, snd_seq, resync_dispatches_app.
    destruct (isr_ctsn_step p aif sn sc Hf) as (Hf1 & Hd1 & _).
    cbv zeta in Hf1, Hd1.
    destruct (IH _ _ _ Hf1) as (Hf2 & Hd2 & Hd3). cbv zeta in Hf2, Hd2, Hd3.
    unfold seen in *. cbn [existsb].
    rewrite <- !orb_assoc in Hf2, Hd2, Hd3.
    split; [exact Hf2 |]. split.
    + intros Hne. rewrite Hd1 in Hne.
      destruct ((sn || carries p N) && (sc || carries p CTS)) eqn:E.
      * apply andb_true_iff in E. destruct E as [E1 E2].
        apply orb_true_iff in E1. apply orb_true_iff in E2.
        apply andb_true_iff. split; apply orb_true_iff.
        -- destruct E1 as [-> | ->]; [left | right]; reflexivity.
        -- destruct E2 as [-> | ->]; [left | right]; reflexivity.
      * apply Hd2. cbn [Nat.add] in Hne. exact Hne.
    + intros _ Hall. destruct calls as [| q calls].
      * cbn [existsb] in Hall. rewrite !orb_false_r in Hall.
        rewrite Hd1, Hall. cbn. congruence.
      * assert (Hrest : resync_dispatches
                  (snd (run_operations h (map op_isr_ctsn (q :: calls))
                          (fst (rk628_csi_isr_ctsn h p aif)))) <> 0%nat)
          by (apply Hd3; [discriminate | exact Hall]).
        lia.
Qed.

(** C6.  From a state with no accumulated CTS/N flags: a call of
    [rk628_csi_isr_ctsn] carrying only CTS-changed dispatches nothing and
    leaves the CTS/N interrupts as they are, a following call carrying only
    N-changed dispatches the resync work exactly once, so the two calls
    dispatch it once, and that call sets [ctsn_ints_en] to false; and over
    any run of calls the resync work is dispatched only when some call has
    carried the N bit and some call the CTS bit, and is dispatched then. *)
Theorem isr_ctsn_debounce (aif : rk628_audioinfo) (ints1 ints2 : Z) :
  ctsn_flag (audio_state aif) = 0 ->
  carries ints1 CTS = true -> carries ints1 N = false ->
  carries ints2 N = true -> carries ints2 CTS = false ->
  let r1 := rk628_csi_isr_ctsn h ints1 aif in
  let r2 := rk628_csi_isr_ctsn h ints2 (fst r1) in
  (resync_dispatches (snd r1) = 0%nat /\
   ctsn_ints_en (fst r1) = ctsn_ints_en aif /\
   resync_dispatches (snd r2) = 1%nat /\
   resync_dispatches (snd r1 ++ snd r2) = 1%nat /\
   ctsn_ints_en (fst r2) = false) /\
  (forall calls : list Z,
     resync_dispatches
       (snd (run_operations h (map op_isr_ctsn calls) aif)) <> 0%nat <->
     (exists ints, In ints calls /\ carries ints N = true) /\
     (exists ints, In ints calls /\ carries ints CTS = true)).
Proof.
  intros Hf H1c H1n H2n H2c. cbv zeta.
  change 0 with (flag_of N CTS false false) in Hf.
  split.
  - destruct (isr_ctsn_step ints1 aif false false Hf) as (Hf1 & Hd1 & He1).
    cbv zeta in Hf1, Hd1, He1.
    rewrite H1c, H1n in Hf1, Hd1, He1. cbn [orb andb] in Hf1, Hd1, He1.
    destruct (isr_ctsn_step ints2 _ false true Hf1) as (_ & Hd2 & He2).
    cbv zeta in Hd2, He2.
    rewrite H2c, H2n in Hd2, He2. cbn [orb andb] in Hd2, He2.
    rewrite resync_dispatches_app, Hd1, Hd2. repeat split; assumption.
  - intros calls.
    destruct (isr_ctsn_run calls aif false false Hf) as (_ & Hd & Hd').
    cbv zeta in Hd, Hd'. cbn [orb] in Hd, Hd'.
    unfold seen in Hd, Hd'. split.
    + intros Hne. apply Hd in Hne. apply andb_true_iff in Hne.
      destruct Hne as [Hn Hc].
      apply existsb_exists in Hn. apply existsb_exists in Hc. split; assumption.
    + intros [Hn Hc]. apply Hd'.
      * destruct Hn as (p & Hp & _). destruct calls; [destruct Hp | discriminate].
      * apply andb_true_iff. split; apply existsb_exists; assumption.
Qed.

(** One call of [rk628_csi_isr_fifoints] on flags that hold what was seen
    before: once both bits have been seen the flags are cleared, the glitch
    is marked and the resync work is dispatched; the CTS/N flags are not
    touched. *)
Lemma isr_fifoints_step (fifo_ints : Z) (aif : rk628_audioinfo) (so su : bool) :
  fifo_flag (audio_state aif) = flag_of OVERFL UNDERFL so su ->
  let r := rk628_csi_isr_fifoints h fifo_ints aif in
  let so' := so || carries fifo_ints OVERFL in
  let su' := su || carries fifo_ints UNDERFL in
  fifo_flag (audio_state (fst r))
    = (if so' && su' then 0 else flag_of OVERFL UNDERFL so' su') /\
  fifo_int (audio_state (fst r))
    = (if so' && su' then true else fifo_int (audio_state aif)) /\
  resync_dispatches (snd r) = (if so' && su' then 1%nat else 0%nat) /\
  fifo_initd_calls (snd r) = 0%nat /\
  ctsn_flag (audio_state (fst r)) = ctsn_flag (audio_state aif).
Proof.
  destruct Hh as [_ Hm]. fold OVERFL UNDERFL in Hm.
  intros Hf. cbv zeta. unfold rk628_csi_isr_fifoints, carries. cbv zeta.
  fold OVERFL UNDERFL.
  destruct (negb (Z.land (u32 fifo_ints) OVERFL =? 0));
    destruct (negb (Z.land (u32 fifo_ints) UNDERFL =? 0));
    cbn [seq assign emit skip fst snd app fifo_flag audio_state
         set_fifo_flag with_audio_state];
    rewrite ?Hf, ?(flag_of_set_a OVERFL UNDERFL Hm),
            ?(flag_of_set_b OVERFL UNDERFL Hm),
            ?(flag_of_full OVERFL UNDERFL Hm), ?orb_true_r, ?orb_false_r;
    destruct so, su;
    cbn [andb seq assign emit skip fst snd app fifo_flag fifo_int ctsn_flag
         audio_state set_fifo_flag set_fifo_int with_audio_state
         resync_dispatches fifo_initd_calls];
    repeat split; solve [reflexivity | exact Hf].
Qed.

(** The resync work when no CTS/N event is pending: with the glitch marked
    it commits a valid estimate and then runs the double FIFO
    initialisation once, whatever the fill status reads, and clears the
    mark; without the mark it does nothing. *)
Lemma rate_change_glitch_only (hw : reg -> Z) (aif : rk628_audioinfo) :
  ctsn_flag (audio_state aif) <> Z.lor N CTS ->
  let r := rk628_csi_delayed_work_audio_rate_change h hw aif in
  if fifo_int (audio_state aif) then
    snd r = (if is_validfs (s32 (_rk628_hdmirx_audio_fs hw))
             then snd (rk628_hdmirx_audio_set_fs (_rk628_hdmirx_audio_fs hw) aif)
             else []) ++ snd (rk628_hdmirx_audio_fifo_initd aif) /\
    fifo_initd_calls (snd r) = 1%nat /\
    resync_dispatches (snd r) = 0%nat /\
    fifo_int (audio_state (fst r)) = false /\
    fifo_flag (audio_state (fst r)) = fifo_flag (audio_state aif) /\
    ctsn_flag (audio_state (fst r)) = ctsn_flag (audio_state aif)
  else
    snd r = [] /\ fst r = aif.
Proof.
  intros Hc. apply Z.eqb_neq in Hc. fold N CTS.
  cbv zeta. unfold rk628_csi_delayed_work_audio_rate_change. cbv zeta.
  fold N CTS. rewrite fst_seq, snd_seq. cbv beta. rewrite Hc.
  cbn [skip fst snd app].
  destruct (fifo_int (audio_state aif)); [| split; reflexivity].
  destruct (is_validfs (s32 (_rk628_hdmirx_audio_fs hw)));
    destruct (rk628_i2c_read hw HDMI_RX_AUD_FIFO_FILLSTS1 =? 0);
    repeat split; reflexivity.
Qed.

(** The resync work with the glitch marked, in general: the glitch branch
    runs the double FIFO initialisation once and clears the mark; the
    CTS/N branch before it runs [rk628_hdmirx_audio_enable] when both
    CTS/N bits are accumulated and the estimate is valid, and that runs the
    double initialisation too when the FIFO interrupt status shows both
    error bits. *)
Lemma rate_change_glitch (hw : reg -> Z) (aif : rk628_audioinfo) :
  fifo_int (audio_state aif) = true ->
  let r := rk628_csi_delayed_work_audio_rate_change h hw aif in
  fifo_initd_calls (snd r)
    = (if (ctsn_flag (audio_state aif) =? Z.lor N CTS)
            && is_validfs (s32 (_rk628_hdmirx_audio_fs hw))
            && (Z.land (rk628_i2c_read hw HDMI_RX_AUD_FIFO_ISTS) 24 =? 24)
       then 2%nat else 1%nat) /\
  resync_dispatches (snd r) = 0%nat /\
  fifo_int (audio_state (fst r)) = false /\
  fifo_flag (audio_state (fst r)) = fifo_flag (audio_state aif).
Proof.
  intros Hi. fold N CTS.
  cbv zeta. unfold rk628_csi_delayed_work_audio_rate_change. cbv zeta.
  fold N CTS. rewrite fst_seq, snd_seq. cbv beta.
  destruct (ctsn_flag (audio_state aif) =? Z.lor N CTS);
    destruct (is_validfs (s32 (_rk628_hdmirx_audio_fs hw)));
    unfold rk628_hdmirx_audio_enable;
    destruct (Z.land (rk628_i2c_read hw HDMI_RX_AUD_FIFO_ISTS) 24 =? 24);
    destruct (negb (Z.land (rk628_i2c_read hw HDMI_RX_AUD_FIFO_ISTS) 24 =? 0));
    destruct (rk628_i2c_read hw HDMI_RX_AUD_FIFO_FILLSTS1 =? 0);
    cbn [andb seq assign emit skip fst snd app fifo_int audio_state
         set_ctsn_flag set_fifo_int set_fs_audio set_hdmirx_aud_clkrate
         set_audio_enable set_fifo_ints_en set_init_state set_pre_state
         with_audio_state rk628_hdmirx_audio_set_fs
         rk628_hdmirx_audio_fifo_init rk628_hdmirx_audio_fifo_initd];
    rewrite Hi; repeat split; reflexivity.
Qed.

(** C5, as amended.  From a state with no accumulated FIFO error flags: a
    call of [rk628_csi_isr_fifoints] carrying only overflow dispatches
    nothing, a following call carrying only underflow dispatches the resync
    work exactly once and marks the glitch; the run of the resync work then
    invokes [rk628_hdmirx_audio_fifo_initd] exactly once, whatever the fill
    status reads, unless that run also serves a CTS/N event (both CTS/N
    bits accumulated) with a valid estimate while the FIFO interrupt status
    shows both error bits, where [rk628_hdmirx_audio_enable] invokes it
    once more; the run leaves the accumulated flags and the mark cleared;
    a later call carrying a single error bit dispatches nothing, runs no
    initialisation and leaves the mark cleared. *)
Theorem fifo_glitch_resync (aif : rk628_audioinfo)
    (ints1 ints2 ints3 : Z) (hw : reg -> Z) :
  fifo_flag (audio_state aif) = 0 ->
  carries ints1 OVERFL = true -> carries ints1 UNDERFL = false ->
  carries ints2 UNDERFL = true -> carries ints2 OVERFL = false ->
  carries ints3 OVERFL = negb (carries ints3 UNDERFL) ->
  let r1 := rk628_csi_isr_fifoints h ints1 aif in
  let r2 := rk628_csi_isr_fifoints h ints2 (fst r1) in
  let r3 := rk628_csi_delayed_work_audio_rate_change h hw (fst r2) in
  let r4 := rk628_csi_isr_fifoints h ints3 (fst r3) in
  let enable_initd :=
    (ctsn_flag (audio_state aif) =? Z.lor N CTS)
      && is_validfs (s32 (_rk628_hdmirx_audio_fs hw))
      && (Z.land (rk628_i2c_read hw HDMI_RX_AUD_FIFO_ISTS) 24 =? 24) in
  resync_dispatches (snd r1) = 0%nat /\
  resync_dispatches (snd r2) = 1%nat /\
  resync_dispatches (snd r1 ++ snd r2) = 1%nat /\
  fifo_initd_calls (snd r1 ++ snd r2) = 0%nat /\
  fifo_int (audio_state (fst r2)) = true /\
  fifo_initd_calls (snd r3) = (if enable_initd then 2%nat else 1%nat) /\
  (ctsn_flag (audio_state aif) <> Z.lor N CTS ->
   snd r3 = (if is_validfs (s32 (_rk628_hdmirx_audio_fs hw))
             then [clk_set_rate_CGU_CLK_HDMIRX_AUD
                     (u32 (_rk628_hdmirx_audio_fs hw * 128))]
             else []) ++ snd (rk628_hdmirx_audio_fifo_initd aif)) /\
  fifo_flag (audio_state (fst r3)) = 0 /\
  fifo_int (audio_state (fst r3)) = false /\
  resync_dispatches (snd r4) = 0%nat /\
  fifo_initd_calls (snd r4) = 0%nat /\
  fifo_int (audio_state (fst r4)) = false.
Proof.
  intros Hf H1o H1u H2u H2o H3. cbv zeta.
  change 0 with (flag_of OVERFL UNDERFL false false) in Hf.
  destruct (isr_fifoints_step ints1 aif false false Hf)
    as (Hf1 & Hi1 & Hd1 & Hn1 & Hc1).
  cbv zeta in Hf1, Hi1, Hd1. rewrite H1o, H1u in Hf1, Hi1, Hd1.
  cbn [orb andb] in Hf1, Hi1, Hd1.
  destruct (isr_fifoints_step ints2 _ true false Hf1)
    as (Hf2 & Hi2 & Hd2 & Hn2 & Hc2).
  cbv zeta in Hf2, Hi2, Hd2. rewrite H2o, H2u in Hf2, Hi2, Hd2.
  cbn [orb andb] in Hf2, Hi2, Hd2.
  rewrite Hc1 in Hc2.
  destruct (rate_change_glitch hw _ Hi2) as (Hn3 & _ & Hi3 & Hf3).
  rewrite Hc2 in Hn3. rewrite Hf2 in Hf3.
  assert (Ht3 : ctsn_flag (audio_state aif) <> Z.lor N CTS ->
                snd (rk628_csi_delayed_work_audio_rate_change h hw
                       (fst (rk628_csi_isr_fifoints h ints2
                               (fst (rk628_csi_isr_fifoints h ints1 aif)))))
                = (if is_validfs (s32 (_rk628_hdmirx_audio_fs hw))
                   then [clk_set_rate_CGU_CLK_HDMIRX_AUD
                           (u32 (_rk628_hdmirx_audio_fs hw * 128))]
                   else []) ++ snd (rk628_hdmirx_audio_fifo_initd aif)).
  { intros Hc. rewrite <- Hc2 in Hc.
    pose proof (rate_change_glitch_only hw _ Hc) as H3r.
    cbv zeta in H3r. rewrite Hi2 in H3r. apply H3r. }
  change 0 with (flag_of OVERFL UNDERFL false false) in Hf3.
  destruct (isr_fifoints_step ints3 _ false false Hf3)
    as (_ & Hi4 & Hd4 & Hn4 & _).
  cbv zeta in Hi4, Hd4. rewrite H3 in Hi4, Hd4. cbn [orb] in Hi4, Hd4.
  assert (Hnb : negb (carries ints3 UNDERFL) && carries ints3 UNDERFL = false)
    by (destruct (carries ints3 UNDERFL); reflexivity).
  rewrite Hnb in Hi4, Hd4. rewrite Hi3 in Hi4.
  rewrite resync_dispatches_app, Hd1, Hd2.
  repeat split; try assumption.
  rewrite fifo_initd_calls_app, Hn1, Hn2. reflexivity.
Qed.

End Interrupts.

(** ** Drift correction *)

Lemma abs_u32_exact (d : Z) : INT_MIN < d <= INT_MAX -> abs (u32 d) = Z.abs d.
Proof.
  intros Hd. unfold abs. rewrite s32_u32. apply (abs_exact d Hd).
Qed.

Section DriftCorrection.

Context (h : rk628_hdmirx_h).

(** The clock commands of the statements between the test of the sample
    rate and the [exit] label of the newer work, and the clock rate they
    leave. *)
Lemma audio_v2_adjust_clk (hw : reg -> Z) (init pre L : Z)
    (aif : rk628_audioinfo) :
  let r := audio_v2_adjust h hw init pre L aif in
  let clk := hdmirx_aud_clkrate (audio_state aif) in
  (clk_rates (snd r), hdmirx_aud_clkrate (audio_state (fst r))) =
    if negb (L =? 0) && (int_sub L init >? 16) && (int_sub L pre >? 0)
    then ([u32 (clk + 10)], u32 (clk + 10))
    else if negb (L =? 0) && (int_sub L init <? -16) && (int_sub L pre <? 0)
    then ([u32 (clk + -10)], u32 (clk + -10))
    else ([], clk).
Proof.
  cbv zeta. unfold audio_v2_adjust.
  destruct (L =? 0); destruct (int_sub L init >? 16);
    destruct (int_sub L pre >? 0); destruct (int_sub L init <? -16);
    destruct (int_sub L pre <? 0);
    destruct (Z.land (rk628_i2c_read hw HDMI_RX_AUD_SPARE)
                (AUDS_MAS_SAMPLE_FLAT h) =? 0);
    cbv [seq fst snd negb andb]; destruct (audio_present aif);
    reflexivity.
Qed.

(** The same for the older work, once audio is enabled and the estimate is
    valid and within 1000 Hz of the tracked rate. *)
Lemma work_audio_clk (hw : reg -> Z) (aif : rk628_audioinfo) :
  let fs := _rk628_hdmirx_audio_fs hw in
  let L := s32 (rk628_i2c_read hw HDMI_RX_AUD_FIFO_FILLSTS1) in
  let init := init_state (audio_state aif) in
  let pre := pre_state (audio_state aif) in
  let clk := hdmirx_aud_clkrate (audio_state aif) in
  is_validfs (s32 fs) = true ->
  audio_enable (audio_state aif) = true ->
  (abs (u32 (fs - audio_state_fs_audio aif)) >? 1000) = false ->
  let r := rk628_csi_delayed_work_audio h hw aif in
  (clk_rates (snd r), hdmirx_aud_clkrate (audio_state (fst r))) =
    if (int_sub L init >? 16) && (int_sub L pre >? 0)
    then ([u32 (clk + 10)], u32 (clk + 10))
    else if negb (L =? 0) && (int_sub L init <? -16) && (int_sub L pre <? 0)
    then ([u32 (clk + -10)], u32 (clk + -10))
    else ([], clk).
Proof.
  cbv zeta. intros Hv He Hs. unfold rk628_csi_delayed_work_audio. cbv zeta.
  rewrite Hv, He, Hs. cbn [negb].
  destruct (s32 (rk628_i2c_read hw HDMI_RX_AUD_FIFO_FILLSTS1) =? 0);
    destruct (int_sub _ (init_state _) >? 16);
    destruct (int_sub _ (pre_state _) >? 0);
    destruct (int_sub _ (init_state _) <? -16);
    destruct (int_sub _ (pre_state _) <? 0);
    reflexivity.
Qed.

Lemma work_audio_v2_clk (hw : reg -> Z) (aif : rk628_audioinfo) :
  let fs := _rk628_hdmirx_audio_fs hw in
  let L := s32 (rk628_i2c_read hw HDMI_RX_AUD_FIFO_FILLSTS1) in
  let init := init_state (audio_state aif) in
  let pre := pre_state (audio_state aif) in
  let clk := hdmirx_aud_clkrate (audio_state aif) in
  is_validfs (s32 fs) = true ->
  Z.land (s32 (rk628_i2c_read hw HDMI_RX_AUD_FIFO_ISTS))
         (Z.lor (AFIF_UNDERFL_ISTS h) (AFIF_OVERFL_ISTS h)) = 0 ->
  (abs (u32 (fs - audio_state_fs_audio aif)) >? 1000) = false ->
  let r := rk628_csi_delayed_work_audio_v2 h hw aif in
  (clk_rates (snd r), hdmirx_aud_clkrate (audio_state (fst r))) =
    if negb (L =? 0) && (int_sub L init >? 16) && (int_sub L pre >? 0)
    then ([u32 (clk + 10)], u32 (clk + 10))
    else if negb (L =? 0) && (int_sub L init <? -16) && (int_sub L pre <? 0)
    then ([u32 (clk + -10)], u32 (clk + -10))
    else ([], clk).
Proof.
  cbv zeta. intros Hv Hi Hs. unfold rk628_csi_delayed_work_audio_v2. cbv zeta.
  rewrite Hv, Hi, Hs. cbn [negb Z.eqb].
  rewrite fst_seq, snd_seq, clk_rates_app. cbn [emit snd fst clk_rates].
  rewrite app_nil_r. apply audio_v2_adjust_clk.
Qed.

(** C7, as amended.  In a tick of either periodic work that tracks (the
    estimate is a supported rate within 1000 Hz of the tracked one; the
    newer work sees no FIFO error bit, the older work has audio enabled),
    with [L] the fill level read: if [|L - init_state| <= 16], at the
    boundary of 16 too, the clock rate is not set and stays as it was; on
    all inputs the tick either leaves the clock alone, or raises it by
    10 Hz, and then the differences as the code computes them in [int],
    with their wrap-around, are [> 16] from [init_state] and [> 0] from
    [pre_state], or lowers it by 10 Hz, and then they are [< -16] and
    [< 0]; and where [L - init_state] and [L - pre_state] are [int]
    values, the same holds of these differences themselves. *)
Theorem tracking_dead_band (hw : reg -> Z) (aif : rk628_audioinfo)
    (r : rk628_audioinfo * list effect) :
  let fs := _rk628_hdmirx_audio_fs hw in
  let L := s32 (rk628_i2c_read hw HDMI_RX_AUD_FIFO_FILLSTS1) in
  let init := init_state (audio_state aif) in
  let pre := pre_state (audio_state aif) in
  let clk := hdmirx_aud_clkrate (audio_state aif) in
  In fs supported_rates ->
  Z.abs (fs - fs_audio (audio_state aif)) <= 1000 ->
  (r = rk628_csi_delayed_work_audio_v2 h hw aif /\
   Z.land (s32 (rk628_i2c_read hw HDMI_RX_AUD_FIFO_ISTS))
          (Z.lor (AFIF_UNDERFL_ISTS h) (AFIF_OVERFL_ISTS h)) = 0) \/
  (r = rk628_csi_delayed_work_audio h hw aif /\
   audio_enable (audio_state aif) = true) ->
  (Z.abs (L - init) <= 16 ->
   clk_rates (snd r) = [] /\ hdmirx_aud_clkrate (audio_state (fst r)) = clk) /\
  ((clk_rates (snd r) = [] /\
    hdmirx_aud_clkrate (audio_state (fst r)) = clk) \/
   (clk_rates (snd r) = [u32 (clk + 10)] /\
    hdmirx_aud_clkrate (audio_state (fst r)) = u32 (clk + 10) /\
    int_sub L init > 16 /\ int_sub L pre > 0) \/
   (clk_rates (snd r) = [u32 (clk - 10)] /\
    hdmirx_aud_clkrate (audio_state (fst r)) = u32 (clk - 10) /\
    int_sub L init < -16 /\ int_sub L pre < 0)) /\
  (int_range (L - init) -> int_range (L - pre) ->
   (clk_rates (snd r) = [] /\
    hdmirx_aud_clkrate (audio_state (fst r)) = clk) \/
   (clk_rates (snd r) = [u32 (clk + 10)] /\
    hdmirx_aud_clkrate (audio_state (fst r)) = u32 (clk + 10) /\
    L - init > 16 /\ L - pre > 0) \/
   (clk_rates (snd r) = [u32 (clk - 10)] /\
    hdmirx_aud_clkrate (audio_state (fst r)) = u32 (clk - 10) /\
    L - init < -16 /\ L - pre < 0)).
Proof.
  cbv zeta. intros Hin Hst Hr.
  assert (Hv : is_validfs (s32 (_rk628_hdmirx_audio_fs hw)) = true)
    by (apply audio_fs_valid_iff; exact Hin).
  assert (Hs : (abs (u32 (_rk628_hdmirx_audio_fs hw - audio_state_fs_audio aif))
                >? 1000) = false).
  { unfold audio_state_fs_audio.
    rewrite abs_u32_exact by (unfold INT_MIN, INT_MAX; lia).
    rewrite Z.gtb_ltb. apply Z.ltb_ge. exact Hst. }
  pose proof (fun Hists => work_audio_v2_clk hw aif Hv Hists Hs) as H2.
  pose proof (fun Hen => work_audio_clk hw aif Hv Hen Hs) as H1.
  cbv zeta in H1, H2.
  set (L := s32 (rk628_i2c_read hw HDMI_RX_AUD_FIFO_FILLSTS1)) in *.
  set (init := init_state (audio_state aif)) in *.
  set (pre := pre_state (audio_state aif)) in *.
  set (clk := hdmirx_aud_clkrate (audio_state aif)) in *.
  replace (clk - 10) with (clk + -10) by lia.
  assert (H : (clk_rates (snd r), hdmirx_aud_clkrate (audio_state (fst r))) =
              (if negb (L =? 0) && (int_sub L init >? 16) && (int_sub L pre >? 0)
               then ([u32 (clk + 10)], u32 (clk + 10))
               else if negb (L =? 0) && (int_sub L init <? -16)
                         && (int_sub L pre <? 0)
               then ([u32 (clk + -10)], u32 (clk + -10))
               else ([], clk)) \/
              (clk_rates (snd r), hdmirx_aud_clkrate (audio_state (fst r))) =
              (if (int_sub L init >? 16) && (int_sub L pre >? 0)
               then ([u32 (clk + 10)], u32 (clk + 10))
               else if negb (L =? 0) && (int_sub L init <? -16)
                         && (int_sub L pre <? 0)
               then ([u32 (clk + -10)], u32 (clk + -10))
               else ([], clk)))
    by (destruct Hr as [[-> Hists] | [-> Hen]];
        [left; exact (H2 Hists) | right; exact (H1 Hen)]).
  clear H1 H2 Hr.
  split; [| split].
  - intros Hband.
    rewrite (int_sub_exact L init) in H
      by (unfold int_range, INT_MIN, INT_MAX; lia).
    assert (E1 : (L - init >? 16) = false)
      by (rewrite Z.gtb_ltb; apply Z.ltb_ge; lia).
    assert (E2 : (L - init <? -16) = false) by (apply Z.ltb_ge; lia).
    rewrite E1, E2, ?andb_false_r in H. cbn [andb] in H.
    destruct H as [H | H]; apply pair_equal_spec in H; exact H.
  - destruct (Z.gtb_spec (int_sub L init) 16) as [Ha | Ha];
      destruct (Z.gtb_spec (int_sub L pre) 0) as [Hb | Hb];
      destruct (Z.ltb_spec (int_sub L init) (-16)) as [Hc | Hc];
      destruct (Z.ltb_spec (int_sub L pre) 0) as [Hd | Hd];
      destruct (negb (L =? 0));
      cbn [andb] in H;
      destruct H as [H | H]; apply pair_equal_spec in H;
      destruct H as [Hrates Hclk]; rewrite Hrates, Hclk;
      first [ left; split; reflexivity
            | right; left; repeat split; first [reflexivity | lia]
            | right; right; repeat split; first [reflexivity | lia] ].
  - intros Hi Hp.
    rewrite (int_sub_exact L init Hi), (int_sub_exact L pre Hp) in H.
    destruct (Z.gtb_spec (L - init) 16) as [Ha | Ha];
      destruct (Z.gtb_spec (L - pre) 0) as [Hb | Hb];
      destruct (Z.ltb_spec (L - init) (-16)) as [Hc | Hc];
      destruct (Z.ltb_spec (L - pre) 0) as [Hd | Hd];
      destruct (negb (L =? 0));
      cbn [andb] in H;
      destruct H as [H | H]; apply pair_equal_spec in H;
      destruct H as [Hrates Hclk]; rewrite Hrates, Hclk;
      first [ left; split; reflexivity
            | right; left; repeat split; first [reflexivity | lia]
            | right; right; repeat split; first [reflexivity | lia] ].
Qed.

End DriftCorrection.

(** ** Runs on concrete inputs *)

Lemma sample_header_ok : header_ok sample_header.
Proof.
  unfold header_ok, disjoint_masks, sample_header, U32_MOD; cbn.
  repeat split; lia.
Qed.

Lemma sample_estimate (ists fillsts spare : Z) :
  _rk628_hdmirx_audio_fs (registers 3000 148500 5644 ists fillsts spare) = 44100.
Proof. vm_compute. reflexivity. Qed.

Lemma reachable_run (h : rk628_hdmirx_h) (os : list operation) :
  forall aif, reachable h aif -> reachable h (fst (run_operations h os aif)).
Proof.
  induction os as [| o os IH]; intros aif Hr; [exact Hr |].
  cbn [run_operations]. rewrite fst_seq. apply IH, reachable_step, Hr.
Qed.

Lemma reachable_run_setup (h : rk628_hdmirx_h) (os : list operation)
    (aif0 : rk628_audioinfo) :
  reachable h (fst (run_operations h (op_setup :: os) aif0)).
Proof.
  cbn [run_operations]. rewrite fst_seq.
  apply reachable_run. cbn [run_operation]. apply reachable_setup.
Qed.

Lemma reachable_fs_audio_witness :
  let aif :=
    fst (run_operation sample_header
           (op_tick (registers 3000 148500 5644 0 0 0))
           (fst (rk628_hdmirx_audio_setup sample_header (zeroed_audioinfo 1)))) in
  fs_audio (audio_state aif) = 0 \/
  In (fs_audio (audio_state aif)) [32000; 44100; 48000; 88200; 96000;
                                    176400; 192000; 768000].
Proof.
  exact (reachable_fs_audio sample_header _
           (reachable_step sample_header _
              (op_tick (registers 3000 148500 5644 0 0 0))
              (reachable_setup sample_header (zeroed_audioinfo 1)))).
Defined.

Lemma isr_ctsn_debounce_witness :
  let aif := fst (rk628_hdmirx_audio_setup sample_header (zeroed_audioinfo 1)) in
  let r1 := rk628_csi_isr_ctsn sample_header (Z.shiftl 1 22) aif in
  let r2 := rk628_csi_isr_ctsn sample_header (Z.shiftl 1 23) (fst r1) in
  resync_dispatches (snd r1) = 0%nat /\
  ctsn_ints_en (fst r1) = ctsn_ints_en aif /\
  resync_dispatches (snd r2) = 1%nat /\
  resync_dispatches (snd r1 ++ snd r2) = 1%nat /\
  ctsn_ints_en (fst r2) = false.
Proof.
  cbv zeta.
  apply (isr_ctsn_debounce sample_header sample_header_ok
           (fst (rk628_hdmirx_audio_setup sample_header (zeroed_audioinfo 1)))
           (Z.shiftl 1 22) (Z.shiftl 1 23)); reflexivity.
Defined.

Lemma fifo_glitch_resync_witness :
  let hw := registers 3000 148500 5644 0 0 0 in
  let aif :=
    fst (run_operations sample_header [op_setup; op_tick hw]
           (zeroed_audioinfo 1)) in
  let r1 := rk628_csi_isr_fifoints sample_header (Z.shiftl 1 3) aif in
  let r2 := rk628_csi_isr_fifoints sample_header (Z.shiftl 1 4) (fst r1) in
  let r3 := rk628_csi_delayed_work_audio_rate_change sample_header hw (fst r2) in
  resync_dispatches (snd r1 ++ snd r2) = 1%nat /\
  fifo_initd_calls (snd r3) = 1%nat /\
  fifo_flag (audio_state (fst r3)) = 0 /\
  fifo_int (audio_state (fst r3)) = false.
Proof.
  cbv zeta.
  pose proof (fifo_glitch_resync sample_header sample_header_ok
                (fst (run_operations sample_header
                        [op_setup; op_tick (registers 3000 148500 5644 0 0 0)]
                        (zeroed_audioinfo 1)))
                (Z.shiftl 1 3) (Z.shiftl 1 4) (Z.shiftl 1 3)
                (registers 3000 148500 5644 0 0 0)) as H.
  cbv zeta in H.
  destruct H as (_ & _ & Hd & _ & _ & Hn & _ & Hf & Hi & _);
    try (vm_compute; reflexivity).
  repeat split; assumption.
Defined.

Lemma tracking_dead_band_witness :
  let hw := registers 3000 148500 5644 0 273 0 in
  let r2 := rk628_csi_delayed_work_audio_v2 sample_header hw
              (tracking_audioinfo 2 256) in
  let r1 := rk628_csi_delayed_work_audio sample_header hw
              (tracking_audioinfo 1 256) in
  (clk_rates (snd r2) = [] \/
   clk_rates (snd r2) = [5644810] /\ 273 - 256 > 16 /\ 273 - 256 > 0 \/
   clk_rates (snd r2) = [5644790] /\ 273 - 256 < -16 /\ 273 - 256 < 0) /\
  (clk_rates (snd r1) = [] \/
   clk_rates (snd r1) = [5644810] /\ 273 - 256 > 16 /\ 273 - 256 > 0 \/
   clk_rates (snd r1) = [5644790] /\ 273 - 256 < -16 /\ 273 - 256 < 0).
Proof.
  cbv zeta.
  assert (Hin : In (_rk628_hdmirx_audio_fs (registers 3000 148500 5644 0 273 0))
                   supported_rates)
    by (rewrite sample_estimate; simpl; tauto).
  assert (Hst : forall v prev,
             Z.abs (_rk628_hdmirx_audio_fs (registers 3000 148500 5644 0 273 0)
                    - fs_audio (audio_state (tracking_audioinfo v prev))) <= 1000)
    by (intros v prev; rewrite sample_estimate; simpl; lia).
  split.
  - destruct (tracking_dead_band sample_header
                (registers 3000 148500 5644 0 273 0) (tracking_audioinfo 2 256)
                (rk628_csi_delayed_work_audio_v2 sample_header
                   (registers 3000 148500 5644 0 273 0)
                   (tracking_audioinfo 2 256))
                Hin (Hst 2 256) (or_introl (conj eq_refl eq_refl)))
      as (_ & _ & H).
    assert (Hi : int_range (273 - 256))
      by (unfold int_range, INT_MIN, INT_MAX; lia).
    destruct (H Hi Hi) as [[H' _] | [(H' & _ & Ha & Hb) | (H' & _ & Ha & Hb)]];
      clear H; rename H' into H.
    + left. exact H.
    + right. left. split; [exact H | split; [exact Ha | exact Hb]].
    + right. right. split; [exact H | split; [exact Ha | exact Hb]].
  - destruct (tracking_dead_band sample_header
                (registers 3000 148500 5644 0 273 0) (tracking_audioinfo 1 256)
                (rk628_csi_delayed_work_audio sample_header
                   (registers 3000 148500 5644 0 273 0)
                   (tracking_audioinfo 1 256))
                Hin (Hst 1 256) (or_intror (conj eq_refl eq_refl)))
      as (_ & _ & H).
    assert (Hi : int_range (273 - 256))
      by (unfold int_range, INT_MIN, INT_MAX; lia).
    destruct (H Hi Hi) as [[H' _] | [(H' & _ & Ha & Hb) | (H' & _ & Ha & Hb)]];
      clear H; rename H' into H.
    + left. exact H.
    + right. left. split; [exact H | split; [exact Ha | exact Hb]].
    + right. right. split; [exact H | split; [exact Ha | exact Hb]].
Defined.

(** At the boundary of the dead band the newer work leaves the clock
    alone, one unit beyond it raises the clock by 10 Hz. *)
Example dead_band_boundary_v2 :
  clk_rates (snd (rk628_csi_delayed_work_audio_v2 sample_header
                    (registers 3000 148500 5644 0 272 0)
                    (tracking_audioinfo 2 256))) = [] /\
  clk_rates (snd (rk628_csi_delayed_work_audio_v2 sample_header
                    (registers 3000 148500 5644 0 273 0)
                    (tracking_audioinfo 2 256))) = [5644810] /\
  clk_rates (snd (rk628_csi_delayed_work_audio_v2 sample_header
                    (registers 3000 148500 5644 0 240 0)
                    (tracking_audioinfo 2 256))) = [] /\
  clk_rates (snd (rk628_csi_delayed_work_audio_v2 sample_header
                    (registers 3000 148500 5644 0 239 0)
                    (tracking_audioinfo 2 256))) = [5644790].
Proof. vm_compute. repeat split. Qed.

(** C7 as the specification states it fails where the difference
    overflows.  With the fill level register reading [0x80000000], so that
    [L] is the least [int], in steady tracking of 44100 Hz with both levels
    at 256, each periodic work takes its tracking path and raises the clock
    by 10 Hz, and [L - init_state] is -2147483904, not above 16, and
    [L - pre_state] is not above 0. *)
Lemma tracking_dead_band_overflow :
  let hw := registers 3000 148500 5644 0 2147483648 0 in
  let L := s32 (rk628_i2c_read hw HDMI_RX_AUD_FIFO_FILLSTS1) in
  let aif2 := tracking_audioinfo 2 256 in
  let aif1 := tracking_audioinfo 1 256 in
  In (_rk628_hdmirx_audio_fs hw) supported_rates /\
  Z.abs (_rk628_hdmirx_audio_fs hw - fs_audio (audio_state aif2)) <= 1000 /\
  Z.abs (_rk628_hdmirx_audio_fs hw - fs_audio (audio_state aif1)) <= 1000 /\
  Z.land (s32 (rk628_i2c_read hw HDMI_RX_AUD_FIFO_ISTS))
         (Z.lor (AFIF_UNDERFL_ISTS sample_header)
                (AFIF_OVERFL_ISTS sample_header)) = 0 /\
  audio_enable (audio_state aif1) = true /\
  clk_rates (snd (rk628_csi_delayed_work_audio_v2 sample_header hw aif2))
  = [5644810] /\
  clk_rates (snd (rk628_csi_delayed_work_audio sample_header hw aif1))
  = [5644810] /\
  L - init_state (audio_state aif2) = -2147483904 /\
  ~ (L - init_state (audio_state aif2) > 16) /\
  ~ (L - pre_state (audio_state aif2) > 0) /\
  ~ (L - init_state (audio_state aif1) > 16) /\
  ~ (L - pre_state (audio_state aif1) > 0).
Proof.
  cbv zeta.
  assert (HL : s32 (rk628_i2c_read (registers 3000 148500 5644 0 2147483648 0)
                      HDMI_RX_AUD_FIFO_FILLSTS1) = -2147483648)
    by (vm_compute; reflexivity).
  rewrite HL, sample_estimate.
  split; [simpl; tauto |].
  split; [simpl; lia |]. split; [simpl; lia |].
  split; [reflexivity |]. split; [reflexivity |].
  split; [vm_compute; reflexivity |]. split; [vm_compute; reflexivity |].
  simpl. repeat split; lia.
Qed.

(** C5 as the specification states it fails when a CTS/N event waits for
    the same run of the resync work.  After setup on an older chip, a tick
    that enables audio and a CTS/N interrupt carrying both bits, no FIFO
    error flag is accumulated; overflow and then underflow dispatch the
    resync work once; in its run, with a valid estimate and both error bits
    in the FIFO interrupt status, [rk628_hdmirx_audio_enable] runs the
    double initialisation and the glitch branch runs it again. *)
Lemma fifo_glitch_two_initd :
  let h := sample_header in
  let hw := registers 3000 148500 5644 0 0 0 in
  let aif :=
    fst (run_operations h
           [op_setup; op_tick hw;
            op_isr_ctsn (Z.lor (ACR_N_CHG_ICLR h) (ACR_CTS_CHG_ICLR h))]
           (zeroed_audioinfo 1)) in
  let r1 := rk628_csi_isr_fifoints h (AFIF_OVERFL_ISTS h) aif in
  let r2 := rk628_csi_isr_fifoints h (AFIF_UNDERFL_ISTS h) (fst r1) in
  let r3 := rk628_csi_delayed_work_audio_rate_change h
              (registers 3000 148500 5644 24 0 0) (fst r2) in
  header_ok h /\
  reachable h aif /\
  rk628_audio_fifoints_enabled aif = true /\
  fifo_flag (audio_state aif) = 0 /\
  carries (AFIF_OVERFL_ISTS h) (AFIF_OVERFL_ISTS h) = true /\
  carries (AFIF_OVERFL_ISTS h) (AFIF_UNDERFL_ISTS h) = false /\
  carries (AFIF_UNDERFL_ISTS h) (AFIF_UNDERFL_ISTS h) = true /\
  carries (AFIF_UNDERFL_ISTS h) (AFIF_OVERFL_ISTS h) = false /\
  resync_dispatches (snd r1 ++ snd r2) = 1%nat /\
  fifo_initd_calls (snd r3) = 2%nat.
Proof.
  cbv zeta. split; [exact sample_header_ok |].
  split; [apply reachable_run_setup |].
  vm_compute. repeat split.
Qed.

(** ** Further properties of the audio code *)

(** X1.  [is_validfs] accepts exactly the eight rates of the table: the
    scan stops at the terminator, which itself is not accepted, and 0 is
    not accepted. *)
Theorem is_validfs_exact (fs : Z) :
  is_validfs fs = true <->
  In fs [32000; 44100; 48000; 88200; 96000; 176400; 192000; 768000].
Proof. apply is_validfs_In. Qed.

(** X2.  The estimator returns 0 or a rate of the table, on all register
    contents: the terminator that the snapping returns and raw quotients
    never leave it; and the callers' test [is_validfs(fs_audio)] succeeds
    exactly when the estimate is not 0. *)
Theorem audio_fs_zero_or_rate (hw : reg -> Z) :
  (_rk628_hdmirx_audio_fs hw = 0 \/
   In (_rk628_hdmirx_audio_fs hw)
      [32000; 44100; 48000; 88200; 96000; 176400; 192000; 768000]) /\
  (is_validfs (s32 (_rk628_hdmirx_audio_fs hw)) = true <->
   _rk628_hdmirx_audio_fs hw <> 0).
Proof.
  split; [apply audio_fs_result |].
  rewrite audio_fs_valid_iff.
  destruct (audio_fs_result hw) as [H0 | HIn].
  - rewrite H0. split; [| congruence].
    intros H. apply supported_rates_range in H. lia.
  - split; [| intros _; exact HIn].
    intros _. apply supported_rates_range in HIn. lia.
Qed.

Lemma tick_schedules_app (l1 l2 : list effect) :
  tick_schedules (l1 ++ l2) = tick_schedules l1 ++ tick_schedules l2.
Proof.
  induction l1 as [| e l1 IH]; [reflexivity |].
  destruct e as [| | | | w ms]; cbn [app tick_schedules]; try exact IH.
  destruct w; cbn [tick_schedules app]; rewrite IH; reflexivity.
Qed.

(** The two FIFO initialisations establish the reference level. *)
Lemma fifo_init_sets_init_state :
  preserves init_state_ok rk628_hdmirx_audio_fifo_init.
Proof. intros aif _. reflexivity. Qed.

Lemma fifo_initd_sets_init_state :
  preserves init_state_ok rk628_hdmirx_audio_fifo_initd.
Proof. intros aif _. reflexivity. Qed.

Lemma clk_inc_rate_init_state (dis : Z) :
  preserves init_state_ok (rk628_hdmirx_audio_clk_inc_rate dis).
Proof. intros aif H. exact H. Qed.

Lemma set_fs_init_state (fs : Z) :
  preserves init_state_ok (rk628_hdmirx_audio_set_fs fs).
Proof. intros aif H. exact H. Qed.

Lemma clk_set_rate_init_state (rate : Z) :
  preserves init_state_ok (rk628_hdmirx_audio_clk_set_rate rate).
Proof. intros aif H. exact H. Qed.

#[local] Hint Resolve fifo_init_sets_init_state fifo_initd_sets_init_state
  clk_inc_rate_init_state set_fs_init_state clk_set_rate_init_state : audio_inv.

Section ReferenceLevel.

Context (h : rk628_hdmirx_h).

Lemma audio_enable_init_state (hw : reg -> Z) :
  preserves init_state_ok (rk628_hdmirx_audio_enable h hw).
Proof. unfold rk628_hdmirx_audio_enable. preserve_parts. Qed.

Lemma audio_v2_adjust_init_state (hw : reg -> Z) (i p l : Z) :
  preserves init_state_ok (audio_v2_adjust h hw i p l).
Proof. unfold audio_v2_adjust. preserve_parts. Qed.

Lemma setup_init_state (aif0 : rk628_audioinfo) :
  init_state_ok (fst (rk628_hdmirx_audio_setup h aif0)).
Proof.
  unfold rk628_hdmirx_audio_setup. cbv zeta.
  do 4 rewrite fst_seq.
  match goal with
  | |- init_state_ok (fst (?c (fst (assign (set_init_state ?v) ?a)))) =>
      assert (H1 : init_state_ok (fst (assign (set_init_state v) a)))
        by reflexivity;
      revert H1; generalize (fst (assign (set_init_state v) a))
  end.
  intros aif1 H1. as_preserves. preserve_parts.
Qed.

Lemma operation_init_state (o : operation) :
  preserves init_state_ok (run_operation h o).
Proof.
  destruct o; cbn [run_operation].
  - intros aif Hok. unfold rk628_csi_delayed_work_audio_v2. cbv zeta.
    repeat match goal with
           | |- context [if ?b then _ else _] => destruct b
           end;
      as_preserves; preserve_parts; auto using audio_v2_adjust_init_state.
  - intros aif Hok. unfold rk628_csi_delayed_work_audio. cbv zeta.
    destruct (negb (is_validfs _)); [exact Hok |].
    destruct (negb (audio_enable _));
      as_preserves; preserve_parts; auto using audio_enable_init_state.
  - unfold rk628_csi_delayed_work_audio_rate_change. cbv zeta.
    preserve_parts; auto using audio_enable_init_state.
  - unfold rk628_csi_isr_ctsn. cbv zeta. preserve_parts.
  - unfold rk628_csi_isr_fifoints. cbv zeta. preserve_parts.
  - intros aif Hok. unfold rk628_hdmirx_audio_i2s_ctrl.
    destruct (Bool.eqb _ _); [exact Hok |]. destruct enable; exact Hok.
  - intros aif _. apply setup_init_state.
Qed.

(** X3.  In every state reachable from setup the reference fill level
    [init_state] is [INIT_FIFO_STATE * 4 = 256]: setup and both FIFO
    initialisations assign that constant and nothing else assigns the
    field, so the dead band of the drift correction is always 240..272. *)
Theorem reachable_init_state (aif : rk628_audioinfo) :
  reachable h aif -> init_state (audio_state aif) = 256.
Proof.
  intros Hr. change (init_state_ok aif).
  induction Hr as [aif0 | aif o Hr IH].
  - apply setup_init_state.
  - apply operation_init_state. exact IH.
Qed.

End ReferenceLevel.

Section PeriodicWork.

Context (h : rk628_hdmirx_h).

Lemma audio_v2_adjust_schedules (hw : reg -> Z) (init pre L : Z)
    (aif : rk628_audioinfo) :
  tick_schedules (snd (audio_v2_adjust h hw init pre L aif)) = [] /\
  resync_dispatches (snd (audio_v2_adjust h hw init pre L aif)) = 0%nat /\
  fs_audio (audio_state (fst (audio_v2_adjust h hw init pre L aif)))
    = fs_audio (audio_state aif) /\
  pre_state (audio_state (fst (audio_v2_adjust h hw init pre L aif))) = L.
Proof.
  unfold audio_v2_adjust.
  destruct (L =? 0); destruct (int_sub L init >? 16);
    destruct (int_sub L pre >? 0); destruct (int_sub L init <? -16);
    destruct (int_sub L pre <? 0);
    destruct (Z.land (rk628_i2c_read hw HDMI_RX_AUD_SPARE)
                (AUDS_MAS_SAMPLE_FLAT h) =? 0);
    cbv [seq fst snd negb andb]; destruct (audio_present aif);
    repeat split; reflexivity.
Qed.

(** X4.  Every run of either periodic work schedules the periodic work
    again exactly once and never dispatches the resync work: the newer
    work after 1000 ms when it saw no FIFO error and the estimate is not
    valid, after 500 ms otherwise; the older work always after 1000 ms. *)
Theorem periodic_work_reschedules (hw : reg -> Z) (aif : rk628_audioinfo) :
  let r2 := rk628_csi_delayed_work_audio_v2 h hw aif in
  let r1 := rk628_csi_delayed_work_audio h hw aif in
  tick_schedules (snd r2)
    = [if (Z.land (s32 (rk628_i2c_read hw HDMI_RX_AUD_FIFO_ISTS))
                  (Z.lor (AFIF_UNDERFL_ISTS h) (AFIF_OVERFL_ISTS h)) =? 0)
            && negb (is_validfs (s32 (_rk628_hdmirx_audio_fs hw)))
       then 1000 else 500] /\
  resync_dispatches (snd r2) = 0%nat /\
  tick_schedules (snd r1) = [1000] /\
  resync_dispatches (snd r1) = 0%nat.
Proof.
  cbv zeta. split; [| split].
  - unfold rk628_csi_delayed_work_audio_v2. cbv zeta.
    destruct (Z.land _ _ =? 0); cbn [negb andb].
    + destruct (is_validfs (s32 (_rk628_hdmirx_audio_fs hw))); cbn [negb].
      * destruct (abs _ >? 1000); [reflexivity |].
        rewrite snd_seq, tick_schedules_app.
        rewrite (proj1 (audio_v2_adjust_schedules hw _ _ _ aif)). reflexivity.
      * rewrite snd_seq, tick_schedules_app.
        rewrite (proj1 (audio_v2_adjust_schedules hw _ _ _ aif)). reflexivity.
    + destruct (is_validfs (s32 (_rk628_hdmirx_audio_fs hw))); reflexivity.
  - unfold rk628_csi_delayed_work_audio_v2. cbv zeta.
    destruct (negb (Z.land _ _ =? 0)).
    + destruct (is_validfs (s32 (_rk628_hdmirx_audio_fs hw))); reflexivity.
    + destruct (negb (is_validfs (s32 (_rk628_hdmirx_audio_fs hw))));
        [| destruct (abs _ >? 1000); [reflexivity |]];
        rewrite snd_seq, resync_dispatches_app;
        rewrite (proj1 (proj2 (audio_v2_adjust_schedules hw _ _ _ aif)));
        reflexivity.
  - unfold rk628_csi_delayed_work_audio, rk628_hdmirx_audio_enable. cbv zeta.
    destruct (negb (is_validfs _)); [split; reflexivity |].
    destruct (negb (audio_enable _)).
    + destruct (Z.land (rk628_i2c_read hw HDMI_RX_AUD_FIFO_ISTS) 24 =? 24);
        destruct (negb (Z.land (rk628_i2c_read hw HDMI_RX_AUD_FIFO_ISTS) 24 =? 0));
        split; reflexivity.
    + destruct (abs _ >? 1000);
        destruct (negb (s32 (rk628_i2c_read hw HDMI_RX_AUD_FIFO_FILLSTS1) =? 0));
        destruct (int_sub _ (init_state _) >? 16);
        destruct (int_sub _ (pre_state _) >? 0);
        destruct (int_sub _ (init_state _) <? -16);
        destruct (int_sub _ (pre_state _) <? 0);
        split; reflexivity.
Qed.

(** X5.  The two interrupt entry points only accumulate flags: whatever
    the interrupt word and the state, they set no clock rate, run no FIFO
    initialisation and schedule no periodic work, and
    [rk628_csi_isr_ctsn] changes no field but [ctsn_flag] and
    [ctsn_ints_en], [rk628_csi_isr_fifoints] none but [fifo_flag] and
    [fifo_int]. *)
Theorem isr_only_accumulate (ints : Z) (aif : rk628_audioinfo)
    (f : Z) (e b : bool) :
  let rc := rk628_csi_isr_ctsn h ints aif in
  let rf := rk628_csi_isr_fifoints h ints aif in
  clk_rates (snd rc) = [] /\ tick_schedules (snd rc) = [] /\
  fifo_initd_calls (snd rc) = 0%nat /\
  set_ctsn_flag f (set_ctsn_ints_en e (fst rc))
    = set_ctsn_flag f (set_ctsn_ints_en e aif) /\
  clk_rates (snd rf) = [] /\ tick_schedules (snd rf) = [] /\
  fifo_initd_calls (snd rf) = 0%nat /\
  set_fifo_flag f (set_fifo_int b (fst rf))
    = set_fifo_flag f (set_fifo_int b aif).
Proof.
  cbv zeta. unfold rk628_csi_isr_ctsn, rk628_csi_isr_fifoints. cbv zeta.
  destruct (negb (Z.land (u32 ints) (ACR_N_CHG_ICLR h) =? 0));
    destruct (negb (Z.land (u32 ints) (ACR_CTS_CHG_ICLR h) =? 0));
    destruct (negb (Z.land (u32 ints) (AFIF_OVERFL_ISTS h) =? 0));
    destruct (negb (Z.land (u32 ints) (AFIF_UNDERFL_ISTS h) =? 0));
    cbv [seq assign emit skip fst snd];
    cbn [ctsn_flag fifo_flag audio_state set_ctsn_flag set_fifo_flag
         with_audio_state];
    repeat match goal with
           | |- context [if ?c then _ else _] => destruct c
           end;
    repeat split; reflexivity.
Qed.

End PeriodicWork.

(** A supported rate times 128 fits the [u32] clock rate. *)
Lemma rate_times_128 (fs : Z) :
  In fs supported_rates -> u32 (fs * 128) = fs * 128.
Proof.
  intros H. apply supported_rates_range in H.
  apply u32_small. unfold U32_MOD. lia.
Qed.

(** Between two values that are each 0 or a supported rate, the test
    [abs(fs_audio - audio_state->fs_audio) > 1000] says that they differ. *)
Lemma rate_change_test (a b : Z) :
  In a supported_rates -> b = 0 \/ In b supported_rates ->
  (abs (u32 (a - b)) >? 1000) = negb (a =? b).
Proof.
  intros Ha Hb. simpl in Ha, Hb.
  repeat match goal with
         | H : _ \/ _ |- _ => destruct H as [H | H]
         | H : False |- _ => destruct H
         end; subst; vm_compute; reflexivity.
Qed.

Section Startup.

Context (h : rk628_hdmirx_h).

(** X6.  The older periodic work while audio is not enabled: with an
    estimate that is not valid it changes nothing and only schedules itself
    again; with a valid estimate it commits the estimate, sets the clock to
    128 times it (no other clock command, no drift correction), enables
    audio and the FIFO interrupts. *)
Theorem work_audio_startup (hw : reg -> Z) (aif : rk628_audioinfo) :
  audio_enable (audio_state aif) = false ->
  let fs := _rk628_hdmirx_audio_fs hw in
  let r := rk628_csi_delayed_work_audio h hw aif in
  if is_validfs (s32 fs) then
    fs_audio (audio_state (fst r)) = fs /\
    hdmirx_aud_clkrate (audio_state (fst r)) = fs * 128 /\
    clk_rates (snd r) = [fs * 128] /\
    audio_enable (audio_state (fst r)) = true /\
    fifo_ints_en (fst r) = true
  else
    r = (aif, [schedule_delayed_work delayed_work_audio 1000]).
Proof.
  intros Hen. cbv zeta.
  destruct (is_validfs (s32 (_rk628_hdmirx_audio_fs hw))) eqn:Hv.
  - pose proof (rate_times_128 _ (proj1 (audio_fs_valid_iff hw) Hv)) as H128.
    unfold rk628_csi_delayed_work_audio, rk628_hdmirx_audio_enable. cbv zeta.
    rewrite Hv, Hen. cbn [negb].
    destruct (Z.land (rk628_i2c_read hw HDMI_RX_AUD_FIFO_ISTS) 24 =? 24);
      destruct (negb (Z.land (rk628_i2c_read hw HDMI_RX_AUD_FIFO_ISTS) 24 =? 0));
      cbv [seq assign emit skip fst snd rk628_hdmirx_audio_set_fs
           rk628_hdmirx_audio_fifo_init rk628_hdmirx_audio_fifo_initd app];
      cbn [fs_audio hdmirx_aud_clkrate audio_enable fifo_ints_en audio_state
           set_fs_audio set_hdmirx_aud_clkrate set_audio_enable
           set_fifo_ints_en set_init_state set_pre_state with_audio_state
           clk_rates];
      rewrite H128; repeat split; reflexivity.
  - unfold rk628_csi_delayed_work_audio. cbv zeta. rewrite Hv. reflexivity.
Qed.

(** X7.  The newer periodic work with no FIFO error bit and an estimate
    that is not valid keeps the tracked rate and schedules itself after
    1000 ms, and still corrects the drift: it sets the clock exactly as a
    tracking tick does, 10 Hz up or down by the fill level. *)
Theorem work_audio_v2_invalid_fs (hw : reg -> Z) (aif : rk628_audioinfo) :
  Z.land (s32 (rk628_i2c_read hw HDMI_RX_AUD_FIFO_ISTS))
         (Z.lor (AFIF_UNDERFL_ISTS h) (AFIF_OVERFL_ISTS h)) = 0 ->
  is_validfs (s32 (_rk628_hdmirx_audio_fs hw)) = false ->
  let L := s32 (rk628_i2c_read hw HDMI_RX_AUD_FIFO_FILLSTS1) in
  let init := init_state (audio_state aif) in
  let pre := pre_state (audio_state aif) in
  let clk := hdmirx_aud_clkrate (audio_state aif) in
  let r := rk628_csi_delayed_work_audio_v2 h hw aif in
  fs_audio (audio_state (fst r)) = fs_audio (audio_state aif) /\
  pre_state (audio_state (fst r)) = L /\
  tick_schedules (snd r) = [1000] /\
  (clk_rates (snd r), hdmirx_aud_clkrate (audio_state (fst r))) =
    (if negb (L =? 0) && (int_sub L init >? 16) && (int_sub L pre >? 0)
     then ([u32 (clk + 10)], u32 (clk + 10))
     else if negb (L =? 0) && (int_sub L init <? -16) && (int_sub L pre <? 0)
     then ([u32 (clk + -10)], u32 (clk + -10))
     else ([], clk)).
Proof.
  intros Hi Hv. cbv zeta.
  unfold rk628_csi_delayed_work_audio_v2. cbv zeta.
  rewrite Hi, Hv. cbn [negb Z.eqb].
  rewrite fst_seq, snd_seq, tick_schedules_app, clk_rates_app.
  cbn [emit fst snd tick_schedules clk_rates]. rewrite !app_nil_r.
  destruct (audio_v2_adjust_schedules h hw (init_state (audio_state aif))
              (pre_state (audio_state aif))
              (s32 (rk628_i2c_read hw HDMI_RX_AUD_FIFO_FILLSTS1)) aif)
    as (Hs & _ & Hf & Hp).
  rewrite Hs, Hf, Hp. repeat split.
  apply audio_v2_adjust_clk.
Qed.

(** X8.  The newer periodic work with no FIFO error bit and a valid
    estimate, on a tracked rate that is 0 or a supported rate: if the
    estimate is the tracked rate the tick tracks (rate kept, fill level
    remembered); if it differs in any way the tick restarts audio: it
    commits the estimate, sets the clock to 128 times it and nothing else,
    reinitialises the FIFO once, leaves [init_state = 256] and
    [pre_state = 0]; either way the next tick comes after 500 ms.  The
    threshold of 1000 Hz never separates two such rates. *)
Theorem work_audio_v2_rate_change (hw : reg -> Z) (aif : rk628_audioinfo) :
  fs_audio (audio_state aif) = 0 \/
  In (fs_audio (audio_state aif)) supported_rates ->
  In (_rk628_hdmirx_audio_fs hw) supported_rates ->
  Z.land (s32 (rk628_i2c_read hw HDMI_RX_AUD_FIFO_ISTS))
         (Z.lor (AFIF_UNDERFL_ISTS h) (AFIF_OVERFL_ISTS h)) = 0 ->
  let fs := _rk628_hdmirx_audio_fs hw in
  let r := rk628_csi_delayed_work_audio_v2 h hw aif in
  tick_schedules (snd r) = [500] /\
  if fs =? fs_audio (audio_state aif) then
    fs_audio (audio_state (fst r)) = fs /\
    fifo_pulses (snd r) = 0%nat /\
    pre_state (audio_state (fst r))
      = s32 (rk628_i2c_read hw HDMI_RX_AUD_FIFO_FILLSTS1)
  else
    fs_audio (audio_state (fst r)) = fs /\
    hdmirx_aud_clkrate (audio_state (fst r)) = fs * 128 /\
    clk_rates (snd r) = [fs * 128] /\
    fifo_pulses (snd r) = 1%nat /\
    init_state (audio_state (fst r)) = 256 /\
    pre_state (audio_state (fst r)) = 0.
Proof.
  intros Hok Hin Hi. cbv zeta.
  pose proof (proj2 (audio_fs_valid_iff hw) Hin) as Hv.
  pose proof (rate_change_test _ _ Hin Hok) as Ht.
  pose proof (rate_times_128 _ Hin) as H128.
  unfold rk628_csi_delayed_work_audio_v2. cbv zeta.
  unfold audio_state_fs_audio.
  rewrite Hi, Hv, Ht. cbn [negb Z.eqb].
  destruct (Z.eqb_spec (_rk628_hdmirx_audio_fs hw) (fs_audio (audio_state aif)))
    as [E | E]; cbn [negb].
  - rewrite fst_seq, snd_seq, tick_schedules_app.
    destruct (audio_v2_adjust_schedules h hw (init_state (audio_state aif))
                (pre_state (audio_state aif))
                (s32 (rk628_i2c_read hw HDMI_RX_AUD_FIFO_FILLSTS1)) aif)
      as (Hs & _ & Hf & Hp).
    cbn [emit fst snd tick_schedules]. rewrite Hs, Hf, Hp.
    repeat split; try congruence.
    unfold audio_v2_adjust.
    destruct (_ =? 0); destruct (int_sub _ _ >? 16);
      destruct (int_sub _ _ >? 0); destruct (int_sub _ _ <? -16);
      destruct (int_sub _ _ <? 0);
      destruct (Z.land (rk628_i2c_read hw HDMI_RX_AUD_SPARE)
                  (AUDS_MAS_SAMPLE_FLAT h) =? 0);
      cbv [seq fst snd negb andb]; destruct (audio_present aif);
      reflexivity.
  - cbv [seq assign emit skip fst snd rk628_hdmirx_audio_set_fs
         rk628_hdmirx_audio_fifo_init app];
      cbn [fs_audio hdmirx_aud_clkrate init_state pre_state audio_state
           set_fs_audio set_hdmirx_aud_clkrate set_init_state set_pre_state
           with_audio_state clk_rates tick_schedules];
      rewrite H128; repeat split; reflexivity.
Qed.

End Startup.

Lemma runs_assign (f : rk628_audioinfo -> rk628_audioinfo) (a : rk628_audioinfo) :
  runs (assign f) a (f a) [].
Proof. reflexivity. Qed.

Lemma runs_emit (e : effect) (a : rk628_audioinfo) : runs (emit e) a a [e].
Proof. reflexivity. Qed.

Lemma runs_skip (a : rk628_audioinfo) : runs skip a a [].
Proof. reflexivity. Qed.

Lemma runs_seq (c1 c2 : action) (a s1 s2 : rk628_audioinfo) (e1 e2 : list effect) :
  runs c1 a s1 e1 -> runs c2 s1 s2 e2 -> runs (c1 ;; c2) a s2 (e1 ++ e2).
Proof.
  unfold runs, seq. intros H1 H2. rewrite H1. cbn [fst snd]. rewrite H2.
  reflexivity.
Qed.

Section Resync.

Context (h : rk628_hdmirx_h).

(** X9.  The resync work on a CTS/N event (both bits accumulated) without
    a marked glitch consumes the event and always schedules the periodic
    work after 1000 ms; with a valid estimate it commits it, sets the clock
    to 128 times it, enables audio and the FIFO interrupts; with an
    estimate that is not valid it leaves rate, clock and enable state as
    they are. *)
Theorem rate_change_ctsn_ready (hw : reg -> Z) (aif : rk628_audioinfo) :
  ctsn_flag (audio_state aif)
    = Z.lor (ACR_N_CHG_ICLR h) (ACR_CTS_CHG_ICLR h) ->
  fifo_int (audio_state aif) = false ->
  let fs := _rk628_hdmirx_audio_fs hw in
  let r := rk628_csi_delayed_work_audio_rate_change h hw aif in
  ctsn_flag (audio_state (fst r)) = 0 /\
  tick_schedules (snd r) = [1000] /\
  resync_dispatches (snd r) = 0%nat /\
  if is_validfs (s32 fs) then
    fs_audio (audio_state (fst r)) = fs /\
    hdmirx_aud_clkrate (audio_state (fst r)) = fs * 128 /\
    clk_rates (snd r) = [fs * 128] /\
    audio_enable (audio_state (fst r)) = true /\
    fifo_ints_en (fst r) = true
  else
    fs_audio (audio_state (fst r)) = fs_audio (audio_state aif) /\
    hdmirx_aud_clkrate (audio_state (fst r))
      = hdmirx_aud_clkrate (audio_state aif) /\
    clk_rates (snd r) = [] /\
    audio_enable (audio_state (fst r)) = audio_enable (audio_state aif) /\
    fifo_ints_en (fst r) = fifo_ints_en aif.
Proof.
  intros Hc Hi. cbv zeta.
  unfold rk628_csi_delayed_work_audio_rate_change, rk628_hdmirx_audio_enable.
  cbv zeta. rewrite fst_seq, snd_seq. cbv beta.
  rewrite Hc, Z.eqb_refl.
  destruct (is_validfs (s32 (_rk628_hdmirx_audio_fs hw))) eqn:Hv.
  - pose proof (rate_times_128 _ (proj1 (audio_fs_valid_iff hw) Hv)) as H128.
    destruct (Z.land (rk628_i2c_read hw HDMI_RX_AUD_FIFO_ISTS) 24 =? 24);
      destruct (negb (Z.land (rk628_i2c_read hw HDMI_RX_AUD_FIFO_ISTS) 24 =? 0));
      cbv [seq assign emit skip fst snd rk628_hdmirx_audio_set_fs
           rk628_hdmirx_audio_fifo_init rk628_hdmirx_audio_fifo_initd app];
      cbn [fs_audio hdmirx_aud_clkrate audio_enable fifo_ints_en fifo_int
           ctsn_flag audio_state
           set_fs_audio set_hdmirx_aud_clkrate set_audio_enable set_ctsn_flag
           set_fifo_ints_en set_init_state set_pre_state with_audio_state];
      rewrite Hi, H128; repeat split; reflexivity.
  - cbv [seq assign emit skip fst snd app];
      cbn [fifo_int audio_state set_ctsn_flag with_audio_state];
      rewrite Hi; repeat split; reflexivity.
Qed.

Ltac known_reads aif :=
  repeat match goal with
         | |- context [version ?x] =>
             progress change (version x) with (version aif)
         | |- context [i2s_enabled_default ?x] =>
             progress change (i2s_enabled_default x)
               with (i2s_enabled_default aif)
         end;
  repeat match goal with
         | H : ?c = _ |- context [if ?c then _ else _] => rewrite H
         end.

Ltac run_action aif :=
  lazymatch goal with
  | |- runs (_ ;; _) _ _ _ =>
      eapply runs_seq; [run_action aif | run_action aif]
  | |- runs (assign _) _ _ _ => apply runs_assign
  | |- runs (emit _) _ _ _ => apply runs_emit
  | |- runs skip _ _ _ => apply runs_skip
  | |- runs (fun _ => _) _ _ _ =>
      unfold runs; cbv beta; known_reads aif;
      lazymatch goal with
      | |- ?c ?a = (?s, ?e) => change (runs c a s e); run_action aif
      end
  end.

(** X10.  Setup, run on any state, leaves [ctsn_flag = 0],
    [fs_audio = 0], [pre_state = 0], [init_state = 256], no glitch mark,
    audio and the FIFO interrupts disabled and the clock at 5644800 Hz
    (128 times 44100); the CTS/N interrupts are enabled exactly on the older
    chips, and the periodic work is scheduled (after 1000 ms) exactly on
    the newer ones.  It does not touch [fifo_flag]: FIFO error bits
    accumulated before setup are still there after it. *)
Theorem setup_state (aif : rk628_audioinfo) :
  let r := rk628_hdmirx_audio_setup h aif in
  let newer := version aif >=? RK628F_VERSION h in
  ctsn_flag (audio_state (fst r)) = 0 /\
  fs_audio (audio_state (fst r)) = 0 /\
  pre_state (audio_state (fst r)) = 0 /\
  init_state (audio_state (fst r)) = 256 /\
  fifo_int (audio_state (fst r)) = false /\
  audio_enable (audio_state (fst r)) = false /\
  fifo_ints_en (fst r) = false /\
  hdmirx_aud_clkrate (audio_state (fst r)) = 44100 * 128 /\
  clk_rates (snd r) = [44100 * 128] /\
  i2s_enabled (fst r) = i2s_enabled_default aif /\
  ctsn_ints_en (fst r) = negb newer /\
  tick_schedules (snd r) = (if newer then [1000] else []) /\
  fifo_flag (audio_state (fst r)) = fifo_flag (audio_state aif).
Proof.
  cbv zeta.
  destruct (version aif >=? RK628F_VERSION h) eqn:Hv.
  all: eassert (Hr : runs (rk628_hdmirx_audio_setup h) aif _ _)
         by (unfold rk628_hdmirx_audio_setup, rk628_hdmirx_audio_clk_set_rate;
             cbv zeta; run_action aif).
  all: unfold runs in Hr; rewrite Hr; cbn [fst snd].
  all: repeat split; reflexivity.
Qed.
End Resync.

(** X11.  [rk628_hdmirx_audio_i2s_ctrl] writes the I2S register only when
    the setting changes: after a call [i2s_enabled] is the argument; a call
    with the current setting, hence any immediate second call with the same
    argument, changes nothing and writes nothing; a call that changes the
    setting writes the register once. *)
Theorem i2s_ctrl_idempotent (enable : bool) (aif : rk628_audioinfo) :
  let r1 := rk628_hdmirx_audio_i2s_ctrl enable aif in
  let r2 := rk628_hdmirx_audio_i2s_ctrl enable (fst r1) in
  i2s_enabled (fst r1) = enable /\
  r2 = (fst r1, []) /\
  (if Bool.eqb enable (i2s_enabled aif)
   then r1 = (aif, [])
   else length (snd r1) = 1%nat).
Proof.
  cbv zeta. unfold rk628_hdmirx_audio_i2s_ctrl.
  destruct enable; destruct (i2s_enabled aif) eqn:E;
    cbn [Bool.eqb]; cbv [seq assign emit skip fst snd app];
    cbn [i2s_enabled set_i2s_enabled Bool.eqb]; rewrite ?E;
    repeat split; reflexivity.
Qed.

(** X12.  On a clock rate that is a [u32], a nudge of +10 Hz followed by
    one of -10 Hz (or the other way round) restores the rate, also where
    the intermediate rate wraps; the clock is commanded twice. *)
Theorem clk_inc_rate_round_trip (aif : rk628_audioinfo) :
  0 <= hdmirx_aud_clkrate (audio_state aif) < U32_MOD ->
  let clk := hdmirx_aud_clkrate (audio_state aif) in
  let up := rk628_hdmirx_audio_clk_inc_rate 10 aif in
  let up_down := rk628_hdmirx_audio_clk_inc_rate (-10) (fst up) in
  let down := rk628_hdmirx_audio_clk_inc_rate (-10) aif in
  let down_up := rk628_hdmirx_audio_clk_inc_rate 10 (fst down) in
  hdmirx_aud_clkrate (audio_state (fst up_down)) = clk /\
  hdmirx_aud_clkrate (audio_state (fst down_up)) = clk /\
  clk_rates (snd up ++ snd up_down) = [u32 (clk + 10); clk] /\
  clk_rates (snd down ++ snd down_up) = [u32 (clk - 10); clk].
Proof.
  intros Hc. cbv zeta.
  assert (E1 : u32 (u32 (hdmirx_aud_clkrate (audio_state aif) + 10) + -10)
               = hdmirx_aud_clkrate (audio_state aif)).
  { unfold u32. rewrite Zplus_mod_idemp_l.
    replace (hdmirx_aud_clkrate (audio_state aif) + 10 + -10)
      with (hdmirx_aud_clkrate (audio_state aif)) by lia.
    apply Z.mod_small. exact Hc. }
  assert (E2 : u32 (u32 (hdmirx_aud_clkrate (audio_state aif) + -10) + 10)
               = hdmirx_aud_clkrate (audio_state aif)).
  { unfold u32. rewrite Zplus_mod_idemp_l.
    replace (hdmirx_aud_clkrate (audio_state aif) + -10 + 10)
      with (hdmirx_aud_clkrate (audio_state aif)) by lia.
    apply Z.mod_small. exact Hc. }
  cbv [rk628_hdmirx_audio_clk_inc_rate seq assign emit fst snd app];
    cbn [hdmirx_aud_clkrate audio_state set_hdmirx_aud_clkrate
         with_audio_state clk_rates].
  rewrite E1, E2. repeat split; reflexivity.
Qed.

Lemma fifo_pulses_app (l1 l2 : list effect) :
  fifo_pulses (l1 ++ l2) = (fifo_pulses l1 + fifo_pulses l2)%nat.
Proof.
  unfold fifo_pulses. rewrite filter_app. apply length_app.
Qed.

Section Recovery.

Context (h : rk628_hdmirx_h).

(** X13.  [rk628_hdmirx_audio_enable] always ends with audio and the FIFO
    interrupts enabled, and chooses the FIFO recovery by the two error bits
    (mask 0x18) of the interrupt status: both set, the double
    initialisation (two pulses of the enable bit); exactly one set, the
    single initialisation (one pulse); none set, no initialisation, the
    fill levels being left as they are. *)
Theorem audio_enable_recovery (hw : reg -> Z) (aif : rk628_audioinfo) :
  let bits := Z.land (rk628_i2c_read hw HDMI_RX_AUD_FIFO_ISTS) 24 in
  let r := rk628_hdmirx_audio_enable h hw aif in
  audio_enable (audio_state (fst r)) = true /\
  fifo_ints_en (fst r) = true /\
  fifo_pulses (snd r)
    = (if bits =? 24 then 2%nat else if bits =? 0 then 0%nat else 1%nat) /\
  fifo_initd_calls (snd r) = (if bits =? 24 then 1%nat else 0%nat) /\
  (init_state (audio_state (fst r)), pre_state (audio_state (fst r)))
    = (if bits =? 0
       then (init_state (audio_state aif), pre_state (audio_state aif))
       else (256, 256)).
Proof.
  cbv zeta. unfold rk628_hdmirx_audio_enable. cbv zeta.
  destruct (Z.eqb_spec (Z.land (rk628_i2c_read hw HDMI_RX_AUD_FIFO_ISTS) 24) 24)
    as [E | E].
  - rewrite E. repeat split; reflexivity.
  - destruct (Z.land (rk628_i2c_read hw HDMI_RX_AUD_FIFO_ISTS) 24 =? 0);
      repeat split; reflexivity.
Qed.

Hypothesis Hh : header_ok h.

Let N := ACR_N_CHG_ICLR h.
Let CTS := ACR_CTS_CHG_ICLR h.
Let OVERFL := AFIF_OVERFL_ISTS h.
Let UNDERFL := AFIF_UNDERFL_ISTS h.

(** X14.  Two calls of [rk628_csi_isr_fifoints] from no accumulated flag,
    on any two interrupt words: the first dispatches the resync work
    exactly if it carries both error bits, and then starts from no flag
    again; the second dispatches exactly if the bits it carries, together
    with what the first left, are both.  So overflow then underflow,
    underflow then overflow and both at once dispatch once, and the same
    single bit twice does not dispatch. *)
Theorem isr_fifoints_two_calls (aif : rk628_audioinfo) (ints1 ints2 : Z) :
  fifo_flag (audio_state aif) = 0 ->
  let o1 := carries ints1 OVERFL in
  let u1 := carries ints1 UNDERFL in
  let o2 := carries ints2 OVERFL in
  let u2 := carries ints2 UNDERFL in
  let left_o := if o1 && u1 then false else o1 in
  let left_u := if o1 && u1 then false else u1 in
  let r1 := rk628_csi_isr_fifoints h ints1 aif in
  let r2 := rk628_csi_isr_fifoints h ints2 (fst r1) in
  resync_dispatches (snd r1) = (if o1 && u1 then 1%nat else 0%nat) /\
  resync_dispatches (snd r2)
    = (if (left_o || o2) && (left_u || u2) then 1%nat else 0%nat) /\
  fifo_int (audio_state (fst r2))
    = (o1 && u1) || ((left_o || o2) && (left_u || u2))
      || fifo_int (audio_state aif).
Proof.
  intros Hf. cbv zeta.
  change 0 with (flag_of OVERFL UNDERFL false false) in Hf.
  destruct (isr_fifoints_step h Hh ints1 aif false false Hf)
    as (Hf1 & Hi1 & Hd1 & _).
  cbv zeta in Hf1, Hi1, Hd1. cbn [orb] in Hf1, Hi1, Hd1.
  fold OVERFL UNDERFL in Hf1, Hi1, Hd1.
  assert (Hf1' : fifo_flag (audio_state (fst (rk628_csi_isr_fifoints h ints1 aif)))
                 = flag_of OVERFL UNDERFL
                     (if carries ints1 OVERFL && carries ints1 UNDERFL
                      then false else carries ints1 OVERFL)
                     (if carries ints1 OVERFL && carries ints1 UNDERFL
                      then false else carries ints1 UNDERFL)).
  { rewrite Hf1.
    destruct (carries ints1 OVERFL && carries ints1 UNDERFL); reflexivity. }
  destruct (isr_fifoints_step h Hh ints2 _ _ _ Hf1') as (_ & Hi2 & Hd2 & _).
  cbv zeta in Hi2, Hd2. fold OVERFL UNDERFL in Hi2, Hd2.
  rewrite Hd1, Hd2, Hi2, Hi1.
  destruct (carries ints1 OVERFL), (carries ints1 UNDERFL),
    (carries ints2 OVERFL), (carries ints2 UNDERFL),
    (fifo_int (audio_state aif)); repeat split; reflexivity.
Qed.

(** X15.  After a run of the resync work no event is left pending, in any
    state: the glitch mark is cleared and [ctsn_flag] is not both bits; so
    a second run right after the first does nothing at all. *)
Theorem rate_change_consumes (hw hw' : reg -> Z) (aif : rk628_audioinfo) :
  let r := rk628_csi_delayed_work_audio_rate_change h hw aif in
  let r' := rk628_csi_delayed_work_audio_rate_change h hw' (fst r) in
  fifo_int (audio_state (fst r)) = false /\
  ctsn_flag (audio_state (fst r)) <> Z.lor N CTS /\
  r' = (fst r, []).
Proof.
  cbv zeta.
  assert (H0 : 0 <> Z.lor N CTS).
  { intros E. symmetry in E. revert E. apply disjoint_lor_neq_0, Hh. }
  assert (Hpair : fifo_int (audio_state
                    (fst (rk628_csi_delayed_work_audio_rate_change h hw aif)))
                  = false /\
                  ctsn_flag (audio_state
                    (fst (rk628_csi_delayed_work_audio_rate_change h hw aif)))
                  <> Z.lor N CTS).
  { unfold rk628_csi_delayed_work_audio_rate_change, rk628_hdmirx_audio_enable.
    cbv zeta. fold N CTS. rewrite fst_seq. cbv beta.
    destruct (Z.eqb_spec (ctsn_flag (audio_state aif)) (Z.lor N CTS)) as [E | E];
      destruct (is_validfs (s32 (_rk628_hdmirx_audio_fs hw)));
      destruct (Z.land (rk628_i2c_read hw HDMI_RX_AUD_FIFO_ISTS) 24 =? 24);
      destruct (negb (Z.land (rk628_i2c_read hw HDMI_RX_AUD_FIFO_ISTS) 24 =? 0));
      destruct (rk628_i2c_read hw HDMI_RX_AUD_FIFO_FILLSTS1 =? 0);
      cbv [seq assign emit skip fst snd rk628_hdmirx_audio_set_fs
           rk628_hdmirx_audio_fifo_init rk628_hdmirx_audio_fifo_initd app];
      cbn [fifo_int ctsn_flag audio_state set_fs_audio set_hdmirx_aud_clkrate
           set_audio_enable set_ctsn_flag set_fifo_int set_fifo_ints_en
           set_init_state set_pre_state with_audio_state];
      destruct (fifo_int (audio_state aif)) eqn:Hfi; cbn [fst];
      cbn [fifo_int ctsn_flag audio_state set_fs_audio set_hdmirx_aud_clkrate
           set_audio_enable set_ctsn_flag set_fifo_int set_fifo_ints_en
           set_init_state set_pre_state with_audio_state];
      rewrite ?Hfi; split; solve [reflexivity | exact H0 | exact E | exact Hfi]. }
  destruct Hpair as [Hi Hc]. split; [exact Hi |]. split; [exact Hc |].
  pose proof (rate_change_glitch_only h hw' _ Hc) as H2.
  cbv zeta in H2. rewrite Hi in H2. destruct H2 as [H2 H3].
  rewrite (surjective_pairing (rk628_csi_delayed_work_audio_rate_change h hw' _)).
  rewrite H2, H3. reflexivity.
Qed.

(** Every operation keeps the accumulated FIFO error flags below both
    bits. *)
Lemma isr_fifoints_partial (ints : Z) :
  preserves (fifo_flag_partial h) (rk628_csi_isr_fifoints h ints).
Proof.
  intros aif (so & su & Hb & Hf). fold OVERFL UNDERFL in Hf.
  destruct (isr_fifoints_step h Hh ints aif so su Hf) as (Hf1 & _).
  cbv zeta in Hf1. fold OVERFL UNDERFL in Hf1.
  destruct ((so || carries ints OVERFL) && (su || carries ints UNDERFL)) eqn:E.
  - exists false, false. split; [reflexivity | exact Hf1].
  - exists (so || carries ints OVERFL), (su || carries ints UNDERFL).
    split; [exact E | exact Hf1].
Qed.

(** X16.  No operation leaves both FIFO error bits accumulated: if
    [fifo_flag] holds at most one of the two bits before an operation, it
    does so after it.  The call of [rk628_csi_isr_fifoints] that completes
    the pair clears the flags itself; no other operation assigns them. *)
Theorem operation_fifo_flag_partial (o : operation) (aif : rk628_audioinfo) :
  fifo_flag_partial h aif ->
  fifo_flag_partial h (fst (run_operation h o aif)).
Proof.
  revert aif. change (preserves (fifo_flag_partial h) (run_operation h o)).
  destruct o; cbn [run_operation].
  - intros aif Hok. unfold rk628_csi_delayed_work_audio_v2, audio_v2_adjust.
    cbv zeta.
    repeat match goal with
           | |- context [if ?b then _ else _] => destruct b
           end;
      as_preserves; preserve_parts.
  - intros aif Hok.
    unfold rk628_csi_delayed_work_audio, rk628_hdmirx_audio_enable. cbv zeta.
    destruct (negb (is_validfs _)); [exact Hok |].
    destruct (negb (audio_enable _)); as_preserves; preserve_parts.
  - unfold rk628_csi_delayed_work_audio_rate_change, rk628_hdmirx_audio_enable.
    cbv zeta. preserve_parts.
  - unfold rk628_csi_isr_ctsn. cbv zeta. preserve_parts.
  - apply isr_fifoints_partial.
  - intros aif Hok. unfold rk628_hdmirx_audio_i2s_ctrl.
    destruct (Bool.eqb _ _); [exact Hok |]. destruct enable; exact Hok.
  - unfold rk628_hdmirx_audio_setup. cbv zeta. preserve_parts.
Qed.

End Recovery.

(** ** The TMDS clock counter *)

Lemma last_cons_default (A : Type) (l : list A) :
  forall x c : A, last (x :: l) c = last l x.
Proof.
  induction l as [| y l IH]; intros x c; [reflexivity |].
  change (last (x :: y :: l) c) with (last (y :: l) c).
  rewrite (IH y c), (IH y x). reflexivity.
Qed.

Lemma tmdsclk_sample_reads (ckm : nat -> Z) (n : nat) :
  forall i tbl c,
    tmdsclk_sample ckm i n tbl c
    = (fold_left tmdsclk_tally
         (map (fun k => Z.land (u32 (ckm k)) 65535) (List.seq i n)) tbl,
       last (map (fun k => Z.land (u32 (ckm k)) 65535) (List.seq i n)) c).
Proof.
  induction n as [| n IH]; intros i tbl c; [reflexivity |].
  cbn [tmdsclk_sample List.seq map fold_left]. rewrite IH.
  rewrite last_cons_default. reflexivity.
Qed.

Lemma get_tmdsclk_cnt_reads (ckm : nat -> Z) :
  rk628_hdmirx_get_tmdsclk_cnt ckm
  = tmdsclk_pick
      (fold_left tmdsclk_tally (tmdsclk_reads ckm)
         (repeat {| tmds_cnt := 0; cnt := 0 |} HDMIRX_GET_TMDSCLK_TIME))
      None (last (tmdsclk_reads ckm) 0).
Proof.
  unfold rk628_hdmirx_get_tmdsclk_cnt. rewrite tmdsclk_sample_reads.
  reflexivity.
Qed.

Lemma tmdsclk_reads_nth (ckm : nat -> Z) (v : Z) :
  In v (tmdsclk_reads ckm) <->
  exists i, (i < HDMIRX_GET_TMDSCLK_TIME)%nat /\ v = Z.land (u32 (ckm i)) 65535.
Proof.
  unfold tmdsclk_reads. rewrite in_map_iff. split.
  - intros (i & <- & Hi). apply in_seq in Hi. exists i. split; [lia | reflexivity].
  - intros (i & Hi & ->). exists i. split; [reflexivity |]. apply in_seq. lia.
Qed.

Lemma tmdsclk_tally_from (vals : list Z) (c : Z) (tbl : list hdmirx_tmdsclk_cnt) :
  In c vals -> Forall (slot_from vals) tbl ->
  Forall (slot_from vals) (tmdsclk_tally tbl c).
Proof.
  intros Hc. induction 1 as [| slot rest Hs Hr IH]; [constructor |].
  cbn [tmdsclk_tally].
  destruct ((c =? tmds_cnt slot) || (tmds_cnt slot =? 0)).
  - constructor; [right; exact Hc | exact Hr].
  - constructor; assumption.
Qed.

Lemma tmdsclk_fold_from (vals : list Z) :
  forall (reads : list Z) (tbl : list hdmirx_tmdsclk_cnt),
    incl reads vals -> Forall (slot_from vals) tbl ->
    Forall (slot_from vals) (fold_left tmdsclk_tally reads tbl).
Proof.
  induction reads as [| c reads IH]; intros tbl Hi Ht; [exact Ht |].
  cbn [fold_left]. apply IH.
  - intros x Hx. apply Hi. right. exact Hx.
  - apply tmdsclk_tally_from; [apply Hi; left; reflexivity | exact Ht].
Qed.

Lemma tmdsclk_pick_from (vals : list Z) (tbl : list hdmirx_tmdsclk_cnt) :
  Forall (slot_from vals) tbl ->
  forall prev c, In c vals -> In (tmdsclk_pick tbl prev c) vals.
Proof.
  induction 1 as [| slot rest Hs Hr IH]; intros prev c Hc; [exact Hc |].
  cbn [tmdsclk_pick].
  destruct (Z.eqb_spec (tmds_cnt slot) 0) as [E | E]; [exact Hc |].
  assert (Hin : In (tmds_cnt slot) vals) by (destruct Hs; [contradiction | assumption]).
  destruct prev as [before |].
  - apply IH. destruct (cnt slot >? cnt before); assumption.
  - apply IH. exact Hin.
Qed.

Lemma last_In (A : Type) (l : list A) (d : A) : l <> [] -> In (last l d) l.
Proof.
  induction l as [| x l IH]; [congruence |]. intros _.
  destruct l as [| y l]; [left; reflexivity |].
  right. apply IH. discriminate.
Qed.

(** X17.  [rk628_hdmirx_get_tmdsclk_cnt] returns one of the 21 counter
    values it has read (masked to 16 bits), whatever the reads deliver; in
    particular the result is below 65536. *)
Theorem get_tmdsclk_cnt_is_a_read (ckm : nat -> Z) :
  (exists i, (i < 21)%nat /\
             rk628_hdmirx_get_tmdsclk_cnt ckm = Z.land (u32 (ckm i)) 65535) /\
  0 <= rk628_hdmirx_get_tmdsclk_cnt ckm < 65536.
Proof.
  assert (Hin : In (rk628_hdmirx_get_tmdsclk_cnt ckm) (tmdsclk_reads ckm)).
  { rewrite get_tmdsclk_cnt_reads. apply tmdsclk_pick_from.
    - apply tmdsclk_fold_from; [apply incl_refl |].
      apply Forall_forall. intros slot Hs. apply repeat_spec in Hs.
      subst slot. left. reflexivity.
    - apply last_In. discriminate. }
  apply tmdsclk_reads_nth in Hin. destruct Hin as (i & Hi & E).
  split; [exists i; split; assumption |].
  rewrite E. change 65535 with (Z.ones 16). rewrite Z.land_ones by lia.
  change (2 ^ 16) with 65536. apply Z.mod_pos_bound. lia.
Qed.

Lemma tmdsclk_fold_same (v : Z) (n : nat) :
  forall (c0 : Z) (rest : list hdmirx_tmdsclk_cnt),
    exists c1,
      fold_left tmdsclk_tally (repeat v (S n))
        ({| tmds_cnt := 0; cnt := c0 |} :: rest)
      = {| tmds_cnt := v; cnt := c1 |} :: rest.
Proof.
  assert (Hstep : forall t c rest, t = 0 \/ t = v ->
            tmdsclk_tally ({| tmds_cnt := t; cnt := c |} :: rest) v
            = {| tmds_cnt := v; cnt := u8 (c + 1) |} :: rest).
  { intros t c rest Ht. cbn [tmdsclk_tally tmds_cnt cnt].
    destruct Ht as [-> | ->].
    - rewrite Z.eqb_refl, orb_true_r. reflexivity.
    - rewrite Z.eqb_refl. reflexivity. }
  assert (Hrun : forall k t c rest, t = 0 \/ t = v ->
            exists c1, fold_left tmdsclk_tally (repeat v (S k))
                         ({| tmds_cnt := t; cnt := c |} :: rest)
                       = {| tmds_cnt := v; cnt := c1 |} :: rest).
  { induction k as [| k IH]; intros t c rest Ht.
    - exists (u8 (c + 1)). cbn [repeat fold_left]. apply Hstep, Ht.
    - cbn [repeat fold_left]. rewrite (Hstep t c rest Ht).
      apply (IH v (u8 (c + 1)) rest). right. reflexivity. }
  intros c0 rest. apply Hrun. left. reflexivity.
Qed.

(** X18.  If all 21 reads deliver the same 16 bit counter value,
    [rk628_hdmirx_get_tmdsclk_cnt] returns that value. *)
Theorem get_tmdsclk_cnt_stable (ckm : nat -> Z) (v : Z) :
  (forall i, (i < 21)%nat -> Z.land (u32 (ckm i)) 65535 = v) ->
  rk628_hdmirx_get_tmdsclk_cnt ckm = v.
Proof.
  intros Hall. rewrite get_tmdsclk_cnt_reads.
  assert (Hreads : tmdsclk_reads ckm = repeat v 21).
  { unfold tmdsclk_reads, HDMIRX_GET_TMDSCLK_TIME.
    assert (H : forall n i, (i + n <= 21)%nat ->
              map (fun k => Z.land (u32 (ckm k)) 65535) (List.seq i n) = repeat v n).
    { induction n as [| n IH]; intros i Hi; [reflexivity |].
      cbn [List.seq map repeat]. rewrite Hall by lia. rewrite IH by lia. reflexivity. }
    apply (H 21%nat 0%nat). lia. }
  rewrite Hreads. unfold HDMIRX_GET_TMDSCLK_TIME.
  change (repeat {| tmds_cnt := 0; cnt := 0 |} 21)
    with ({| tmds_cnt := 0; cnt := 0 |} :: repeat {| tmds_cnt := 0; cnt := 0 |} 20).
  destruct (tmdsclk_fold_same v 20 0 (repeat {| tmds_cnt := 0; cnt := 0 |} 20))
    as (c1 & ->).
  change (last (repeat v 21) 0) with v.
  cbn [tmdsclk_pick tmds_cnt repeat].
  destruct (Z.eqb_spec v 0); reflexivity.
Qed.

Lemma occurrences_cons (v x : Z) (l : list Z) :
  occurrences v (x :: l) = (if x =? v then 1 else 0) + occurrences v l.
Proof.
  unfold occurrences. cbn [count_occ].
  destruct (Z.eq_dec x v) as [E | E].
  - rewrite (proj2 (Z.eqb_eq x v) E). lia.
  - rewrite (proj2 (Z.eqb_neq x v) E). lia.
Qed.

Lemma occurrences_nonneg (v : Z) (l : list Z) : 0 <= occurrences v l.
Proof. unfold occurrences. lia. Qed.

Lemma u8_small (z : Z) : 0 <= z < 256 -> u8 z = z.
Proof. intros H. unfold u8. apply Z.mod_small. exact H. Qed.

Section TwoValues.

Variables a b : Z.
Hypothesis Ha : a <> 0.
Hypothesis Hb : b <> 0.
Hypothesis Hab : a <> b.

Lemma two_value_tally_a (ca cb : Z) (k : nat) :
  0 <= ca < 255 ->
  tmdsclk_tally (two_value_table a b ca cb k) a
  = two_value_table a b (ca + 1) cb k.
Proof.
  intros Hc. unfold two_value_table. cbn [tmdsclk_tally tmds_cnt cnt].
  rewrite Z.eqb_refl. cbn [orb]. rewrite u8_small by lia. reflexivity.
Qed.

Lemma two_value_tally_b (ca cb : Z) (k : nat) :
  0 <= cb < 255 ->
  tmdsclk_tally (two_value_table a b ca cb k) b
  = two_value_table a b ca (cb + 1) k.
Proof.
  intros Hc. unfold two_value_table. cbn [tmdsclk_tally tmds_cnt cnt].
  rewrite (proj2 (Z.eqb_neq b a)) by congruence.
  rewrite (proj2 (Z.eqb_neq a 0) Ha). cbn [orb].
  rewrite (proj2 (Z.eqb_neq (cb + 1) 0)) by lia.
  destruct (Z.eqb_spec cb 0) as [E | E].
  - subst cb. cbn [repeat tmdsclk_tally tmds_cnt cnt].
    rewrite Z.eqb_refl, orb_true_r. reflexivity.
  - cbn [tmdsclk_tally tmds_cnt cnt]. rewrite Z.eqb_refl. cbn [orb].
    rewrite u8_small by lia. reflexivity.
Qed.

Lemma two_value_fold (k : nat) (reads : list Z) :
  forall ca cb,
    0 <= ca -> 0 <= cb -> ca + cb + Z.of_nat (length reads) <= 255 ->
    Forall (fun x => x = a \/ x = b) reads ->
    fold_left tmdsclk_tally reads (two_value_table a b ca cb k)
    = two_value_table a b (ca + occurrences a reads)
        (cb + occurrences b reads) k.
Proof.
  induction reads as [| x reads IH]; intros ca cb Hca Hcb Hlen Hall.
  - cbn [fold_left]. unfold occurrences. cbn [count_occ].
    rewrite !Z.add_0_r. reflexivity.
  - cbn [length] in Hlen.
    assert (Hx : x = a \/ x = b) by (inversion Hall; assumption).
    assert (Hrest : Forall (fun x => x = a \/ x = b) reads)
      by (inversion Hall; assumption).
    cbn [fold_left]. rewrite !occurrences_cons.
    destruct Hx as [-> | ->].
    + rewrite two_value_tally_a by lia. rewrite IH by (try assumption; lia).
      rewrite Z.eqb_refl, (proj2 (Z.eqb_neq a b) Hab).
      f_equal; lia.
    + rewrite two_value_tally_b by lia. rewrite IH by (try assumption; lia).
      rewrite Z.eqb_refl, (proj2 (Z.eqb_neq b a)) by congruence.
      f_equal; lia.
Qed.

(** X19.  If the 21 reads deliver only two counter values, both not 0,
    [rk628_hdmirx_get_tmdsclk_cnt] returns the one that was read more
    often (21 being odd, one of them was). *)
Theorem get_tmdsclk_cnt_majority (ckm : nat -> Z) :
  Z.land (u32 (ckm 0%nat)) 65535 = a ->
  (forall i, (i < 21)%nat ->
             Z.land (u32 (ckm i)) 65535 = a \/ Z.land (u32 (ckm i)) 65535 = b) ->
  rk628_hdmirx_get_tmdsclk_cnt ckm
  = (if occurrences b (tmdsclk_reads ckm) >? occurrences a (tmdsclk_reads ckm)
     then b else a) /\
  occurrences a (tmdsclk_reads ckm) + occurrences b (tmdsclk_reads ckm) = 21.
Proof.
  intros H0 Hall. rewrite get_tmdsclk_cnt_reads.
  assert (Hreads : Forall (fun x => x = a \/ x = b) (tmdsclk_reads ckm)).
  { apply Forall_forall. intros x Hx. apply tmdsclk_reads_nth in Hx.
    destruct Hx as (i & Hi & ->). apply Hall. exact Hi. }
  assert (Hlen : length (tmdsclk_reads ckm) = 21%nat)
    by (unfold tmdsclk_reads; rewrite length_map, length_seq; reflexivity).
  remember (tmdsclk_reads ckm) as reads eqn:Er.
  assert (Hhd : exists rest, reads = a :: rest).
  { subst reads. unfold tmdsclk_reads, HDMIRX_GET_TMDSCLK_TIME.
    cbn [List.seq map]. rewrite H0. eexists. reflexivity. }
  destruct Hhd as (rest & ->). clear Er.
  cbn [length] in Hlen.
  assert (Hrest : Forall (fun x => x = a \/ x = b) rest)
    by (inversion Hreads; assumption).
  clear H0 Hall Hreads.
  assert (Hsum : forall l, Forall (fun x => x = a \/ x = b) l ->
            occurrences a l + occurrences b l = Z.of_nat (length l)).
  { induction 1 as [| x l Hx Hl IHl]; [reflexivity |].
    rewrite !occurrences_cons. cbn [length].
    destruct Hx as [-> | ->].
    - rewrite Z.eqb_refl, (proj2 (Z.eqb_neq a b) Hab). lia.
    - rewrite Z.eqb_refl, (proj2 (Z.eqb_neq b a)) by congruence. lia. }
  pose proof (Hsum rest Hrest) as Hs.
  pose proof (occurrences_nonneg a rest) as Hoa.
  pose proof (occurrences_nonneg b rest) as Hob.
  rewrite !occurrences_cons.
  rewrite Z.eqb_refl, (proj2 (Z.eqb_neq a b) Hab).
  split; [| lia].
  rewrite last_cons_default. cbn [fold_left].
  change (tmdsclk_tally
            (repeat {| tmds_cnt := 0; cnt := 0 |} HDMIRX_GET_TMDSCLK_TIME) a)
    with (tmdsclk_tally
            ({| tmds_cnt := 0; cnt := 0 |}
             :: repeat {| tmds_cnt := 0; cnt := 0 |} 20) a).
  cbn [tmdsclk_tally tmds_cnt cnt]. rewrite Z.eqb_refl, orb_true_r.
  change ({| tmds_cnt := a; cnt := u8 (0 + 1) |}
          :: repeat {| tmds_cnt := 0; cnt := 0 |} 20)
    with (two_value_table a b 1 0 19).
  rewrite two_value_fold by (try assumption; lia).
  unfold two_value_table. cbn [tmdsclk_pick tmds_cnt cnt].
  rewrite (proj2 (Z.eqb_neq a 0) Ha).
  destruct (Z.eqb_spec (0 + occurrences b rest) 0) as [E | E].
  - cbn [repeat tmdsclk_pick tmds_cnt]. cbn [Z.eqb].
    replace (0 + occurrences b rest >? 1 + occurrences a rest) with false;
      [reflexivity |].
    symmetry. rewrite Z.gtb_ltb. apply Z.ltb_ge. lia.
  - cbn [repeat tmdsclk_pick tmds_cnt cnt].
    rewrite (proj2 (Z.eqb_neq b 0) Hb). cbn [Z.eqb]. reflexivity.
Qed.

End TwoValues.

(** ** AVI readiness *)

Lemma avi_pb_reads_app (l1 l2 : list avi_effect) :
  avi_pb_reads (l1 ++ l2) = (avi_pb_reads l1 + avi_pb_reads l2)%nat.
Proof. unfold avi_pb_reads. rewrite filter_app, length_app. reflexivity. Qed.

Lemma avi_pb_reads_hdcp (l : list avi_effect) :
  avi_pb_reads (read_HDMI_RX_HDCP_CTRL :: l) = avi_pb_reads l.
Proof. reflexivity. Qed.

Lemma hdcp_ctrl_writes_hdcp (l : list avi_effect) :
  hdcp_ctrl_writes (read_HDMI_RX_HDCP_CTRL :: l) = hdcp_ctrl_writes l.
Proof. reflexivity. Qed.

Lemma hdcp_ctrl_writes_avi (l : list avi_effect) :
  hdcp_ctrl_writes (read_HDMI_RX_PDEC_AVI_PB :: l) = hdcp_ctrl_writes l.
Proof. reflexivity. Qed.

Lemma hdcp_ctrl_writes_msleep (l : list avi_effect) :
  hdcp_ctrl_writes (msleep_30 :: l) = hdcp_ctrl_writes l.
Proof. reflexivity. Qed.

Lemma avi_pb_reads_msleep (l : list avi_effect) :
  avi_pb_reads (msleep_30 :: l) = avi_pb_reads l.
Proof. reflexivity. Qed.

Lemma avi_pb_reads_avi (l : list avi_effect) :
  avi_pb_reads (read_HDMI_RX_PDEC_AVI_PB :: l) = S (avi_pb_reads l).
Proof. reflexivity. Qed.

Lemma hdcp_ctrl_writes_app (l1 l2 : list avi_effect) :
  hdcp_ctrl_writes (l1 ++ l2) = hdcp_ctrl_writes l1 ++ hdcp_ctrl_writes l2.
Proof.
  induction l1 as [| e l1 IH]; [reflexivity |].
  destruct e; cbn [app hdcp_ctrl_writes]; rewrite IH; reflexivity.
Qed.

Lemma avmute_forced (x : Z) : (Z.land (Z.lor x 1024) 1024 =? 0) = false.
Proof.
  apply Z.eqb_neq. intros E.
  assert (Hb : Z.testbit (Z.land (Z.lor x 1024) 1024) 10 = false)
    by (rewrite E; apply Z.bits_0).
  rewrite Z.land_spec, Z.lor_spec in Hb.
  change (Z.testbit 1024 10) with true in Hb.
  rewrite orb_true_r in Hb. discriminate.
Qed.

Lemma avi_ready_max_cnt_cases (mask hdcp0 : Z) :
  avi_ready_max_cnt mask hdcp0 = 2 \/ avi_ready_max_cnt mask hdcp0 = 5.
Proof.
  unfold avi_ready_max_cnt.
  destruct (negb (Z.land (u32 hdcp0) mask =? 0)); [right | left]; reflexivity.
Qed.

(** The first iteration: nothing is forced, and [avi_pb] being 0 the poll
    only records what it read. *)
Lemma avi_ready_poll_first (avi hdcp : nat -> Z) (rdy : bool) (max_cnt : Z)
    (n : nat) (hv : Z) :
  avi_ready_poll avi hdcp rdy max_cnt 0 (S n) 0 0 hv
  = (fst (avi_ready_poll avi hdcp rdy max_cnt 1 n (u32 (avi 0%nat)) 0 hv),
     read_HDMI_RX_PDEC_AVI_PB :: msleep_30 ::
     snd (avi_ready_poll avi hdcp rdy max_cnt 1 n (u32 (avi 0%nat)) 0 hv)).
Proof.
  cbn [avi_ready_poll]. cbn [Z.of_nat Z.ltb Z.compare andb app].
  destruct (Z.eqb_spec (u32 (avi 0%nat)) 0) as [E | E]; cbn [negb andb].
  - reflexivity.
  - reflexivity.
Qed.

Section AviPoll.

Variables avi hdcp : nat -> Z.
Variable avi_rcv_rdy : bool.
Variable max_cnt : Z.
Hypothesis Hmax : 0 < max_cnt <= 255.

(** A loop that ends below [max_cnt] has run all its iterations, and has
    forced the HDCP avmute once, in iteration 31 or in its first iteration
    after that, unless the bit was set. *)
Lemma avi_ready_poll_exhausted (n : nat) :
  forall i avi_pb cnt hv,
    0 <= cnt < max_cnt ->
    fst (avi_ready_poll avi hdcp avi_rcv_rdy max_cnt i n avi_pb cnt hv) < max_cnt ->
    avi_pb_reads
      (snd (avi_ready_poll avi hdcp avi_rcv_rdy max_cnt i n avi_pb cnt hv)) = n /\
    hdcp_ctrl_writes
      (snd (avi_ready_poll avi hdcp avi_rcv_rdy max_cnt i n avi_pb cnt hv))
    = (if (Z.land hv 1024 =? 0) && (Nat.max i 31 <? i + n)%nat
       then [Z.lor (u32 (hdcp (Nat.max i 31))) 1024] else []).
Proof.
  induction n as [| n IH]; intros i avi_pb cnt hv Hc Hlt.
  - cbn [avi_ready_poll snd]. split; [reflexivity |].
    replace (Nat.max i 31 <? i + 0)%nat with false
      by (symmetry; apply Nat.ltb_ge; lia).
    rewrite andb_false_r. reflexivity.
  - cbn [avi_ready_poll] in *.
    set (force := (30 <? Z.of_nat i) && (Z.land hv 1024 =? 0)) in *.
    set (hv' := if force then Z.lor (u32 (hdcp i)) 1024 else hv) in *.
    set (now := read_HDMI_RX_PDEC_AVI_PB ::
                (if force
                 then [read_HDMI_RX_HDCP_CTRL; write_HDMI_RX_HDCP_CTRL hv']
                 else [])) in *.
    assert (Hnow : avi_pb_reads now = 1%nat /\
                   hdcp_ctrl_writes now = (if force then [hv'] else []))
      by (subst now; destruct force; split; reflexivity).
    destruct Hnow as [Hnr Hnw].
    assert (Hw : forall rest,
               rest = (if (Z.land hv' 1024 =? 0) && (Nat.max (S i) 31 <? S i + n)%nat
                       then [Z.lor (u32 (hdcp (Nat.max (S i) 31))) 1024] else []) ->
               (if force then [hv'] else []) ++ rest
               = (if (Z.land hv 1024 =? 0) && (Nat.max i 31 <? i + S n)%nat
                  then [Z.lor (u32 (hdcp (Nat.max i 31))) 1024] else [])).
    { intros rest ->. subst hv' force.
      destruct (Z.ltb_spec 30 (Z.of_nat i)) as [Hi | Hi];
        destruct (Z.land hv 1024 =? 0) eqn:Hbit; cbn [andb app].
      - rewrite avmute_forced. cbn [andb app].
        replace (Nat.max i 31) with i by lia.
        replace (i <? i + S n)%nat with true
          by (symmetry; apply Nat.ltb_lt; lia).
        reflexivity.
      - rewrite Hbit. reflexivity.
      - rewrite Hbit. cbn [andb].
        replace (Nat.max (S i) 31) with 31%nat by lia.
        replace (Nat.max i 31) with 31%nat by lia.
        replace (S i + n)%nat with (i + S n)%nat by lia. reflexivity.
      - rewrite Hbit. reflexivity. }
    destruct (negb (u32 (avi i) =? 0) && (u32 (avi i) =? avi_pb) && avi_rcv_rdy).
    + destruct (Z.geb_spec (u8 (cnt + 1)) max_cnt) as [Hge | Hlt'].
      * cbn [fst] in Hlt. lia.
      * cbn [fst snd] in *.
        assert (Hc' : 0 <= u8 (cnt + 1) < max_cnt)
          by (split; [apply Z.mod_pos_bound; lia | exact Hlt']).
        destruct (IH (S i) avi_pb (u8 (cnt + 1)) hv' Hc' Hlt) as [Hr Hwr].
        rewrite avi_pb_reads_app, hdcp_ctrl_writes_app, Hnr, Hnw.
        rewrite avi_pb_reads_msleep.
        cbn [hdcp_ctrl_writes]. rewrite Hr. split; [reflexivity |].
        apply Hw. exact Hwr.
    + cbn [fst snd] in *.
      assert (Hc' : 0 <= 0 < max_cnt) by lia.
      destruct (IH (S i) (u32 (avi i)) 0 hv' Hc' Hlt) as [Hr Hwr].
      rewrite avi_pb_reads_app, hdcp_ctrl_writes_app, Hnr, Hnw.
      rewrite avi_pb_reads_msleep.
      cbn [hdcp_ctrl_writes]. rewrite Hr. split; [reflexivity |].
      apply Hw. exact Hwr.
Qed.

(** While the caller has no AVI infoframe, or the register reads 0, the
    loop never counts. *)
Lemma avi_ready_poll_never (n : nat) :
  avi_rcv_rdy = false \/ (forall i, u32 (avi i) = 0) ->
  forall i avi_pb hv,
    fst (avi_ready_poll avi hdcp avi_rcv_rdy max_cnt i n avi_pb 0 hv) = 0.
Proof.
  intros Hno. induction n as [| n IH]; intros i avi_pb hv; [reflexivity |].
  cbn [avi_ready_poll].
  replace (negb (u32 (avi i) =? 0) && (u32 (avi i) =? avi_pb) && avi_rcv_rdy)
    with false.
  - cbn [fst]. apply IH.
  - destruct Hno as [-> | Hz].
    + rewrite andb_false_r. reflexivity.
    + rewrite Hz. reflexivity.
Qed.

(** A loop that ends at [max_cnt] has seen that many reads in a row that
    repeat the read before them. *)
Lemma avi_ready_poll_run (n : nat) :
  forall i avi_pb cnt hv,
    0 <= cnt < max_cnt ->
    (cnt = 0 /\ avi_pb = 0 /\ i = 0%nat) \/
    (exists j, (j + Z.to_nat cnt + 1 = i)%nat /\
               forall k, (k <= Z.to_nat cnt)%nat -> u32 (avi (j + k)) = avi_pb) ->
    max_cnt <= fst (avi_ready_poll avi hdcp avi_rcv_rdy max_cnt i n avi_pb cnt hv) ->
    avi_rcv_rdy = true /\
    exists j, (j + Z.to_nat max_cnt < i + n)%nat /\
              u32 (avi j) <> 0 /\
              forall k, (k <= Z.to_nat max_cnt)%nat -> u32 (avi (j + k)) = u32 (avi j).
Proof.
  induction n as [| n IH]; intros i avi_pb cnt hv Hc Hinv Hge.
  - cbn [avi_ready_poll fst] in Hge. lia.
  - cbn [avi_ready_poll] in Hge.
    set (hv' := if (30 <? Z.of_nat i) && (Z.land hv 1024 =? 0)
                then Z.lor (u32 (hdcp i)) 1024 else hv) in *.
    destruct (Z.eqb_spec (u32 (avi i)) 0) as [Hz | Hnz]; cbn [negb andb] in Hge.
    + cbn [fst] in Hge.
      destruct (IH (S i) (u32 (avi i)) 0 hv') as (Hrdy & j & Hj & Hjnz & Hrun);
        [lia | | exact Hge |].
      * right. exists i. split; [cbn; lia |].
        intros k Hk. cbn in Hk. replace k with 0%nat by lia.
        rewrite Nat.add_0_r. reflexivity.
      * split; [exact Hrdy |]. exists j. split; [lia |]. split; assumption.
    + destruct (Z.eqb_spec (u32 (avi i)) avi_pb) as [Heq | Hne];
        cbn [andb] in Hge.
      * destruct avi_rcv_rdy eqn:Hrdy.
        -- destruct Hinv as [(_ & H0 & _) | (j & Hj & Hrun)]; [congruence |].
           assert (Hu : u8 (cnt + 1) = cnt + 1)
             by (apply Z.mod_small; lia).
           rewrite Hu in Hge.
           assert (Hrun' : forall k, (k <= Z.to_nat (cnt + 1))%nat ->
                                     u32 (avi (j + k)) = avi_pb).
           { intros k Hk.
             destruct (Nat.eq_dec k (Z.to_nat (cnt + 1))) as [-> | Hk'].
             - replace (j + Z.to_nat (cnt + 1))%nat with i by lia. exact Heq.
             - apply Hrun. lia. }
           destruct (Z.geb_spec (cnt + 1) max_cnt) as [Hbreak | Hcont].
           ++ split; [reflexivity |]. exists j.
              assert (Hm : max_cnt = cnt + 1) by lia.
              split; [lia |].
              assert (Hj0 : u32 (avi j) = avi_pb)
                by (rewrite <- (Nat.add_0_r j); apply Hrun; lia).
              split; [congruence |].
              intros k Hk. rewrite Hj0. apply Hrun'. lia.
           ++ cbn [fst] in Hge.
              destruct (IH (S i) avi_pb (cnt + 1) hv')
                as (_ & j' & Hj' & Hjnz & Hrj); [lia | | exact Hge |].
              ** right. exists j. split; [lia | exact Hrun'].
              ** split; [reflexivity |]. exists j'.
                 split; [lia |]. split; assumption.
        -- cbn [fst] in Hge.
           destruct (IH (S i) (u32 (avi i)) 0 hv') as (Hr & _);
             [lia | | exact Hge | discriminate Hr].
           right. exists i. split; [cbn; lia |].
           intros k Hk. cbn in Hk. replace k with 0%nat by lia.
           rewrite Nat.add_0_r. reflexivity.
      * cbn [fst] in Hge.
        destruct (IH (S i) (u32 (avi i)) 0 hv') as (Hrdy & j & Hj & Hjnz & Hrun);
          [lia | | exact Hge |].
        -- right. exists i. split; [cbn; lia |].
           intros k Hk. cbn in Hk. replace k with 0%nat by lia.
           rewrite Nat.add_0_r. reflexivity.
        -- split; [exact Hrdy |]. exists j. split; [lia |]. split; assumption.
Qed.

(** Reads that repeat a value other than 0 end the loop as soon as
    [max_cnt] is reached. *)
Lemma avi_ready_poll_stable (v : Z) (m : nat) :
  avi_rcv_rdy = true -> v <> 0 ->
  forall i n cnt hv,
    0 <= cnt -> cnt + Z.of_nat m = max_cnt -> (0 < m <= n)%nat ->
    (i + m <= 31)%nat ->
    (forall k, (k < m)%nat -> u32 (avi (i + k)) = v) ->
    let r := avi_ready_poll avi hdcp avi_rcv_rdy max_cnt i n v cnt hv in
    fst r = max_cnt /\ avi_pb_reads (snd r) = m /\ hdcp_ctrl_writes (snd r) = [].
Proof.
  intros Hrdy Hv. induction m as [| m IH]; intros i n cnt hv Hc Hm Hn Hi Hrun r.
  - lia.
  - destruct n as [| n]; [lia |]. subst r. cbn [avi_ready_poll].
    replace (30 <? Z.of_nat i) with false by (symmetry; apply Z.ltb_ge; lia).
    cbn [andb].
    assert (H0 : u32 (avi i) = v)
      by (rewrite <- (Nat.add_0_r i); apply Hrun; lia).
    rewrite H0, Z.eqb_refl, (proj2 (Z.eqb_neq v 0) Hv), Hrdy. cbn [negb andb].
    assert (Hu : u8 (cnt + 1) = cnt + 1) by (apply Z.mod_small; lia).
    rewrite Hu.
    destruct (Z.geb_spec (cnt + 1) max_cnt) as [Hbreak | Hcont].
    + cbn [fst snd]. assert (m = 0%nat) by lia. subst m.
      split; [lia |]. split; reflexivity.
    + cbn [fst snd].
      destruct (IH (S i) n (cnt + 1) hv) as (Hf & Hr & Hw);
        [lia | lia | lia | lia | |].
      * intros k Hk. replace (S i + k)%nat with (i + S k)%nat by lia.
        apply Hrun. lia.
      * rewrite Hrdy in Hf, Hr, Hw. rewrite Hf. split; [reflexivity |].
        rewrite avi_pb_reads_app, hdcp_ctrl_writes_app.
        rewrite avi_pb_reads_msleep.
        cbn [hdcp_ctrl_writes app]. rewrite Hr, Hw.
        split; reflexivity.
Qed.

End AviPoll.

Section AviReadyFacts.

Variable h : rk628_hdmirx_h.
Variable HDCP_ENABLE_MASK : Z.
Variable chip_version : Z.
Hypothesis Hversion : chip_version < RK628F_VERSION h.

(** X20.  Before the RK628F, [rk628_is_avi_ready] without a received AVI
    infoframe, or with [HDMI_RX_PDEC_AVI_PB] reading 0, answers 0 after
    all 100 polls, and has forced the HDCP avmute exactly once, with what
    [HDMI_RX_HDCP_CTRL] read in iteration 31. *)
Theorem is_avi_ready_never (hdcp0 : Z) (avi hdcp : nat -> Z) (avi_rcv_rdy : bool) :
  avi_rcv_rdy = false \/ (forall i, u32 (avi i) = 0) ->
  let r := rk628_is_avi_ready h HDCP_ENABLE_MASK chip_version hdcp0 avi hdcp
             avi_rcv_rdy in
  fst r = 0 /\
  avi_pb_reads (snd r) = 100%nat /\
  hdcp_ctrl_writes (snd r) = [Z.lor (u32 (hdcp 31%nat)) 1024].
Proof.
  intros Hno r. subst r. unfold rk628_is_avi_ready.
  replace (chip_version >=? RK628F_VERSION h) with false
    by (symmetry; rewrite Z.geb_leb; apply Z.leb_gt; exact Hversion).
  remember (avi_ready_max_cnt HDCP_ENABLE_MASK hdcp0) as max_cnt eqn:Em.
  assert (Hmax : 0 < max_cnt <= 255)
    by (destruct (avi_ready_max_cnt_cases HDCP_ENABLE_MASK hdcp0) as [E | E];
        rewrite Em, E; lia).
  remember 100%nat as n eqn:En.
  pose proof (avi_ready_poll_never avi hdcp avi_rcv_rdy max_cnt n Hno
                0%nat 0 0) as H0.
  destruct (avi_ready_poll_exhausted avi hdcp avi_rcv_rdy max_cnt Hmax n
              0%nat 0 0 0) as [Hr Hw]; [lia | rewrite H0; lia |].
  remember (avi_ready_poll avi hdcp avi_rcv_rdy max_cnt 0 n 0 0 0) as p eqn:Ep.
  cbn [fst snd]. rewrite H0.
  replace (0 <? max_cnt) with true by (symmetry; apply Z.ltb_lt; lia).
  split; [reflexivity |].
  split.
  - rewrite avi_pb_reads_hdcp. exact Hr.
  - rewrite hdcp_ctrl_writes_hdcp, Hw, En. reflexivity.
Qed.

(** X21.  Before the RK628F, [rk628_is_avi_ready] answers 1 only with a
    received AVI infoframe and after [max_cnt + 1] polls in a row, within
    the 100, that read the same value other than 0 (3 polls, 6 with HDCP
    enabled); and whenever it answers 0 it has polled 100 times and forced
    the HDCP avmute once. *)
Theorem is_avi_ready_sound (hdcp0 : Z) (avi hdcp : nat -> Z) (avi_rcv_rdy : bool) :
  let r := rk628_is_avi_ready h HDCP_ENABLE_MASK chip_version hdcp0 avi hdcp
             avi_rcv_rdy in
  let max_cnt := Z.to_nat (avi_ready_max_cnt HDCP_ENABLE_MASK hdcp0) in
  (fst r = 0 \/ fst r = 1) /\
  (fst r = 1 ->
   avi_rcv_rdy = true /\
   exists j, (j + max_cnt < 100)%nat /\ u32 (avi j) <> 0 /\
             forall k, (k <= max_cnt)%nat -> u32 (avi (j + k)%nat) = u32 (avi j)) /\
  (fst r = 0 ->
   avi_pb_reads (snd r) = 100%nat /\
   hdcp_ctrl_writes (snd r) = [Z.lor (u32 (hdcp 31%nat)) 1024]).
Proof.
  intros r max_cnt. subst r max_cnt. unfold rk628_is_avi_ready.
  replace (chip_version >=? RK628F_VERSION h) with false
    by (symmetry; rewrite Z.geb_leb; apply Z.leb_gt; exact Hversion).
  remember (avi_ready_max_cnt HDCP_ENABLE_MASK hdcp0) as max_cnt eqn:Em.
  assert (Hmax : 0 < max_cnt <= 255)
    by (destruct (avi_ready_max_cnt_cases HDCP_ENABLE_MASK hdcp0) as [E | E];
        rewrite Em, E; lia).
  remember 100%nat as n eqn:En.
  pose proof (avi_ready_poll_exhausted avi hdcp avi_rcv_rdy max_cnt Hmax n
                0%nat 0 0 0) as Hex.
  pose proof (avi_ready_poll_run avi hdcp avi_rcv_rdy max_cnt Hmax n
                0%nat 0 0 0) as Hrun.
  remember (avi_ready_poll avi hdcp avi_rcv_rdy max_cnt 0 n 0 0 0) as p eqn:Ep.
  cbn [fst snd].
  destruct (Z.ltb_spec (fst p) max_cnt) as [Hlt | Hge].
  - split; [left; reflexivity |]. split; [discriminate |]. intros _.
    destruct Hex as [Hr Hw]; [lia | exact Hlt |].
    split.
    + rewrite avi_pb_reads_hdcp. exact Hr.
    + rewrite hdcp_ctrl_writes_hdcp, Hw, En. reflexivity.
  - split; [right; reflexivity |]. split; [| discriminate]. intros _.
    rewrite Nat.add_0_l in Hrun.
    apply Hrun; [lia | | exact Hge].
    left. repeat split; reflexivity.
Qed.

(** X22.  Before the RK628F, with a received AVI infoframe and
    [HDMI_RX_PDEC_AVI_PB] reading one value other than 0 from the first
    poll on, [rk628_is_avi_ready] answers 1 after [max_cnt + 1] polls
    (3, or 6 with HDCP enabled) and writes nothing. *)
Theorem is_avi_ready_stable (hdcp0 : Z) (avi hdcp : nat -> Z) (v : Z) :
  v <> 0 ->
  (forall i, (i <= 5)%nat -> u32 (avi i) = v) ->
  let r := rk628_is_avi_ready h HDCP_ENABLE_MASK chip_version hdcp0 avi hdcp true in
  fst r = 1 /\
  Z.of_nat (avi_pb_reads (snd r)) = avi_ready_max_cnt HDCP_ENABLE_MASK hdcp0 + 1 /\
  hdcp_ctrl_writes (snd r) = [].
Proof.
  intros Hv Hrun r. subst r. unfold rk628_is_avi_ready.
  replace (chip_version >=? RK628F_VERSION h) with false
    by (symmetry; rewrite Z.geb_leb; apply Z.leb_gt; exact Hversion).
  remember (avi_ready_max_cnt HDCP_ENABLE_MASK hdcp0) as max_cnt eqn:Em.
  assert (Hcases : max_cnt = 2 \/ max_cnt = 5)
    by (rewrite Em; apply avi_ready_max_cnt_cases).
  assert (Hmax : 0 < max_cnt <= 255) by lia.
  (* the first poll only records the value *)
  change 100%nat with (S 99). remember 99%nat as n eqn:En.
  rewrite avi_ready_poll_first.
  rewrite (Hrun 0%nat) by lia.
  destruct (avi_ready_poll_stable avi hdcp true max_cnt Hmax v
              (Z.to_nat max_cnt) eq_refl Hv 1%nat n 0 0)
    as (Hf & Hr & Hw); [lia | lia | lia | lia | |].
  - intros k Hk. apply Hrun. lia.
  - remember (avi_ready_poll avi hdcp true max_cnt 1 n v 0 0) as p eqn:Ep.
    cbn [fst snd].
    rewrite Hf, Z.ltb_irrefl. split; [reflexivity |].
    rewrite hdcp_ctrl_writes_hdcp, hdcp_ctrl_writes_avi, hdcp_ctrl_writes_msleep.
    rewrite avi_pb_reads_hdcp, avi_pb_reads_avi, avi_pb_reads_msleep.
    rewrite Hr, Hw. split; [lia | reflexivity].
Qed.

End AviReadyFacts.

(** ** Video timing *)

Lemma land_65535_range (x : Z) : 0 <= Z.land x 65535 <= 65535.
Proof.
  change 65535 with (Z.ones 16) at 1 2. rewrite Z.land_ones by lia.
  pose proof (Z.mod_pos_bound x (2 ^ 16) eq_refl) as H.
  change (2 ^ 16) with 65536 in *. lia.
Qed.

Lemma u32_id (z : Z) : 0 <= z < 4294967296 -> u32 z = z.
Proof. intros H. apply Z.mod_small. exact H. Qed.

(** The line count of the sync pulse cannot make the [u32] sums of the
    vertical check wrap when the measuring window has 2 cycles or more. *)
Lemma vsync_lines_range (cnt_num x htotal : Z) :
  2 <= cnt_num -> 0 < htotal <= 65535 ->
  0 <= u32 (u32 x / cnt_num + htotal / 2) / htotal <= 2147516415.
Proof.
  intros Hn Hh.
  pose proof (u32_range x) as Hx. unfold U32_MOD in Hx.
  assert (H1 : 0 <= u32 x / cnt_num <= 2147483647).
  { split; [apply Z.div_pos; lia |].
    assert (u32 x / cnt_num <= u32 x / 2)
      by (apply Z.div_le_compat_l; lia).
    assert (u32 x / 2 <= 4294967295 / 2)
      by (apply Z.div_le_mono; lia).
    change (4294967295 / 2) with 2147483647 in *. lia. }
  assert (H2 : 0 <= htotal / 2 <= 32767).
  { split; [apply Z.div_pos; lia |].
    assert (htotal / 2 <= 65535 / 2) by (apply Z.div_le_mono; lia).
    change (65535 / 2) with 32767 in *. lia. }
  rewrite u32_id by lia.
  split; [apply Z.div_pos; lia |].
  assert ((u32 x / cnt_num + htotal / 2) / htotal
          <= (u32 x / cnt_num + htotal / 2) / 1)
    by (apply Z.div_le_compat_l; lia).
  rewrite Z.div_1_r in *. lia.
Qed.

(** X23.  With a measuring window of 2 cycles or more, timings that
    [rk628_hdmirx_read_timing] returns with 0 are progressive and add up:
    width, front porch, sync and back porch give the reported line length
    (twice that for YUV420), height and the vertical blanking give the
    reported line count, which is at most 3000; the syncs and the
    vertical back porch are not empty, and a height of 1080 does not come
    with more than 1500 lines. *)
Theorem read_timing_adds_up (h : rk628_hdmirx_h) (v : rk628_video_h)
    (chip_version : Z) (rd : timing_reads) :
  2 <= HDMIRX_MODETCLK_CNT_NUM v ->
  let r := rk628_hdmirx_read_timing h v chip_version rd in
  let bt := snd (fst r) in
  let lines :=
    if fst (rk628_hdmirx_get_format v (rd_PDEC_AVI_PB rd)) =? BUS_FMT_YUV420 v
    then 2 else 1 in
  fst (fst r) = None ->
  interlaced bt = V4L2_DV_PROGRESSIVE /\ il_vsync bt = 0 /\
  width bt + hfrontporch bt + hsync bt + hbackporch bt
  = lines * reported_htotal rd /\
  height bt + vfrontporch bt + vsync bt + vbackporch bt = reported_vtotal rd /\
  0 < reported_htotal rd /\ 0 < reported_vtotal rd <= 3000 /\
  1 <= vsync bt /\ 1 <= vbackporch bt /\
  ~ (height bt = 1080 /\ 1500 < reported_vtotal rd).
Proof.
  intros Hnum r bt lines. subst r bt lines.
  unfold rk628_hdmirx_read_timing, reported_htotal, reported_vtotal.
  pose proof (land_65535_range (u32 (rd_MD_HACT_PX rd))) as Hhact.
  pose proof (land_65535_range (u32 (rd_MD_VAL rd))) as Hvact.
  pose proof (land_65535_range (Z.shiftr (u32 (rd_MD_HT1 rd)) 16)) as Hht.
  pose proof (land_65535_range (u32 (rd_MD_VTL rd))) as Hvt.
  pose proof (land_65535_range (u32 (rd_MD_HT1_again rd))) as Hhofs.
  pose proof (land_65535_range (u32 (rd_MD_VOL rd))) as Hvol.
  remember (Z.land (u32 (rd_MD_HACT_PX rd)) 65535) as hact eqn:E1.
  remember (Z.land (u32 (rd_MD_VAL rd)) 65535) as vact eqn:E2.
  remember (Z.land (Z.shiftr (u32 (rd_MD_HT1 rd)) 16) 65535) as htotal eqn:E3.
  remember (Z.land (u32 (rd_MD_VTL rd)) 65535) as vtotal eqn:E4.
  remember (Z.land (u32 (rd_MD_HT1_again rd)) 65535) as hofs eqn:E5.
  remember (Z.land (u32 (rd_MD_VOL rd)) 65535) as vol eqn:E6.
  remember (rk628_hdmirx_get_tmdsclk_cnt (rd_HDMI_CKM_RESULT rd)) as cnt eqn:E7.
  remember (HDMIRX_MODETCLK_CNT_NUM v) as num eqn:E8.
  clear E1 E2 E3 E4 E5 E6 E7.
  cbv zeta.
  destruct (Z.eqb_spec htotal 0) as [Hh0 | Hh0]; [discriminate |].
  destruct (Z.eqb_spec vtotal 0) as [Hv0 | Hv0]; [discriminate |].
  destruct (negb (Z.land (u32 (rd_MD_STS rd)) (ILACE_STS v) =? 0));
    [discriminate |].
  cbn [orb is_interlaced].
  destruct (Z.gtb_spec vtotal 3000) as [Hv3 | Hv3]; [discriminate |].
  remember (u32 (u32 (cnt * Z.land (u32 (rd_MD_HT0 rd)) 65535) + num / 2) / num)
    as hs eqn:Ehs.
  assert (Hhs : 0 <= hs).
  { rewrite Ehs. apply Z.div_pos; [| lia].
    apply u32_range. }
  pose proof (vsync_lines_range num
                (u32 (cnt * Z.land (u32 (rd_MD_VSC rd)) 65535) + num / 2)
                htotal Hnum ltac:(lia)) as Hvs.
  remember (u32 (u32 (u32 (cnt * Z.land (u32 (rd_MD_VSC rd)) 65535) + num / 2)
                 / num + htotal / 2) / htotal) as vs eqn:Evs.
  clear Ehs Evs.
  rewrite (u32_id (vol + 1)) by lia.
  rewrite (u32_id (hact + hofs)) by lia.
  rewrite (u32_id (vact + vs)) by lia.
  rewrite (u32_id (vact + vs + (vol + 1))) by lia.
  destruct (Z.ltb_spec hofs hs) as [Hc1 | Hc1]; [discriminate |].
  destruct (Z.ltb_spec htotal (hact + hofs)) as [Hc2 | Hc2]; [discriminate |].
  destruct (Z.ltb_spec vtotal (vact + vs + (vol + 1))) as [Hc3 | Hc3];
    [discriminate |].
  destruct (Z.eqb_spec vs 0) as [Hc4 | Hc4]; [discriminate |].
  cbn [orb].
  rewrite (u32_id (hofs - hs)) by lia.
  rewrite (u32_id (htotal - hact)) by lia.
  rewrite (u32_id (htotal - hact - hofs)) by lia.
  rewrite (u32_id (vtotal - vact)) by lia.
  rewrite (u32_id (vtotal - vact - vs)) by lia.
  rewrite (u32_id (vtotal - vact - vs - (vol + 1))) by lia.
  destruct (Z.eqb_spec vact 1080) as [Hc5 | Hc5];
    destruct (Z.gtb_spec vtotal 1500) as [Hc6 | Hc6]; cbn [andb];
    [discriminate | | |].
  all: intros _; cbn [fst snd interlaced il_vsync width height hfrontporch
                       hsync hbackporch vfrontporch vsync vbackporch].
  all: destruct (fst (rk628_hdmirx_get_format v (rd_PDEC_AVI_PB rd))
                 =? BUS_FMT_YUV420 v).
  all: rewrite ?(u32_id (hact * 2)), ?(u32_id ((htotal - hact - hofs) * 2)),
         ?(u32_id ((hofs - hs) * 2)), ?(u32_id (hs * 2)) by lia.
  all: repeat (split; [first [reflexivity | lia] |]); lia.
Qed.

(** ** CEC *)

Lemma lor_below_pow2 (a b n : Z) :
  0 <= n -> 0 <= a < 2 ^ n -> 0 <= b < 2 ^ n -> 0 <= Z.lor a b < 2 ^ n.
Proof.
  intros Hn Ha Hb.
  assert (H0 : 0 <= Z.lor a b) by (apply Z.lor_nonneg; lia).
  split; [exact H0 |].
  destruct (Z.eq_dec (Z.lor a b) 0) as [E | E].
  - rewrite E. apply Z.pow_pos_nonneg; lia.
  - apply Z.log2_lt_pow2; [lia |].
    rewrite Z.log2_lor by lia.
    destruct (Z.eq_dec a 0) as [Ea | Ea]; destruct (Z.eq_dec b 0) as [Eb | Eb].
    + subst. cbn in E. congruence.
    + subst a. change (Z.log2 0) with 0.
      assert (Z.log2 b < n) by (apply Z.log2_lt_pow2; lia).
      pose proof (Z.log2_nonneg b). lia.
    + subst b. change (Z.log2 0) with 0.
      assert (Z.log2 a < n) by (apply Z.log2_lt_pow2; lia).
      pose proof (Z.log2_nonneg a). lia.
    + assert (Z.log2 a < n) by (apply Z.log2_lt_pow2; lia).
      assert (Z.log2 b < n) by (apply Z.log2_lt_pow2; lia).
      lia.
Qed.

Lemma BIT_range (nr : Z) : 0 <= nr <= 15 -> 0 <= BIT nr < 2 ^ 16.
Proof.
  intros H. unfold BIT. rewrite Z.shiftl_1_l.
  split; [apply Z.pow_nonneg; lia |].
  apply Z.pow_lt_mono_r; lia.
Qed.

Lemma BIT_testbit (nr b : Z) : 0 <= nr -> Z.testbit (BIT nr) b = (nr =? b).
Proof.
  intros H. unfold BIT. rewrite Z.shiftl_1_l. apply Z.pow2_bits_eqb. exact H.
Qed.

Section CecAddresses.

Variable c : rk628_cec_h.

(** One valid logical address more: the address set stays in 16 bits and
    gains the bit of the address and bit 15. *)
Lemma cec_log_addr_valid (cec : rk628_hdmirx_cec) (la : Z) :
  0 <= addresses cec < 2 ^ 16 ->
  0 <= la <= 15 -> la <> CEC_LOG_ADDR_INVALID c ->
  addresses (fst (rk628_hdmirx_cec_log_addr c cec la))
  = Z.lor (addresses cec) (Z.lor (BIT la) (BIT 15)) /\
  0 <= addresses (fst (rk628_hdmirx_cec_log_addr c cec la)) < 2 ^ 16.
Proof.
  intros Ha Hla Hv. unfold rk628_hdmirx_cec_log_addr.
  rewrite (proj2 (Z.eqb_neq la (CEC_LOG_ADDR_INVALID c)) Hv).
  cbn [fst set_addresses addresses].
  assert (Hr : 0 <= Z.lor (addresses cec) (Z.lor (BIT la) (BIT 15)) < 2 ^ 16).
  { apply lor_below_pow2; [lia | exact Ha |].
    apply lor_below_pow2; [lia | |]; apply BIT_range; lia. }
  rewrite u32_id by (change (2 ^ 16) with 65536 in Hr; lia).
  split; [reflexivity | exact Hr].
Qed.

Lemma cec_log_addr_fold (las : list Z) :
  forall cec,
    0 <= addresses cec < 2 ^ 16 ->
    Forall (fun la => 0 <= la <= 15 /\ la <> CEC_LOG_ADDR_INVALID c) las ->
    forall b,
      Z.testbit
        (addresses
           (fold_left (fun s la => fst (rk628_hdmirx_cec_log_addr c s la)) las cec))
        b
      = Z.testbit (addresses cec) b || has_addr las b
        || ((b =? 15) && match las with [] => false | _ :: _ => true end).
Proof.
  induction las as [| la las IH]; intros cec Ha Hall b.
  - cbn [fold_left has_addr existsb]. rewrite andb_false_r, !orb_false_r.
    reflexivity.
  - assert (Hla : 0 <= la <= 15 /\ la <> CEC_LOG_ADDR_INVALID c)
      by (inversion Hall; assumption).
    assert (Hrest : Forall (fun la => 0 <= la <= 15 /\
                                      la <> CEC_LOG_ADDR_INVALID c) las)
      by (inversion Hall; assumption).
    destruct Hla as [Hla Hv].
    destruct (cec_log_addr_valid cec la Ha Hla Hv) as [Eq Hr].
    cbn [fold_left]. rewrite (IH _ Hr Hrest b), Eq.
    rewrite !Z.lor_spec, !BIT_testbit by lia.
    unfold has_addr. cbn [existsb]. rewrite andb_true_r.
    rewrite (Z.eqb_sym la b), (Z.eqb_sym 15 b).
    destruct (Z.testbit (addresses cec) b), (b =? la), (b =? 15),
      (existsb (Z.eqb b) las), las; reflexivity.
Qed.

(** X24.  After [rk628_hdmirx_cec_enable] with [enable] set, whatever the
    address set was, and [rk628_hdmirx_cec_log_addr] for valid logical
    addresses (0 to 15), [cec->addresses] has exactly the bits of these
    addresses and, if there is one, bit 15. *)
Theorem cec_log_addr_accumulates (cec : rk628_hdmirx_cec) (las : list Z) :
  Forall (fun la => 0 <= la <= 15 /\ la <> CEC_LOG_ADDR_INVALID c) las ->
  let enabled := fst (rk628_hdmirx_cec_enable c cec true) in
  let cec' :=
    fold_left (fun s la => fst (rk628_hdmirx_cec_log_addr c s la)) las enabled in
  forall b,
    Z.testbit (addresses cec') b
    = has_addr las b
      || ((b =? 15) && match las with [] => false | _ :: _ => true end).
Proof.
  intros Hall enabled cec' b. subst cec'.
  assert (He : addresses enabled = 0).
  { subst enabled. unfold rk628_hdmirx_cec_enable, rk628_hdmirx_cec_log_addr.
    cbn [negb fst]. rewrite Z.eqb_refl. reflexivity. }
  rewrite cec_log_addr_fold; [| rewrite He; cbn; lia | exact Hall].
  rewrite He, Z.bits_0. reflexivity.
Qed.

(** X25.  [rk628_hdmirx_cec_log_addr], for the invalid address or a
    logical address from 0 to 15, keeps [cec->addresses] within 16 bits
    and leaves it in the two address registers, low byte and high byte;
    [rk628_hdmirx_cec_state_reconfiguration] later starts with the same
    two writes. *)
Theorem cec_log_addr_registers (cec : rk628_hdmirx_cec) (la ien_rd : Z) :
  0 <= addresses cec < 65536 ->
  la = CEC_LOG_ADDR_INVALID c \/ 0 <= la <= 15 ->
  let r := rk628_hdmirx_cec_log_addr c cec la in
  0 <= addresses (fst r) < 65536 /\
  (exists lo hi,
      snd r = [cec_i2c_write HDMI_RX_CEC_ADDR_L lo;
               cec_i2c_write HDMI_RX_CEC_ADDR_H hi] /\
      0 <= lo < 256 /\ 0 <= hi < 256 /\ lo + 256 * hi = addresses (fst r)) /\
  firstn 2 (rk628_hdmirx_cec_state_reconfiguration c ien_rd (fst r)) = snd r.
Proof.
  intros Ha Hla r.
  assert (Hr : 0 <= addresses (fst r) < 65536).
  { subst r. destruct (Z.eq_dec la (CEC_LOG_ADDR_INVALID c)) as [E | E].
    - unfold rk628_hdmirx_cec_log_addr.
      rewrite (proj2 (Z.eqb_eq la (CEC_LOG_ADDR_INVALID c)) E).
      cbn [fst set_addresses addresses]. lia.
    - destruct Hla as [Hla | Hla]; [congruence |].
      apply (cec_log_addr_valid cec la); assumption. }
  split; [exact Hr |].
  assert (Hs : snd r = cec_write_addresses (fst r)) by reflexivity.
  split; [| rewrite Hs; reflexivity].
  exists (Z.land (addresses (fst r)) 255),
         (Z.land (Z.shiftr (addresses (fst r)) 8) 255).
  split; [exact Hs |].
  remember (addresses (fst r)) as a eqn:Ea. clear Ea Hs.
  change 255 with (Z.ones 8). rewrite !Z.land_ones by lia.
  rewrite Z.shiftr_div_pow2 by lia. change (2 ^ 8) with 256.
  pose proof (Z.mod_pos_bound a 256 eq_refl) as H1.
  pose proof (Z.div_mod a 256 ltac:(lia)) as H2.
  assert (H3 : 0 <= a / 256 < 256)
    by (split; [apply Z.div_pos; lia | apply Z.div_lt_upper_bound; lia]).
  rewrite (Z.mod_small (a / 256)) by lia.
  repeat split; lia.
Qed.

End CecAddresses.

Lemma tx_data_offsets_app (l1 l2 : list cec_effect) :
  tx_data_offsets (l1 ++ l2) = tx_data_offsets l1 ++ tx_data_offsets l2.
Proof.
  induction l1 as [| e l1 IH]; [reflexivity |].
  destruct e as [r val | | |]; cbn [app tx_data_offsets];
    [destruct r |..]; rewrite IH; reflexivity.
Qed.

Lemma tx_data_offsets_loop (msg : list Z) (n i : nat) :
  tx_data_offsets
    (map (fun i => cec_i2c_write (HDMI_RX_CEC_TX_DATA_0_plus (Z.of_nat i * 4))
                     (nth i msg 0)) (List.seq i n))
  = map (fun i => Z.of_nat i * 4) (List.seq i n).
Proof.
  revert i. induction n as [| n IH]; intros i; [reflexivity |].
  cbn [List.seq map tx_data_offsets]. rewrite IH. reflexivity.
Qed.

(** X26.  [rk628_hdmirx_cec_transmit] loads at most 16 bytes whatever
    length the message claims: for a length of 0 it touches no register;
    otherwise it writes the first [min(len, 16)] data registers, at the
    offsets 0, 4, ..., then that number to [HDMI_RX_CEC_TX_CNT], and ends
    with a write of [HDMI_RX_CEC_CTRL] that has the send bit. *)
Theorem cec_transmit_bounds (c : rk628_cec_h) (signal_free_time len : Z)
    (msg : list Z) :
  let log := rk628_hdmirx_cec_transmit c signal_free_time len msg in
  let n := Z.min (u32 len) 16 in
  (u32 len = 0 -> log = []) /\
  (u32 len <> 0 ->
   tx_data_offsets log = map (fun i => Z.of_nat i * 4) (List.seq 0 (Z.to_nat n)) /\
   (length log = Z.to_nat n + 2)%nat /\
   exists ctrl,
     skipn (Z.to_nat n) log
     = [cec_i2c_write HDMI_RX_CEC_TX_CNT n;
        cec_i2c_write HDMI_RX_CEC_CTRL (Z.lor ctrl (CEC_SEND c))]).
Proof.
  intros log n. subst log n. unfold rk628_hdmirx_cec_transmit.
  pose proof (u32_range len) as Hlen. unfold U32_MOD in Hlen.
  remember (u32 len) as l eqn:El. clear El.
  assert (Hm : (if l >? 16 then 16 else s32 l) = Z.min l 16).
  { destruct (Z.gtb_spec l 16) as [H | H]; [lia |].
    rewrite s32_exact by (unfold int_range, INT_MIN, INT_MAX; lia). lia. }
  rewrite Hm. remember (Z.min l 16) as n eqn:En.
  split.
  - intros H0. replace (n <=? 0) with true by (symmetry; apply Z.leb_le; lia).
    reflexivity.
  - intros H0. replace (n <=? 0) with false by (symmetry; apply Z.leb_gt; lia).
    split; [| split].
    + rewrite tx_data_offsets_app, tx_data_offsets_loop.
      cbn [tx_data_offsets]. apply app_nil_r.
    + rewrite length_app, length_map, length_seq. reflexivity.
    + eexists. rewrite skipn_app, skipn_all2
        by (rewrite length_map, length_seq; lia).
      rewrite length_map, length_seq, Nat.sub_diag. reflexivity.
Qed.

Lemma store_length (a : list Z) (i : nat) (v : Z) :
  length (store a i v) = length a.
Proof.
  revert i. induction a as [| x a IH]; intros [| i]; cbn [store length];
    try reflexivity.
  rewrite IH. reflexivity.
Qed.

Lemma store_nth (a : list Z) (i k : nat) (v : Z) :
  nth k (store a i v) 0
  = if (k =? i)%nat && (k <? length a)%nat then v else nth k a 0.
Proof.
  revert i k. induction a as [| x a IH]; intros i k.
  - cbn [length]. replace (k <? 0)%nat with false by (symmetry; apply Nat.ltb_ge; lia).
    rewrite andb_false_r. destruct i; reflexivity.
  - destruct i as [| i]; destruct k as [| k]; cbn [store nth length];
      try reflexivity.
    rewrite IH. reflexivity.
Qed.

Lemma cec_rx_copy_length (rx_data : nat -> Z) (n : nat) :
  forall i msg, length (cec_rx_copy rx_data i n msg) = length msg.
Proof.
  induction n as [| n IH]; intros i msg; [reflexivity |].
  cbn [cec_rx_copy]. rewrite IH. apply store_length.
Qed.

Lemma cec_rx_copy_nth (rx_data : nat -> Z) (n : nat) :
  forall i msg k,
    nth k (cec_rx_copy rx_data i n msg) 0
    = if (i <=? k)%nat && (k <? i + n)%nat && (k <? length msg)%nat
      then Z.land (u32 (rx_data k)) 255 else nth k msg 0.
Proof.
  induction n as [| n IH]; intros i msg k.
  - cbn [cec_rx_copy].
    replace ((i <=? k)%nat && (k <? i + 0)%nat) with false; [reflexivity |].
    symmetry. apply andb_false_iff.
    destruct (Nat.leb_spec i k); [right; apply Nat.ltb_ge; lia | left; reflexivity].
  - cbn [cec_rx_copy]. rewrite IH, store_length, store_nth.
    destruct (Nat.leb_spec (S i) k), (Nat.leb_spec i k), (Nat.ltb_spec k (S i + n)),
      (Nat.ltb_spec k (i + S n)), (Nat.ltb_spec k (length msg)),
      (Nat.eqb_spec k i); cbn [andb]; try reflexivity; try lia.
    subst k. reflexivity.
Qed.

Section CecIrq.

Variable c : rk628_cec_h.
Variables stat_rd rx_cnt_rd : Z.
Variable rx_data : nat -> Z.

(** X27.  Entered with both done flags down, as it leaves them,
    [rk628_hdmirx_cec_irq] reports at most one transmit result, the error
    before success before the missing acknowledge, and a received message
    exactly for an end of message; it acknowledges what it read from the
    status register first, and leaves the address set alone. *)
Theorem cec_irq_reports (cec : rk628_hdmirx_cec) :
  tx_done cec = false -> rx_done cec = false ->
  let r := rk628_hdmirx_cec_irq c stat_rd rx_cnt_rd rx_data cec in
  let stat := u32 stat_rd in
  tx_done (fst r) = false /\ rx_done (fst r) = false /\
  addresses (fst r) = addresses cec /\
  tx_reports (snd r)
  = (if negb (Z.land stat (ERROR_INIT c) =? 0) then [CEC_TX_STATUS_ERROR c]
     else if negb (Z.land stat (DONE c) =? 0) then [CEC_TX_STATUS_OK c]
     else if negb (Z.land stat (NACK c) =? 0) then [CEC_TX_STATUS_NACK c]
     else []) /\
  length (rx_reports (snd r))
  = (if negb (Z.land stat (EOM c) =? 0) then 1%nat else 0%nat) /\
  (stat <> 0 -> hd_error (snd r) = Some (cec_i2c_write HDMI_RX_AUD_CEC_ICLR stat)) /\
  (stat = 0 -> r = (cec, [])).
Proof.
  intros Htx Hrx r stat. subst r stat. unfold rk628_hdmirx_cec_irq.
  destruct (Z.eqb_spec (u32 stat_rd) 0) as [E0 | E0].
  - rewrite E0. cbn [fst snd Z.land Z.eqb negb tx_reports rx_reports length].
    repeat split; try assumption; try reflexivity. congruence.
  - cbv zeta.
    destruct (negb (Z.land (u32 stat_rd) (ERROR_INIT c) =? 0));
      [| destruct (negb (Z.land (u32 stat_rd) (DONE c) =? 0));
         [| destruct (negb (Z.land (u32 stat_rd) (NACK c) =? 0))]];
      destruct (negb (Z.land (u32 stat_rd) (EOM c) =? 0));
      cbn [set_tx set_rx_done set_rx_msg tx_done rx_done tx_status addresses
           rx_msg_msg rx_msg_len fst snd app];
      rewrite ?Htx, ?Hrx;
      cbn [set_tx set_rx_done set_rx_msg tx_done rx_done tx_status addresses
           rx_msg_msg rx_msg_len fst snd app tx_reports rx_reports length
           hd_error];
      rewrite ?Htx, ?Hrx;
      repeat split; try reflexivity; try assumption; congruence.
Qed.

(** X28.  The message that [rk628_hdmirx_cec_irq] passes on has the
    length that [HDMI_RX_CEC_RX_CNT] read in its low 5 bits, cut to the
    size of the buffer; its bytes up to that length are the low bytes of
    the data registers, and behind them the buffer, which keeps its size,
    has what it had. *)
Theorem cec_irq_received (cec : rk628_hdmirx_cec) :
  length (rx_msg_msg cec) = CEC_MAX_MSG_SIZE c -> rx_done cec = false ->
  let r := rk628_hdmirx_cec_irq c stat_rd rx_cnt_rd rx_data cec in
  length (rx_msg_msg (fst r)) = CEC_MAX_MSG_SIZE c /\
  forall msg len,
    In (msg, len) (rx_reports (snd r)) ->
    msg = rx_msg_msg (fst r) /\ len = rx_msg_len (fst r) /\
    len = Z.min (Z.land (u32 rx_cnt_rd) 31) (Z.of_nat (CEC_MAX_MSG_SIZE c)) /\
    (forall i, (i < Z.to_nat len)%nat ->
               nth i msg 0 = Z.land (u32 (rx_data i)) 255) /\
    (forall i, (Z.to_nat len <= i)%nat -> nth i msg 0 = nth i (rx_msg_msg cec) 0).
Proof.
  intros Hsize Hrx r. subst r. unfold rk628_hdmirx_cec_irq.
  destruct (Z.eqb_spec (u32 stat_rd) 0) as [E0 | E0].
  - cbn [fst snd rx_reports]. split; [exact Hsize |]. intros msg len [].
  - cbv zeta.
    assert (H31 : 0 <= Z.land (u32 rx_cnt_rd) 31).
    { apply Z.land_nonneg. right. lia. }
    remember (Z.land (u32 rx_cnt_rd) 31) as cnt eqn:Ecnt. clear Ecnt.
    assert (Hlen : (if cnt >? Z.of_nat (CEC_MAX_MSG_SIZE c)
                    then Z.of_nat (CEC_MAX_MSG_SIZE c) else cnt)
                   = Z.min cnt (Z.of_nat (CEC_MAX_MSG_SIZE c)))
      by (destruct (Z.gtb_spec cnt (Z.of_nat (CEC_MAX_MSG_SIZE c))); lia).
    rewrite Hlen.
    remember (Z.min cnt (Z.of_nat (CEC_MAX_MSG_SIZE c))) as len eqn:El.
    assert (Hl : (Z.to_nat len <= CEC_MAX_MSG_SIZE c)%nat) by lia.
    destruct (negb (Z.land (u32 stat_rd) (ERROR_INIT c) =? 0));
      [| destruct (negb (Z.land (u32 stat_rd) (DONE c) =? 0));
         [| destruct (negb (Z.land (u32 stat_rd) (NACK c) =? 0))]];
      destruct (negb (Z.land (u32 stat_rd) (EOM c) =? 0));
      cbn [set_tx set_rx_done set_rx_msg tx_done rx_done tx_status addresses
           rx_msg_msg rx_msg_len fst snd app];
      rewrite ?Hrx;
      try destruct (tx_done cec);
      cbn [set_tx set_rx_done set_rx_msg tx_done rx_done tx_status addresses
           rx_msg_msg rx_msg_len fst snd app rx_reports];
      rewrite ?Hrx;
      cbn [set_tx set_rx_done set_rx_msg tx_done rx_done tx_status addresses
           rx_msg_msg rx_msg_len fst snd app rx_reports];
      (split; [rewrite ?cec_rx_copy_length; exact Hsize |]);
      intros msg len' Hin; cbn [In] in Hin;
      try (destruct Hin as [Hin | []]; injection Hin as <- <-;
           split; [reflexivity |]; split; [reflexivity |];
           split; [reflexivity |]; split;
           intros i Hi; rewrite cec_rx_copy_nth, Hsize; cbn [Nat.leb Nat.add];
           [ replace (i <? Z.to_nat len)%nat with true
               by (symmetry; apply Nat.ltb_lt; lia);
             replace (i <? CEC_MAX_MSG_SIZE c)%nat with true
               by (symmetry; apply Nat.ltb_lt; lia);
             reflexivity
           | replace (i <? Z.to_nat len)%nat with false
               by (symmetry; apply Nat.ltb_ge; lia);
             reflexivity ]);
      try contradiction.
Qed.

End CecIrq.

(** ** Stable timings *)

Lemma loop_left_eq (c c' : Z) (r r' : option errno) (b b' : v4l2_bt_timings)
    (l l' : list timing_effect) :
  loop_left c r b l = loop_left c' r' b' l' -> c = c' /\ r = r' /\ b = b'.
Proof. intros H. injection H as -> -> -> _. repeat split. Qed.

Lemma loop_log_left (l : list timing_effect) (e : timings_loop_end)
    (c : Z) (r : option errno) (b : v4l2_bt_timings) (l' : list timing_effect) :
  loop_log l e = loop_left c r b l' ->
  exists l0, e = loop_left c r b l0.
Proof.
  destruct e as [e0 b0 l0 | c0 r0 b0 l0]; cbn [loop_log]; intros H;
    [discriminate |].
  apply loop_left_eq in H. destruct H as (-> & -> & ->).
  exists l0. reflexivity.
Qed.

Section StableTimings.

Variable h : rk628_hdmirx_h.
Variable v : rk628_video_h.
Variable chip_version : Z.
Variable inp : timing_inputs.

(** What the conclusion says of the iterations up to [i]: the last
    [c] of them found the cable powered and read timings, each of the same
    size as the iteration before it unless that one had width and height
    0. *)
Let counted (i c : nat) : Prop :=
  (forall k, (k < c)%nat ->
             power_detected inp (i - k) = true /\
             iteration_ret h v chip_version inp (i - k) = None) /\
  (forall k, (S k < c)%nat ->
             let cur := iteration_bt h v chip_version inp (i - k) in
             let prev := iteration_bt h v chip_version inp (i - k - 1) in
             (width prev = width cur /\ height prev = height cur) \/
             (width prev = 0 /\ height prev = 0)).

Lemma get_timings_loop_counts (n : nat) :
  forall i last_w last_h last_fmt cnt ret bt,
    0 <= cnt < 8 -> (Z.to_nat cnt <= i)%nat ->
    (i <> 0%nat ->
     last_w = width (iteration_bt h v chip_version inp (i - 1)) /\
     last_h = height (iteration_bt h v chip_version inp (i - 1))) ->
    (i <> 0%nat -> counted (i - 1) (Z.to_nat cnt)) ->
    forall cnt' ret' bt' log,
      get_timings_loop h v chip_version inp i n last_w last_h last_fmt cnt ret bt
      = loop_left cnt' ret' bt' log ->
      8 <= cnt' ->
      ret' = None /\
      exists j, (7 <= j < i + n)%nat /\
                bt' = iteration_bt h v chip_version inp j /\ counted j 8.
Proof.
  induction n as [| n IH];
    intros i last_w last_h last_fmt cnt ret bt Hc Hci Hlast Hcounted
           cnt' ret' bt' log Hrun Hge.
  - cbn [get_timings_loop] in Hrun. apply loop_left_eq in Hrun. lia.
  - cbn [get_timings_loop] in Hrun.
    destruct (power_detected inp i) eqn:Hpow; cbn [negb] in Hrun;
      [| discriminate].
    fold (iteration_ret h v chip_version inp i) in Hrun.
    fold (iteration_bt h v chip_version inp i) in Hrun.
    remember (iteration_ret h v chip_version inp i) as reti eqn:Eret.
    remember (iteration_bt h v chip_version inp i) as bti eqn:Ebt.
    destruct (is_error reti && (2 <? Z.of_nat i)); [discriminate |].
    set (fresh := (last_w =? 0) && (last_h =? 0)) in Hrun.
    set (lw := if fresh then width bti else last_w) in Hrun.
    set (lh := if fresh then height bti else last_h) in Hrun.
    set (same_size := negb (is_error reti) && (lw =? width bti)
                      && (lh =? height bti)) in Hrun.
    set (counts := same_size &&
                   ((if fresh
                     then fst (rk628_hdmirx_get_format v (format_rd inp i 0))
                     else last_fmt)
                    =? fst (rk628_hdmirx_get_format v (format_rd inp i 1))))
      in Hrun.
    (* what an iteration that counts has seen *)
    assert (Hstep : counts = true -> counted i (S (Z.to_nat cnt))).
    { intros Hcounts. subst counts same_size.
      apply andb_true_iff in Hcounts. destruct Hcounts as [Hsame _].
      apply andb_true_iff in Hsame. destruct Hsame as [Hsame Hh].
      apply andb_true_iff in Hsame. destruct Hsame as [Hok Hw].
      apply Z.eqb_eq in Hw, Hh.
      assert (Hreti : reti = None) by (destruct reti; [discriminate | reflexivity]).
      split.
      - intros k Hk. destruct k as [| k].
        + rewrite Nat.sub_0_r, <- Eret. split; assumption.
        + assert (i <> 0%nat) by lia.
          replace (i - S k)%nat with (i - 1 - k)%nat by lia.
          apply (proj1 (Hcounted ltac:(assumption))). lia.
      - intros k Hk. destruct k as [| k].
        + assert (Hi : i <> 0%nat) by lia.
          rewrite !Nat.sub_0_r, <- Ebt. cbv zeta.
          destruct (Hlast Hi) as [Hlw Hlh]. rewrite <- Hlw, <- Hlh.
          subst lw lh. destruct fresh eqn:Hfresh.
          * right. subst fresh. apply andb_true_iff in Hfresh.
            destruct Hfresh as [H1 H2]. apply Z.eqb_eq in H1, H2.
            split; assumption.
          * left. split; assumption.
        + assert (Hi : i <> 0%nat) by lia.
          replace (i - S k)%nat with (i - 1 - k)%nat by lia.
          apply (proj2 (Hcounted Hi)). lia. }
    destruct counts eqn:Hcounts.
    + assert (Hs : s32 (cnt + 1) = cnt + 1)
        by (apply s32_exact; unfold int_range, INT_MIN, INT_MAX; lia).
      rewrite Hs in Hrun.
      destruct (Z.geb_spec (cnt + 1) 8) as [Hbreak | Hcont].
      * apply loop_left_eq in Hrun. destruct Hrun as (<- & <- & <-).
        assert (Hcnt : Z.to_nat cnt = 7%nat) by lia.
        specialize (Hstep eq_refl). rewrite Hcnt in Hstep.
        split.
        -- subst counts same_size. apply andb_true_iff in Hcounts.
           destruct Hcounts as [Hsame _].
           apply andb_true_iff in Hsame. destruct Hsame as [Hsame _].
           apply andb_true_iff in Hsame. destruct Hsame as [Hok _].
           destruct reti; [discriminate | reflexivity].
        -- exists i. split; [lia |]. split; [exact Ebt | exact Hstep].
      * apply loop_log_left in Hrun. destruct Hrun as (l0 & Hrest).
        destruct (IH (S i) (width bti) (height bti)
                    (fst (rk628_hdmirx_get_format v (format_rd inp i 2)))
                    (cnt + 1) reti bti) with (5 := Hrest)
          as (Hret & j & Hj & Hbt & Hcj); try lia.
        -- intros _. replace (S i - 1)%nat with i by lia.
           rewrite <- Ebt. split; reflexivity.
        -- intros _. replace (S i - 1)%nat with i by lia.
           replace (Z.to_nat (cnt + 1)) with (S (Z.to_nat cnt)) by lia.
           apply Hstep. reflexivity.
        -- split; [exact Hret |]. exists j. split; [lia |]. split; assumption.
    + destruct (Z.geb_spec 0 8) as [Habs | _]; [lia |].
      apply loop_log_left in Hrun. destruct Hrun as (l0 & Hrest).
      destruct (IH (S i) (width bti) (height bti)
                  (fst (rk628_hdmirx_get_format v (format_rd inp i 2)))
                  0 reti bti) with (5 := Hrest)
        as (Hret & j & Hj & Hbt & Hcj); try lia.
      * intros _. replace (S i - 1)%nat with i by lia.
        rewrite <- Ebt. split; reflexivity.
      * intros _. split; intros k Hk; cbn in Hk; lia.
      * split; [exact Hret |]. exists j. split; [lia |]. split; assumption.
Qed.

(** X29.  [rk628_hdmirx_get_timings] returns 0 only with the timings of
    an iteration that ends a run of 8: in each of the 8 the cable was
    found powered and [rk628_hdmirx_try_to_get_timing] returned 0, and
    each has the width and height of the one before it, unless that one
    had width and height 0. *)
Theorem get_timings_stable (HDMIRX_GET_TIMING_CNT : nat)
    (DIV_ROUND_CLOSEST_ULL : Z -> Z -> Z) (timings : v4l2_bt_timings) :
  let r := rk628_hdmirx_get_timings h v chip_version HDMIRX_GET_TIMING_CNT
             DIV_ROUND_CLOSEST_ULL inp timings in
  fst (fst r) = None ->
  exists j, (7 <= j < HDMIRX_GET_TIMING_CNT)%nat /\
            snd (fst r) = iteration_bt h v chip_version inp j /\
            (forall k, (k < 8)%nat ->
                       power_detected inp (j - k) = true /\
                       iteration_ret h v chip_version inp (j - k) = None) /\
            (forall k, (k < 7)%nat ->
                       let cur := iteration_bt h v chip_version inp (j - k) in
                       let prev := iteration_bt h v chip_version inp (j - k - 1) in
                       (width prev = width cur /\ height prev = height cur) \/
                       (width prev = 0 /\ height prev = 0)).
Proof.
  intros r. subst r. unfold rk628_hdmirx_get_timings.
  destruct (get_timings_loop h v chip_version inp 0 HDMIRX_GET_TIMING_CNT 0 0
              (BUS_FMT_RGB v) 0 None timings) as [e b l | c1 r1 b1 l1] eqn:Hrun;
    cbn [fst snd]; [discriminate |].
  destruct (Z.ltb_spec c1 8) as [Hlt | Hge]; [discriminate |].
  intros _.
  destruct (get_timings_loop_counts HDMIRX_GET_TIMING_CNT 0%nat 0 0 (BUS_FMT_RGB v)
              0 None timings) with (5 := Hrun)
    as (_ & j & Hj & Hbt & Hc1 & Hc2); try lia; try congruence.
  exists j. split; [lia |]. split; [exact Hbt |].
  split; [exact Hc1 |].
  intros k Hk. apply Hc2. lia.
Qed.

End StableTimings.

(** ** The properties on sample inputs *)

Lemma reachable_init_state_witness :
  init_state
    (audio_state
       (fst (run_operation sample_header
               (op_tick (registers 3000 148500 5644 0 0 0))
               (fst (rk628_hdmirx_audio_setup sample_header
                       (zeroed_audioinfo 1)))))) = 256.
Proof.
  exact (reachable_init_state sample_header _
           (reachable_step sample_header _
              (op_tick (registers 3000 148500 5644 0 0 0))
              (reachable_setup sample_header (zeroed_audioinfo 1)))).
Defined.

Lemma work_audio_startup_witness :
  audio_enable (audio_state (zeroed_audioinfo 1)) = false /\
  let fs := _rk628_hdmirx_audio_fs (registers 3000 148500 5644 0 0 0) in
  let r := rk628_csi_delayed_work_audio sample_header
             (registers 3000 148500 5644 0 0 0) (zeroed_audioinfo 1) in
  if is_validfs (s32 fs) then
    fs_audio (audio_state (fst r)) = fs /\
    hdmirx_aud_clkrate (audio_state (fst r)) = fs * 128 /\
    clk_rates (snd r) = [fs * 128] /\
    audio_enable (audio_state (fst r)) = true /\
    fifo_ints_en (fst r) = true
  else
    r = (zeroed_audioinfo 1, [schedule_delayed_work delayed_work_audio 1000]).
Proof.
  split; [reflexivity |].
  exact (work_audio_startup sample_header (registers 3000 148500 5644 0 0 0)
           (zeroed_audioinfo 1) eq_refl).
Defined.

Lemma work_audio_v2_invalid_fs_witness :
  is_validfs (s32 (_rk628_hdmirx_audio_fs (registers 0 0 0 0 273 0))) = false /\
  let hw := registers 0 0 0 0 273 0 in
  let aif := tracking_audioinfo 2 256 in
  let r := rk628_csi_delayed_work_audio_v2 sample_header hw aif in
  fs_audio (audio_state (fst r)) = 44100 /\
  tick_schedules (snd r) = [1000] /\
  clk_rates (snd r) = [5644810].
Proof.
  split; [vm_compute; reflexivity |]. cbv zeta.
  pose proof (work_audio_v2_invalid_fs sample_header (registers 0 0 0 0 273 0)
                (tracking_audioinfo 2 256)) as H.
  destruct H as (Hfs & _ & Ht & Hc); [reflexivity | vm_compute; reflexivity |].
  split; [exact Hfs |]. split; [exact Ht |].
  exact (f_equal fst Hc).
Defined.

Lemma work_audio_v2_rate_change_witness :
  let hw := registers 3000 148500 5644 0 0 0 in
  let aif := tracking_audioinfo 2 256 in
  In (_rk628_hdmirx_audio_fs hw) supported_rates /\
  tick_schedules (snd (rk628_csi_delayed_work_audio_v2 sample_header hw aif))
  = [500].
Proof.
  cbv zeta.
  assert (Hin : In (_rk628_hdmirx_audio_fs (registers 3000 148500 5644 0 0 0))
                   supported_rates)
    by (rewrite sample_estimate; simpl; tauto).
  split; [exact Hin |].
  assert (Htr : fs_audio (audio_state (tracking_audioinfo 2 256)) = 0 \/
                In (fs_audio (audio_state (tracking_audioinfo 2 256)))
                   supported_rates)
    by (right; simpl; tauto).
  exact (proj1 (work_audio_v2_rate_change sample_header
                  (registers 3000 148500 5644 0 0 0) (tracking_audioinfo 2 256)
                  Htr Hin eq_refl)).
Defined.

Lemma rate_change_ctsn_ready_witness :
  let aif :=
    set_ctsn_flag (Z.lor (Z.shiftl 1 23) (Z.shiftl 1 22))
      (tracking_audioinfo 1 256) in
  let r := rk628_csi_delayed_work_audio_rate_change sample_header
             (registers 3000 148500 5644 0 0 0) aif in
  ctsn_flag (audio_state (fst r)) = 0 /\
  tick_schedules (snd r) = [1000] /\
  resync_dispatches (snd r) = 0%nat.
Proof.
  cbv zeta.
  pose proof (rate_change_ctsn_ready sample_header
                (registers 3000 148500 5644 0 0 0)
                (set_ctsn_flag (Z.lor (Z.shiftl 1 23) (Z.shiftl 1 22))
                   (tracking_audioinfo 1 256)) eq_refl eq_refl) as H.
  destruct H as (Hc & Ht & Hr & _).
  split; [exact Hc |]. split; [exact Ht | exact Hr].
Defined.

Lemma clk_inc_rate_round_trip_witness :
  let aif := tracking_audioinfo 1 256 in
  let up := rk628_hdmirx_audio_clk_inc_rate 10 aif in
  let up_down := rk628_hdmirx_audio_clk_inc_rate (-10) (fst up) in
  0 <= hdmirx_aud_clkrate (audio_state aif) < U32_MOD /\
  hdmirx_aud_clkrate (audio_state (fst up_down)) = 5644800.
Proof.
  cbv zeta.
  assert (Hr : 0 <= hdmirx_aud_clkrate (audio_state (tracking_audioinfo 1 256))
               < U32_MOD)
    by (simpl; unfold U32_MOD; lia).
  split; [exact Hr |].
  exact (proj1 (clk_inc_rate_round_trip (tracking_audioinfo 1 256) Hr)).
Defined.

Lemma isr_fifoints_two_calls_witness :
  let aif := zeroed_audioinfo 1 in
  let r1 := rk628_csi_isr_fifoints sample_header (Z.shiftl 1 3) aif in
  let r2 := rk628_csi_isr_fifoints sample_header (Z.shiftl 1 4) (fst r1) in
  fifo_flag (audio_state aif) = 0 /\
  resync_dispatches (snd r1) = 0%nat /\
  resync_dispatches (snd r2) = 1%nat.
Proof.
  cbv zeta. split; [reflexivity |].
  pose proof (isr_fifoints_two_calls sample_header sample_header_ok
                (zeroed_audioinfo 1) (Z.shiftl 1 3) (Z.shiftl 1 4) eq_refl) as H.
  destruct H as (H1 & H2 & _).
  split; [exact H1 | exact H2].
Defined.

Lemma rate_change_consumes_witness :
  let hw := registers 3000 148500 5644 0 0 0 in
  let aif :=
    set_ctsn_flag (Z.lor (Z.shiftl 1 23) (Z.shiftl 1 22))
      (tracking_audioinfo 1 256) in
  let r := rk628_csi_delayed_work_audio_rate_change sample_header hw aif in
  rk628_csi_delayed_work_audio_rate_change sample_header hw (fst r)
  = (fst r, []).
Proof.
  cbv zeta.
  exact (proj2 (proj2 (rate_change_consumes sample_header sample_header_ok
                         (registers 3000 148500 5644 0 0 0)
                         (registers 3000 148500 5644 0 0 0)
                         (set_ctsn_flag (Z.lor (Z.shiftl 1 23) (Z.shiftl 1 22))
                            (tracking_audioinfo 1 256))))).
Defined.

Lemma operation_fifo_flag_partial_witness :
  fifo_flag_partial sample_header (zeroed_audioinfo 1) /\
  fifo_flag_partial sample_header
    (fst (run_operation sample_header (op_isr_fifoints (Z.shiftl 1 3))
            (zeroed_audioinfo 1))).
Proof.
  assert (H0 : fifo_flag_partial sample_header (zeroed_audioinfo 1))
    by (exists false, false; split; reflexivity).
  split; [exact H0 |].
  exact (operation_fifo_flag_partial sample_header sample_header_ok
           (op_isr_fifoints (Z.shiftl 1 3)) (zeroed_audioinfo 1) H0).
Defined.

Lemma get_tmdsclk_cnt_stable_witness :
  rk628_hdmirx_get_tmdsclk_cnt (fun _ => 65536 + 3000) = 3000.
Proof.
  exact (get_tmdsclk_cnt_stable (fun _ => 65536 + 3000) 3000
           (fun i _ => eq_refl)).
Defined.

Lemma get_tmdsclk_cnt_majority_witness :
  let ckm := fun i : nat => if (i <? 8)%nat then 3000 else 3001 in
  rk628_hdmirx_get_tmdsclk_cnt ckm
  = (if occurrences 3001 (tmdsclk_reads ckm) >? occurrences 3000 (tmdsclk_reads ckm)
     then 3001 else 3000) /\
  occurrences 3000 (tmdsclk_reads ckm) + occurrences 3001 (tmdsclk_reads ckm) = 21.
Proof.
  cbv zeta.
  apply (get_tmdsclk_cnt_majority 3000 3001).
  - discriminate.
  - discriminate.
  - discriminate.
  - reflexivity.
  - intros i _. destruct (i <? 8)%nat; [left | right]; reflexivity.
Defined.

Lemma is_avi_ready_never_witness :
  let r := rk628_is_avi_ready sample_header 1 1 0 (fun _ => 5) (fun _ => 0) false in
  1 < RK628F_VERSION sample_header /\
  fst r = 0 /\
  avi_pb_reads (snd r) = 100%nat /\
  hdcp_ctrl_writes (snd r) = [Z.lor (u32 0) 1024].
Proof.
  cbv zeta. split; [reflexivity |].
  exact (is_avi_ready_never sample_header 1 1 eq_refl 0 (fun _ => 5) (fun _ => 0)
           false (or_introl eq_refl)).
Defined.

Lemma is_avi_ready_sound_witness :
  let r := rk628_is_avi_ready sample_header 1 1 0 (fun _ => 5) (fun _ => 0) true in
  fst r = 0 \/ fst r = 1.
Proof.
  cbv zeta.
  exact (proj1 (is_avi_ready_sound sample_header 1 1 eq_refl 0 (fun _ => 5)
                  (fun _ => 0) true)).
Defined.

Lemma is_avi_ready_stable_witness :
  let r := rk628_is_avi_ready sample_header 1 1 0 (fun _ => 5) (fun _ => 0) true in
  fst r = 1 /\
  Z.of_nat (avi_pb_reads (snd r)) = avi_ready_max_cnt 1 0 + 1 /\
  hdcp_ctrl_writes (snd r) = [].
Proof.
  cbv zeta.
  apply (is_avi_ready_stable sample_header 1 1 eq_refl 0 (fun _ => 5)
           (fun _ => 0) 5).
  - discriminate.
  - intros i _. reflexivity.
Defined.

Lemma read_timing_adds_up_witness :
  let r := rk628_hdmirx_read_timing sample_header sample_video_header 1
             sample_timing_reads in
  let bt := snd (fst r) in
  fst (fst r) = None /\
  width bt + hfrontporch bt + hsync bt + hbackporch bt
  = 1 * reported_htotal sample_timing_reads /\
  height bt + vfrontporch bt + vsync bt + vbackporch bt
  = reported_vtotal sample_timing_reads.
Proof.
  cbv zeta.
  assert (Hok : fst (fst (rk628_hdmirx_read_timing sample_header
                            sample_video_header 1 sample_timing_reads)) = None)
    by (vm_compute; reflexivity).
  split; [exact Hok |].
  pose proof (read_timing_adds_up sample_header sample_video_header 1
                sample_timing_reads) as H.
  destruct H as (_ & _ & Hh & Hv & _);
    [vm_compute; discriminate | exact Hok |].
  split; [exact Hh | exact Hv].
Defined.

Lemma cec_log_addr_accumulates_witness :
  let enabled := fst (rk628_hdmirx_cec_enable sample_cec_header zeroed_cec true) in
  let cec :=
    fold_left (fun s la => fst (rk628_hdmirx_cec_log_addr sample_cec_header s la))
      [0; 4] enabled in
  Z.testbit (addresses cec) 4 = true /\ Z.testbit (addresses cec) 3 = false.
Proof.
  cbv zeta.
  assert (Hall : Forall (fun la => 0 <= la <= 15 /\
                                   la <> CEC_LOG_ADDR_INVALID sample_cec_header)
                   [0; 4]).
  { repeat constructor; try lia; discriminate. }
  split.
  - exact (cec_log_addr_accumulates sample_cec_header zeroed_cec [0; 4] Hall 4).
  - exact (cec_log_addr_accumulates sample_cec_header zeroed_cec [0; 4] Hall 3).
Defined.

Lemma cec_log_addr_registers_witness :
  let r := rk628_hdmirx_cec_log_addr sample_cec_header zeroed_cec 4 in
  0 <= addresses (fst r) < 65536 /\
  firstn 2 (rk628_hdmirx_cec_state_reconfiguration sample_cec_header 0 (fst r))
  = snd r.
Proof.
  cbv zeta.
  pose proof (cec_log_addr_registers sample_cec_header zeroed_cec 4 0) as H.
  destruct H as (Hr & _ & Hw).
  - simpl. lia.
  - right. lia.
  - split; [exact Hr | exact Hw].
Defined.

Lemma cec_irq_reports_witness :
  let r := rk628_hdmirx_cec_irq sample_cec_header
             (Z.lor (Z.shiftl 1 20) (Z.shiftl 1 16)) 0 (fun _ => 0) zeroed_cec in
  tx_done (fst r) = false /\ rx_done (fst r) = false /\
  tx_reports (snd r) = [16].
Proof.
  cbv zeta.
  pose proof (cec_irq_reports sample_cec_header
                (Z.lor (Z.shiftl 1 20) (Z.shiftl 1 16)) 0 (fun _ => 0) zeroed_cec
                eq_refl eq_refl) as H.
  destruct H as (Ht & Hr & _ & Hs & _).
  split; [exact Ht |]. split; [exact Hr | exact Hs].
Defined.

Lemma cec_irq_received_witness :
  let r := rk628_hdmirx_cec_irq sample_cec_header (Z.shiftl 1 17) 18
             (fun i => 256 + Z.of_nat i) zeroed_cec in
  length (rx_msg_msg (fst r)) = 16%nat /\
  rx_msg_len (fst r) = 16 /\
  nth 3 (rx_msg_msg (fst r)) 0 = 3.
Proof.
  cbv zeta.
  pose proof (cec_irq_received sample_cec_header (Z.shiftl 1 17) 18
                (fun i => 256 + Z.of_nat i) zeroed_cec eq_refl eq_refl) as H.
  destruct H as (Hl & Hm).
  split; [exact Hl |].
  destruct (Hm (rx_msg_msg (fst (rk628_hdmirx_cec_irq sample_cec_header
                                   (Z.shiftl 1 17) 18
                                   (fun i => 256 + Z.of_nat i) zeroed_cec)))
               (rx_msg_len (fst (rk628_hdmirx_cec_irq sample_cec_header
                                   (Z.shiftl 1 17) 18
                                   (fun i => 256 + Z.of_nat i) zeroed_cec))))
    as (_ & _ & Hlen & Hdata & _).
  - vm_compute. left. reflexivity.
  - split; [rewrite Hlen; reflexivity |].
    rewrite (Hdata 3%nat); [reflexivity |].
    rewrite Hlen. vm_compute. lia.
Defined.

Lemma get_timings_stable_witness :
  let r := rk628_hdmirx_get_timings sample_header sample_video_header 1 20
             sample_div_round_closest sample_timing_inputs
             (cleared_timings V4L2_DV_PROGRESSIVE) in
  fst (fst r) = None /\
  exists j, (7 <= j < 20)%nat /\
            snd (fst r)
            = iteration_bt sample_header sample_video_header 1
                sample_timing_inputs j.
Proof.
  cbv zeta.
  assert (Hok : fst (fst (rk628_hdmirx_get_timings sample_header
                            sample_video_header 1 20 sample_div_round_closest
                            sample_timing_inputs
                            (cleared_timings V4L2_DV_PROGRESSIVE))) = None)
    by (vm_compute; reflexivity).
  split; [exact Hok |].
  destruct (get_timings_stable sample_header sample_video_header 1
              sample_timing_inputs 20 sample_div_round_closest
              (cleared_timings V4L2_DV_PROGRESSIVE) Hok)
    as (j & Hj & Hbt & _).
  exists j. split; [exact Hj | exact Hbt].
Defined.
